(** * The local media cache of the Telegram MCP server

    A shallow embedding of [telegram_mcp/utils/media_storage.py] (class
    [MediaStorage]) and of the resource handler [get_telegram_media] of
    [main.py], with the properties of the cache proved over it; then of
    the tool [telegram_clear_downloaded_media] of
    [telegram_mcp/tools/media_tools.py] and of [log_and_format_error] of
    [telegram_mcp/utils/errors.py], which it calls.  The last part
    embeds [MediaStorage._load_index] with the text decoding and the JSON
    scanner that it runs, and relates it to [_save_index].

    Conventions of the embedding.
    - A Python [str] is a [string]; text outside ASCII is held as its UTF-8
      bytes.  File contents are [list byte].
    - The file system is a finite map from normalised paths to the contents
      of regular files, a set of paths on which the operating system refuses
      writes and unlinks, and a journal of the mutations performed.
      Directories are not in the map: those of the world are the ones that
      its files and the base directory of the store imply ([World]).  A
      write is refused before the file is touched, or it completes.
    - Python dictionaries keep insertion order: they are association lists
      with unique keys ([PyDict]).  The metadata dictionaries are objects on
      a heap and the index stores references to them, so that in-place
      updates are seen through every alias.
    - A method is a function from the state to a result (a value or a raised
      exception) and the next state. *)

From Stdlib Require Import ZArith QArith Qabs String Ascii List Bool Lia
  DecimalString DecimalZ DecimalPos.
From stdpp Require Import base option gmap strings list.

(* ================================================================== *)
(** * Python primitives on strings and integers *)
(* ================================================================== *)

Module Py.

(** [f"{n}"] for an [int]: decimal digits, a leading minus sign for a
    negative number. *)
Definition str_of_int (n : Z) : string :=
  NilZero.string_of_int (Z.to_int n).

Definition is_digit (a : ascii) : bool :=
  match Ascii.is_nat a with Some _ => true | None => false end.

(** The ASCII characters that [str.isspace] accepts. *)
Definition is_space (a : ascii) : bool :=
  match a with
  | "009" | "010" | "011" | "012" | "013"
  | "028" | "029" | "030" | "031" | " " => true
  | _ => false
  end%char.

Fixpoint lstrip (s : string) : string :=
  match s with
  | String a s' => if is_space a then lstrip s' else s
  | EmptyString => EmptyString
  end.

Fixpoint rstrip (s : string) : string :=
  match s with
  | EmptyString => EmptyString
  | String a s' =>
      match rstrip s' with
      | EmptyString => if is_space a then EmptyString else String a EmptyString
      | r => String a r
      end
  end.

Definition strip (s : string) : string := rstrip (lstrip s).

(** Digits of an integer literal with the underscores taken out; an
    underscore is accepted only between two digits. [prev] tells whether the
    previous character was a digit. *)
Fixpoint literal_digits (prev : bool) (s : string) : option string :=
  match s with
  | EmptyString => if prev then Some EmptyString else None
  | String a s' =>
      if is_digit a then String a <$> literal_digits true s'
      else if Ascii.eqb a "_" && prev then literal_digits false s'
      else None
  end.

Definition of_digits (s : string) : option Z :=
  match literal_digits false s with
  | Some ds => Z.of_uint <$> NilEmpty.uint_of_string ds
  | None => None
  end.

(** [int(s)] in base 10: surrounding white space, an optional sign, digits
    with single underscores between them. [None] stands for [ValueError]. *)
Definition int_of_str (s : string) : option Z :=
  match strip s with
  | String a r =>
      if Ascii.eqb a "-" then Z.opp <$> of_digits r
      else if Ascii.eqb a "+" then of_digits r
      else of_digits (String a r)
  | EmptyString => None
  end.

(** [s.split(sep)] for a separator of one character. *)
Fixpoint split (sep : ascii) (s : string) : list string :=
  match s with
  | EmptyString => [EmptyString]
  | String a s' =>
      if Ascii.eqb a sep then EmptyString :: split sep s'
      else match split sep s' with
           | h :: t => String a h :: t
           | [] => [String a EmptyString]
           end
  end.

(** [sub in s] *)
Fixpoint contains (sub s : string) : bool :=
  String.prefix sub s ||
  match s with
  | EmptyString => false
  | String _ s' => contains sub s'
  end.

End Py.

(* ================================================================== *)
(** * [pathlib] on normalised POSIX paths *)
(* ================================================================== *)

Module PathLib.

(** [Path.name]: the final component. *)
Fixpoint name (p : string) : string :=
  match p with
  | EmptyString => EmptyString
  | String a p' =>
      if Py.contains "/" p then name p' else p
  end.

(** [name.rfind('.')] as the pair of what stands before the last dot and
    the rest, which starts with that dot. *)
Fixpoint rfind_dot (s : string) : option (string * string) :=
  match s with
  | EmptyString => None
  | String a s' =>
      match rfind_dot s' with
      | Some (before, rest) => Some (String a before, rest)
      | None => if Ascii.eqb a "." then Some (EmptyString, s) else None
      end
  end.

(** [Path.suffix]: [name[i:]] when [0 < i < len(name) - 1] for the index
    [i] of the last dot of the name, the empty string otherwise. *)
Definition suffix (p : string) : string :=
  match rfind_dot (name p) with
  | Some (before, rest) =>
      if negb (String.eqb before "") && Nat.ltb 1 (String.length rest)
      then rest else ""
  | None => ""
  end.

(** [base / child] for a relative [child]. *)
Definition join (base child : string) : string :=
  if String.eqb base "/" then "/" +:+ child
  else if String.eqb base "." then child
  else base +:+ "/" +:+ child.

End PathLib.

(* ================================================================== *)
(** * Python dictionaries *)
(* ================================================================== *)

(** A [dict] with [str] keys: the entries in insertion order, each key at
    most once. *)
Module PyDict.
Section dict.
Context {V : Type}.

(** [d.get(k)] *)
Fixpoint get (k : string) (d : list (string * V)) : option V :=
  match d with
  | [] => None
  | (k', v) :: d' => if decide (k' = k) then Some v else get k d'
  end.

(** [d[k] = v]: an existing key keeps its place, a new one goes last. *)
Fixpoint set (k : string) (v : V) (d : list (string * V))
  : list (string * V) :=
  match d with
  | [] => [(k, v)]
  | (k', v') :: d' =>
      if decide (k' = k) then (k', v) :: d' else (k', v') :: set k v d'
  end.

(** [del d[k]] for a key that is present. *)
Fixpoint del (k : string) (d : list (string * V)) : list (string * V) :=
  match d with
  | [] => []
  | (k', v) :: d' => if decide (k' = k) then d' else (k', v) :: del k d'
  end.

(** [k in d] *)
Definition mem (k : string) (d : list (string * V)) : bool :=
  match get k d with Some _ => true | None => false end.

Definition keys (d : list (string * V)) : list string := d.*1.
Definition values (d : list (string * V)) : list V := d.*2.
End dict.
End PyDict.

(* ================================================================== *)
(** * [json.dump(..., indent=2, ensure_ascii=False)] *)
(* ================================================================== *)

(** The values held by a metadata dictionary. *)
Inductive jvalue :=
| JStr (s : string)
| JInt (n : Z).

#[global] Instance jvalue_eq_dec : EqDecision jvalue.
Proof. solve_decision. Defined.

(** A metadata dictionary, [media_info] in the source. *)
Abbreviation info := (list (string * jvalue)).

Module Json.

Definition quote : ascii := "034"%char.
Definition newline : string := String "010"%char "".

Definition hex_digit (n : N) : ascii :=
  if (n <? 10)%N then ascii_of_N (48 + n) else ascii_of_N (87 + n).

(** The escapes of [py_encode_basestring]: quote, backslash, the named
    control characters, and [\u00xx] for the other characters below 32. *)
Definition escape_char (a : ascii) : string :=
  if Ascii.eqb a quote then String "\"%char (String quote "")
  else if Ascii.eqb a "\"%char then "\\"
  else if Ascii.eqb a "008"%char then "\b"
  else if Ascii.eqb a "012"%char then "\f"
  else if Ascii.eqb a "010"%char then "\n"
  else if Ascii.eqb a "013"%char then "\r"
  else if Ascii.eqb a "009"%char then "\t"
  else if (N_of_ascii a <? 32)%N then
    "\u00" +:+ String (hex_digit (N_of_ascii a / 16))
                 (String (hex_digit (N_of_ascii a mod 16)) "")
  else String a "".

Fixpoint escape (s : string) : string :=
  match s with
  | EmptyString => EmptyString
  | String a s' => escape_char a +:+ escape s'
  end.

Definition str (s : string) : string :=
  String quote (escape s) +:+ String quote "".

Definition value (v : jvalue) : string :=
  match v with
  | JStr s => str s
  | JInt n => Py.str_of_int n
  end.

Fixpoint concat_sep (sep : string) (l : list string) : string :=
  match l with
  | [] => ""
  | [x] => x
  | x :: l' => x +:+ sep +:+ concat_sep sep l'
  end.

(** A dictionary at the nesting depth whose indentation is [ind]. *)
Definition object {V} (enc : V → string) (ind : string)
    (d : list (string * V)) : string :=
  match d with
  | [] => "{}"
  | _ =>
      "{" +:+ newline +:+ ind +:+ "  " +:+
      concat_sep ("," +:+ newline +:+ ind +:+ "  ")
        ((λ kv, str kv.1 +:+ ": " +:+ enc kv.2) <$> d) +:+
      newline +:+ ind +:+ "}"
  end.

(** The text of an index whose metadata dictionaries are given by value. *)
Definition dumps (idx : list (string * info)) : string :=
  object (object value "  ") "" idx.

End Json.

(* ================================================================== *)
(** * [base64.b64encode] *)
(* ================================================================== *)

Module Base64.

Definition char (i : N) : ascii :=
  if (i <? 26)%N then ascii_of_N (65 + i)
  else if (i <? 52)%N then ascii_of_N (71 + i)
  else if (i <? 62)%N then ascii_of_N (i - 4)
  else if (i =? 62)%N then "+"%char
  else "/"%char.

Fixpoint b64encode (bs : list Byte.byte) : string :=
  match bs with
  | [] => ""
  | [a] =>
      let n := (Byte.to_N a * 65536)%N in
      String (char (n / 262144)) (String (char (n / 4096 mod 64)) "==")
  | [a; b] =>
      let n := (Byte.to_N a * 65536 + Byte.to_N b * 256)%N in
      String (char (n / 262144)) (String (char (n / 4096 mod 64))
        (String (char (n / 64 mod 64)) "="))
  | a :: b :: c :: rest =>
      let n := (Byte.to_N a * 65536 + Byte.to_N b * 256 + Byte.to_N c)%N in
      String (char (n / 262144)) (String (char (n / 4096 mod 64))
        (String (char (n / 64 mod 64)) (String (char (n mod 64))
          (b64encode rest))))
  end.

End Base64.

(* ================================================================== *)
(** * Exceptions, the state and the monad of methods *)
(* ================================================================== *)

(** The exceptions that the modelled code raises or meets, each with the
    text that [str(e)] gives.  The texts of the exceptions raised by the
    source itself are exact; those of the library are the ones of CPython
    for plain ASCII arguments. *)
Inductive exn :=
| FileNotFoundError (msg : string)
| PermissionError (msg : string)
| SameFileError (msg : string)
| KeyError (msg : string)
| TypeError (msg : string)
| ValueError (msg : string).

(** [isinstance(e, OSError)]; [IOError] is the same class. *)
Definition is_OSError (e : exn) : bool :=
  match e with
  | FileNotFoundError _ | PermissionError _ | SameFileError _ => true
  | KeyError _ | TypeError _ | ValueError _ => false
  end.

Definition str_of_exn (e : exn) : string :=
  match e with
  | FileNotFoundError m | PermissionError m | SameFileError m
  | KeyError m | TypeError m | ValueError m => m
  end.

Inductive result (A : Type) :=
| Ok (a : A)
| Raise (e : exn).
Arguments Ok {A} a.
Arguments Raise {A} e.

(** A mutation of the file system that was carried out. *)
Inductive fs_event :=
| Wrote (path : string)
| Copied (src dst : string)
| Removed (path : string).

#[global] Instance fs_event_eq_dec : EqDecision fs_event.
Proof. solve_decision. Defined.

Record state := State {
  files : gmap string (list Byte.byte);  (* the regular files, by path *)
  locked : gset string;       (* paths the OS refuses to write or unlink *)
  journal : list fs_event;    (* the mutations carried out, oldest first *)
  heap : list info;           (* the metadata dictionaries, by reference *)
  base_dir : string;          (* [self.base_dir] *)
  index : list (string * nat) (* [self.index]: key to reference *)
}.

Definition M (A : Type) : Type := state → result A * state.

#[global] Instance M_ret : MRet M := λ A a s, (Ok a, s).
#[global] Instance M_bind : MBind M := λ A B f m s,
  match m s with
  | (Ok a, s') => f a s'
  | (Raise e, s') => (Raise e, s')
  end.

Definition raise {A} (e : exn) : M A := λ s, (Raise e, s).
Definition gets {A} (f : state → A) : M A := λ s, (Ok (f s), s).
Definition modify (f : state → state) : M unit := λ s, (Ok tt, f s).

(** [try: body  except OSError: handler] *)
Definition try_except_OSError {A} (body : M A) (handler : exn → M A) : M A :=
  λ s, match body s with
       | (Raise e, s') => if is_OSError e then handler e s' else (Raise e, s')
       | r => r
       end.

(** [try: body  except Exception: handler] *)
Definition try_except {A} (body : M A) (handler : exn → M A) : M A :=
  λ s, match body s with
       | (Raise e, s') => handler e s'
       | r => r
       end.

Definition with_files (f : gmap string (list Byte.byte) → gmap string (list Byte.byte))
    (ev : fs_event) (s : state) : state :=
  State (f (files s)) (locked s) (journal s ++ [ev]) (heap s)
        (base_dir s) (index s).
Definition with_heap (f : list info → list info) (s : state) : state :=
  State (files s) (locked s) (journal s) (f (heap s)) (base_dir s) (index s).
Definition with_index (f : list (string * nat) → list (string * nat))
    (s : state) : state :=
  State (files s) (locked s) (journal s) (heap s) (base_dir s) (f (index s)).

(* ------------------------------------------------------------------ *)
(** ** The file system calls *)

Module OS.

Definition repr (s : string) : string := "'" +:+ s +:+ "'".
Definition repr_path (p : string) : string := "PosixPath(" +:+ repr p +:+ ")".

(** [os.path.exists(p)], and [Path(p).exists()], where [p] names a regular
    file of the world or nothing.  The state holds the regular files only:
    where a directory stands at [p], see [World.path_exists]. *)
Definition path_exists (p : string) : M bool :=
  gets (λ s, bool_decide (is_Some (files s !! p))).

(** [os.remove(p)] *)
Definition remove (p : string) : M unit := λ s,
  match files s !! p with
  | None =>
      (Raise (FileNotFoundError
                ("[Errno 2] No such file or directory: " +:+ repr p)), s)
  | Some _ =>
      if decide (p ∈ locked s)
      then (Raise (PermissionError
                     ("[Errno 13] Permission denied: " +:+ repr p)), s)
      else (Ok tt, with_files (delete p) (Removed p) s)
  end.

(** [shutil.copy2(src, dst)] between regular files: the two must not be the
    same file, the source must exist, the destination must be writable. *)
Definition copy2 (src dst : string) : M unit := λ s,
  match files s !! src with
  | None =>
      (Raise (FileNotFoundError
                ("[Errno 2] No such file or directory: " +:+ repr src)), s)
  | Some content =>
      if decide (src = dst)
      then (Raise (SameFileError
                     (repr_path src +:+ " and " +:+ repr_path dst +:+
                      " are the same file")), s)
      else if decide (dst ∈ locked s)
      then (Raise (PermissionError
                     ("[Errno 13] Permission denied: " +:+ repr dst)), s)
      else (Ok tt, with_files <[dst := content]> (Copied src dst) s)
  end.

(** [Path(p).stat().st_size] *)
Definition stat_st_size (p : string) : M Z := λ s,
  match files s !! p with
  | None =>
      (Raise (FileNotFoundError
                ("[Errno 2] No such file or directory: " +:+ repr p)), s)
  | Some content => (Ok (Z.of_nat (length content)), s)
  end.

(** [with open(p, 'w', encoding='utf-8') as f: f.write(text)]: the open is
    refused and the file is as it was, or the whole text is written.  A
    write that fails once the open has emptied the file (a full disk, a
    text that cannot be encoded) is not part of the model. *)
Definition write_text (p : string) (text : string) : M unit := λ s,
  if decide (p ∈ locked s)
  then (Raise (PermissionError
                 ("[Errno 13] Permission denied: " +:+ repr p)), s)
  else (Ok tt, with_files <[p := String.list_byte_of_string text]> (Wrote p) s).

(** [with open(p, 'rb') as f: f.read()] *)
Definition read_bytes (p : string) : M (list Byte.byte) := λ s,
  match files s !! p with
  | None =>
      (Raise (FileNotFoundError
                ("[Errno 2] No such file or directory: " +:+ repr p)), s)
  | Some content => (Ok content, s)
  end.

End OS.

(* ------------------------------------------------------------------ *)
(** ** The metadata objects *)

(** The dictionary behind a reference; a reference that was never
    allocated does not occur in a run. *)
Definition deref (s : state) (r : nat) : info := default [] (heap s !! r).

(** A dictionary display [{...}]: a new object. *)
Definition new_dict (d : info) : M nat := λ s,
  (Ok (length (heap s)), with_heap (λ h, h ++ [d]) s).

(** [r[k]] *)
Definition getitem (r : nat) (k : string) : M jvalue := λ s,
  match PyDict.get k (deref s r) with
  | Some v => (Ok v, s)
  | None => (Raise (KeyError (OS.repr k)), s)
  end.

(** [r[k] = v] *)
Definition setitem (r : nat) (k : string) (v : jvalue) : M unit :=
  modify (with_heap (alter (PyDict.set k v) r)).

(** A value used where the source needs a [str] (a path, a MIME type). *)
Definition as_str (v : jvalue) : M string :=
  match v with
  | JStr t => mret t
  | JInt _ => raise (TypeError "expected str, bytes or os.PathLike object, not int")
  end.

(** A value used where the source adds numbers. *)
Definition as_int (v : jvalue) : M Z :=
  match v with
  | JInt n => mret n
  | JStr _ => raise (TypeError "unsupported operand type(s) for +: 'int' and 'str'")
  end.

(** [int(t)] *)
Definition int_ (t : string) : M Z :=
  match Py.int_of_str t with
  | Some n => mret n
  | None =>
      raise (ValueError
               ("invalid literal for int() with base 10: " +:+ OS.repr t))
  end.

(* ================================================================== *)
(** * [class MediaStorage] *)
(* ================================================================== *)

(** The result of [get_storage_stats].  The megabyte figure, a [float] in
    the source, is held as the exact decimal that [round(_, 2)] selects;
    the source's value is the binary64 number nearest to it. *)
Record storage_stats := StorageStats {
  total_files : Z;
  total_size_bytes : Z;
  total_size_mb : Q;
  storage_path : string
}.

Module MediaStorage.

(** [self.index_file], set by [__init__] to [self.base_dir / "index.json"]. *)
Definition index_file (s : state) : string :=
  PathLib.join (base_dir s) "index.json".

(** The index with every reference replaced by the dictionary it denotes:
    what [json.dump] walks through. *)
Definition index_doc (s : state) : list (string * info) :=
  (λ kr, (kr.1, deref s kr.2)) <$> index s.

Definition _save_index : M unit :=
  try_except_OSError
    (p ← gets index_file;
     text ← gets (λ s, Json.dumps (index_doc s));
     OS.write_text p text)
    (λ e, raise e).

Definition _get_key (chat_id message_id : Z) : string :=
  Py.str_of_int chat_id +:+ "|" +:+ Py.str_of_int message_id.

(** [self_base_dir] is [self.base_dir]. *)
Definition _get_file_path (self_base_dir : string) (chat_id message_id : Z)
    (extension : string) : string :=
  let filename :=
    "chat" +:+ Py.str_of_int chat_id +:+ "_msg" +:+
    Py.str_of_int message_id +:+ extension in
  PathLib.join self_base_dir filename.

Definition ext_map : list (string * string) :=
  [ ("image/jpeg", ".jpg");
    ("image/png", ".png");
    ("image/gif", ".gif");
    ("image/webp", ".webp");
    ("video/mp4", ".mp4");
    ("audio/mpeg", ".mp3");
    ("audio/ogg", ".ogg");
    ("application/pdf", ".pdf") ].

Section save.
(** [mimetypes.guess_type], whose table depends on the installation. *)
Variable guess_type : string → option string.

(** [now] is the reading of [datetime.now().isoformat()] in this call. *)
Definition save_media (chat_id message_id : Z) (source_path : string)
    (mime_type : option string) (now : string) : M string :=
  found ← OS.path_exists source_path;
  if negb found
  then raise (FileNotFoundError ("Source file not found: " +:+ source_path))
  else
    let mime_type :=
      match mime_type with
      | Some t => t
      | None =>
          match guess_type source_path with
          | Some t => t
          | None => "application/octet-stream"
          end
      end in
    let extension := PathLib.suffix source_path in
    let extension :=
      if String.eqb extension ""
      then default ".bin" (PyDict.get mime_type ext_map)
      else extension in
    self_base_dir ← gets base_dir;
    let dest_path :=
      _get_file_path self_base_dir chat_id message_id extension in
    OS.copy2 source_path dest_path;;
    file_size ← OS.stat_st_size dest_path;
    let key := _get_key chat_id message_id in
    r ← new_dict [ ("path", JStr dest_path);
                   ("mime_type", JStr mime_type);
                   ("timestamp", JStr now);
                   ("size", JInt file_size);
                   ("extension", JStr extension) ];
    modify (with_index (PyDict.set key r));;
    _save_index;;
    mret dest_path.
End save.

(** The reference held by the index, or [None]. *)
Definition get_media (chat_id message_id : Z) : M (option nat) :=
  let key := _get_key chat_id message_id in
  gets (λ s, PyDict.get key (index s)).

(** The truth value of an optional dictionary: [None] and the empty
    dictionary are false. *)
Definition truthy (media_info : option nat) : M bool :=
  gets (λ s, match media_info with
             | Some r => match deref s r with [] => false | _ => true end
             | None => false
             end).

Definition get_media_path (chat_id message_id : Z) : M (option string) :=
  media_info ← get_media chat_id message_id;
  ok ← truthy media_info;
  match media_info return M (option string) with
  | Some r =>
      if (ok : bool) then
        p ← getitem r "path" ≫= as_str;
        found ← OS.path_exists p;
        if (found : bool) then mret (Some p) else mret None
      else mret None
  | None => mret None
  end.

(** The loop of [list_media] over [self.index.items()]. *)
Fixpoint list_media_loop (items : list (string * nat))
    (valid_media : list nat) (stale_keys : list string)
    : M (list nat * list string) :=
  match items with
  | [] => mret (valid_media, stale_keys)
  | (key, media_info) :: items' =>
      p ← getitem media_info "path" ≫= as_str;
      found ← OS.path_exists p;
      if (found : bool) then
        match Py.split "|" key with
        | [chat_id; message_id] =>
            c ← int_ chat_id;
            setitem media_info "chat_id" (JInt c);;
            m ← int_ message_id;
            setitem media_info "message_id" (JInt m);;
            list_media_loop items' (valid_media ++ [media_info]) stale_keys
        | [_] | [] =>
            raise (ValueError "not enough values to unpack (expected 2, got 1)")
        | _ => raise (ValueError "too many values to unpack (expected 2)")
        end
      else list_media_loop items' valid_media (stale_keys ++ [key])
  end.

(** [del self.index[key]] *)
Definition del_index (key : string) : M unit := λ s,
  if PyDict.mem key (index s)
  then (Ok tt, with_index (PyDict.del key) s)
  else (Raise (KeyError (OS.repr key)), s).

Fixpoint del_all (keys : list string) : M unit :=
  match keys with
  | [] => mret tt
  | key :: keys' => del_index key;; del_all keys'
  end.

(** The result is the list of the references held by the index: the
    dictionaries of the index themselves. *)
Definition list_media : M (list nat) :=
  items ← gets index;
  '(valid_media, stale_keys) ← list_media_loop items [] [];
  match stale_keys with
  | [] => mret valid_media
  | _ => del_all stale_keys;; _save_index;; mret valid_media
  end.

Definition delete_media (chat_id message_id : Z) : M bool :=
  let key := _get_key chat_id message_id in
  media_info ← gets (λ s, PyDict.get key (index s));
  match media_info with
  | None => mret false
  | Some r =>
      file_path ← getitem r "path" ≫= as_str;
      found ← OS.path_exists file_path;
      (if (found : bool)
       then try_except_OSError (OS.remove file_path) (λ _, mret tt)
       else mret tt);;
      del_index key;;
      _save_index;;
      mret true
  end.

(** The loop of [clear_all_media] over [self.index.values()]. *)
Fixpoint clear_loop (values : list nat) (deleted_count : Z) : M Z :=
  match values with
  | [] => mret deleted_count
  | media_info :: values' =>
      file_path ← getitem media_info "path" ≫= as_str;
      found ← OS.path_exists file_path;
      deleted_count ←
        (if (found : bool)
         then try_except_OSError
                (OS.remove file_path;; mret (deleted_count + 1)%Z)
                (λ _, mret deleted_count)
         else mret deleted_count);
      clear_loop values' deleted_count
  end.

Definition clear_all_media : M Z :=
  values ← gets (λ s, PyDict.values (index s));
  deleted_count ← clear_loop values 0%Z;
  modify (with_index (λ _, []));;
  _save_index;;
  mret deleted_count.

(** [sum(media["size"] for media in media_list)] *)
Fixpoint sum_sizes (media_list : list nat) (acc : Z) : M Z :=
  match media_list with
  | [] => mret acc
  | media :: rest =>
      n ← getitem media "size" ≫= as_int;
      sum_sizes rest (acc + n)%Z
  end.

(** The integer nearest to [x], the even one of the two at a tie. *)
Definition round_half_even (x : Q) : Z :=
  let d := Z.pos (Qden x) in
  let q := (Qnum x / d)%Z in
  let r := (Qnum x mod d)%Z in
  if (2 * r <? d)%Z then q
  else if (d <? 2 * r)%Z then (q + 1)%Z
  else if Z.even q then q else (q + 1)%Z.

(** [round(x, 2)] *)
Definition round2 (x : Q) : Q :=
  Qmake (round_half_even (x * 100)) 100.

Definition get_storage_stats : M storage_stats :=
  media_list ← list_media;
  total_size ← sum_sizes media_list 0%Z;
  b ← gets base_dir;
  mret (StorageStats
          (Z.of_nat (length media_list))
          total_size
          (round2 (inject_Z total_size / inject_Z (1024 * 1024)))
          b).

End MediaStorage.

(* ================================================================== *)
(** * The resource handler of [main.py] *)
(* ================================================================== *)

Record BlobResourceContents := Blob {
  uri : string;
  blob : string;
  mimeType : string
}.

Definition get_telegram_media (chat_id message_id : string)
    : M (list BlobResourceContents) :=
  try_except
    (chat_id_int ← int_ chat_id;
     message_id_int ← int_ message_id;
     media_info ← MediaStorage.get_media chat_id_int message_id_int;
     ok ← MediaStorage.truthy media_info;
     match media_info return M (list BlobResourceContents) with
     | Some r =>
         if (ok : bool) then
           file_path ← getitem r "path" ≫= as_str;
           found ← OS.path_exists file_path;
           if negb found
           then raise (ValueError ("Media file not found at " +:+ file_path))
           else
             blob_data ← OS.read_bytes file_path;
             let blob_b64 := Base64.b64encode blob_data in
             let resource_uri :=
               "tgfile://" +:+ chat_id +:+ "/" +:+ message_id in
             mime ← getitem r "mime_type" ≫= as_str;
             mret [Blob resource_uri blob_b64 mime]
         else raise (ValueError ("Media not found: " +:+ chat_id +:+ "/" +:+
                                 message_id +:+ ". Download it first."))
     | None =>
         raise (ValueError ("Media not found: " +:+ chat_id +:+ "/" +:+
                            message_id +:+ ". Download it first."))
     end)
    (λ e, raise (ValueError ("Failed to serve media resource: " +:+
                             str_of_exn e))).

(* ================================================================== *)
(** * Observations and well-formed stores *)
(* ================================================================== *)

Fixpoint all_chars (P : ascii → bool) (s : string) : bool :=
  match s with
  | EmptyString => true
  | String a s' => P a && all_chars P s'
  end.

(** The characters of the decimal text of an integer. *)
Definition int_char (a : ascii) : bool :=
  Py.is_digit a || Ascii.eqb a "-".

(** A file extension as [save_media] resolves it starts with a dot. *)
Definition dot_ext (e : string) : Prop := ∃ e', e = String "." e'.

(** The dictionary that [save_media] builds. *)
Definition fresh_info (path mime_type timestamp : string) (size : Z)
    (extension : string) : info :=
  [ ("path", JStr path);
    ("mime_type", JStr mime_type);
    ("timestamp", JStr timestamp);
    ("size", JInt size);
    ("extension", JStr extension) ].

(** The same dictionary once [list_media] has gone over it. *)
Definition listed_info (path mime_type timestamp : string) (size : Z)
    (extension : string) (chat_id message_id : Z) : info :=
  fresh_info path mime_type timestamp size extension ++
  [ ("chat_id", JInt chat_id); ("message_id", JInt message_id) ].

(** The metadata dictionaries that the methods of the class produce for
    the key [key] of a store rooted at [base]. *)
Inductive wf_info (base key : string) : info → Prop :=
| wf_fresh c m mime ts size ext :
    key = MediaStorage._get_key c m → dot_ext ext →
    wf_info base key
      (fresh_info (MediaStorage._get_file_path base c m ext) mime ts size ext)
| wf_listed c m mime ts size ext :
    key = MediaStorage._get_key c m → dot_ext ext →
    wf_info base key
      (listed_info (MediaStorage._get_file_path base c m ext) mime ts size ext
         c m).

(** The invariant of the store: the keys of the index are distinct (it is
    a dictionary), no two keys share a metadata object, and every entry
    refers to a dictionary of the shape above. *)
Record wf (s : state) : Prop := Wf {
  wf_keys : NoDup (index s).*1;
  wf_refs : NoDup (index s).*2;
  wf_entries : ∀ k r, (k, r) ∈ index s →
    ∃ d, heap s !! r = Some d ∧ wf_info (base_dir s) k d
}.

(** [media_info["path"]] of a dictionary, when it is a string. *)
Definition path_of (d : info) : option string :=
  match PyDict.get "path" d with
  | Some (JStr p) => Some p
  | _ => None
  end.

Definition size_of (d : info) : option Z :=
  match PyDict.get "size" d with
  | Some (JInt n) => Some n
  | _ => None
  end.

(** The backing file of the object [r] exists. *)
Definition live (s : state) (r : nat) : bool :=
  match path_of (deref s r) with
  | Some p => bool_decide (is_Some (files s !! p))
  | None => false
  end.

(** The backing file of [r] exists and the OS refuses to unlink it. *)
Definition stuck (s : state) (r : nat) : bool :=
  match path_of (deref s r) with
  | Some p => bool_decide (is_Some (files s !! p)) && bool_decide (p ∈ locked s)
  | None => false
  end.

(** The index file can be written. *)
Definition index_writable (s : state) : Prop :=
  MediaStorage.index_file s ∉ locked s.

(** The number of writes of the file [p] in a journal. *)
Definition writes_of (p : string) (j : list fs_event) : nat :=
  length (filter (λ ev, ev = Wrote p) j).

(** The bytes that [_save_index] puts in the index file in the state [s]. *)
Definition index_bytes (s : state) : list Byte.byte :=
  String.list_byte_of_string (Json.dumps (MediaStorage.index_doc s)).


(** [t] occurs in [s]. *)
Definition occurs (t s : string) : Prop := ∃ pre post, s = pre +:+ t +:+ post.

(** The state after a successful [_save_index]. *)
Definition persisted (s : state) : state :=
  with_files <[MediaStorage.index_file s := index_bytes s]>
    (Wrote (MediaStorage.index_file s)) s.

(** The MIME type and the extension that [save_media] resolves. *)
Definition resolved_mime_type (guess_type : string → option string)
    (source_path : string) (mime_type : option string) : string :=
  match mime_type with
  | Some t => t
  | None =>
      match guess_type source_path with
      | Some t => t
      | None => "application/octet-stream"
      end
  end.

Definition resolved_extension (source_path mime_type : string) : string :=
  if String.eqb (PathLib.suffix source_path) ""
  then default ".bin" (PyDict.get mime_type MediaStorage.ext_map)
  else PathLib.suffix source_path.

(** The state of [save_media] once it has copied [content], resolved
    [mime] and [ext] and updated the index in memory, and the state after
    the index file is written as well. *)
Definition stored (s : state) (chat_id message_id : Z) (source_path : string)
    (content : list Byte.byte) (mime now ext : string) : state :=
  let dest :=
    MediaStorage._get_file_path (base_dir s) chat_id message_id ext in
  let s1 := with_files <[dest := content]> (Copied source_path dest) s in
  let s2 :=
    with_heap (λ h, h ++ [fresh_info dest mime now
                            (Z.of_nat (length content)) ext]) s1 in
  with_index
    (PyDict.set (MediaStorage._get_key chat_id message_id)
       (length (heap s))) s2.

Definition saved (s : state) (chat_id message_id : Z) (source_path : string)
    (content : list Byte.byte) (mime now ext : string) : state :=
  persisted (stored s chat_id message_id source_path content mime now ext).

(** A dictionary after the two assignments of [list_media]. *)
Definition annotated (chat_id message_id : Z) (d : info) : info :=
  PyDict.set "message_id" (JInt message_id)
    (PyDict.set "chat_id" (JInt chat_id) d).

(** The entries of the index whose file exists, and the keys of the
    others. *)
Definition live_entries (s : state) : list (string * nat) :=
  filter (λ kr, live s kr.2) (index s).

Definition stale_keys (s : state) : list string :=
  (filter (λ kr, ¬ live s kr.2) (index s)).*1.

(** The state after a successful [list_media] that left the heap [h']:
    the stale entries are gone, and the index file is rewritten when there
    were any. *)
Definition pruned (s : state) (h' : list info) : state :=
  with_index (λ _, live_entries s) (with_heap (λ _, h') s).

Definition listed (s : state) (h' : list info) : state :=
  match stale_keys s with
  | [] => pruned s h'
  | _ => persisted (pruned s h')
  end.


(** The state after the best-effort removal of the file [p]: the file goes
    when it exists and the OS lets it go. *)
Definition unlinked (p : string) (s : state) : state :=
  match files s !! p with
  | Some _ =>
      if decide (p ∈ locked s) then s
      else with_files (delete p) (Removed p) s
  | None => s
  end.

(** The path held by the object [r]. *)
Definition entry_path (s : state) (r : nat) : string :=
  default "" (path_of (deref s r)).

(** The state after a successful [delete_media] of the entry [key], bound
    to the object [r]. *)
Definition deleted (s : state) (key : string) (r : nat) : state :=
  persisted (with_index (PyDict.del key) (unlinked (entry_path s r) s)).

(** The state after the loop of [clear_all_media] over the paths, and the
    number of files it removes. *)
Fixpoint unlinked_all (paths : list string) (s : state) : state :=
  match paths with
  | [] => s
  | p :: paths' => unlinked_all paths' (unlinked p s)
  end.

Definition removable (s : state) (p : string) : bool :=
  bool_decide (is_Some (files s !! p)) && negb (bool_decide (p ∈ locked s)).

Fixpoint removed_count (paths : list string) (s : state) : Z :=
  match paths with
  | [] => 0
  | p :: paths' =>
      (if removable s p then 1 else 0) + removed_count paths' (unlinked p s)
  end.

(** The state after a successful [clear_all_media]. *)
Definition cleared (s : state) : state :=
  persisted
    (with_index (λ _, [])
       (unlinked_all (entry_path s <$> (index s).*2) s)).


(** The sum of the [size] members of the objects [media_list]. *)
Definition sizes (s : state) (media_list : list nat) : Z :=
  foldr (λ r acc, default 0%Z (size_of (deref s r)) + acc)%Z 0%Z media_list.

(** The dictionary bound to [(chat_id, message_id)], by value. *)
Definition record_of (s : state) (chat_id message_id : Z) : option info :=
  r ← PyDict.get (MediaStorage._get_key chat_id message_id) (index s);
  heap s !! r.


(** A decision procedure for the invariant. *)
Definition wf_info_b (base key : string) (d : info) : bool :=
  match Py.split "|" key with
  | [sc; sm] =>
      match Py.int_of_str sc, Py.int_of_str sm,
            PyDict.get "mime_type" d, PyDict.get "timestamp" d,
            PyDict.get "size" d, PyDict.get "extension" d with
      | Some c, Some m, Some (JStr mime), Some (JStr ts), Some (JInt size),
        Some (JStr ext) =>
          let path := MediaStorage._get_file_path base c m ext in
          bool_decide (key = MediaStorage._get_key c m) &&
          match ext with String a _ => Ascii.eqb a "." | _ => false end &&
          (bool_decide (d = fresh_info path mime ts size ext) ||
           bool_decide (d = listed_info path mime ts size ext c m))
      | _, _, _, _, _, _ => false
      end
  | _ => false
  end.

Definition wf_b (s : state) : bool :=
  bool_decide (NoDup (index s).*1) &&
  bool_decide (NoDup (index s).*2) &&
  forallb (λ kr, match heap s !! kr.2 with
                 | Some d => wf_info_b (base_dir s) kr.1 d
                 | None => false
                 end) (index s).

(* ------------------------------------------------------------------ *)
(** ** Example stores *)

Module Examples.

(** A fragment of the default table of [mimetypes]. *)
Definition guess_type (p : string) : option string :=
  PyDict.get (PathLib.suffix p)
    [ (".jpg", "image/jpeg"); (".jpeg", "image/jpeg"); (".png", "image/png");
      (".gif", "image/gif"); (".pdf", "application/pdf");
      (".mp4", "video/mp4"); (".mp3", "audio/mpeg"); (".txt", "text/plain") ].

Definition base : string := "/home/u/.telegram-mcp/media".
Definition photo : list Byte.byte := [Byte.xff; Byte.xd8; Byte.xff].
Definition note : list Byte.byte := [Byte.x68; Byte.x69].
Definition t1 : string := "2024-05-01T10:00:00".
Definition t2 : string := "2024-05-01T10:05:00".

(** A new store next to two downloaded files. *)
Definition fresh : state :=
  State (<["/tmp/photo.jpg" := photo]> (<["/tmp/note" := note]> ∅))
        ∅ [] [] base [].

(** The store after [save_media(100, 5, "/tmp/photo.jpg")]. *)
Definition one : state :=
  (MediaStorage.save_media guess_type 100 5 "/tmp/photo.jpg" None t1 fresh).2.

(** The same with a second attachment, saved without an extension. *)
Definition two : state :=
  (MediaStorage.save_media guess_type 100 6 "/tmp/note" (Some "text/plain") t2
     one).2.

(** The key [(100, 5)] saved again, from the file without an extension. *)
Definition resaved : state :=
  (MediaStorage.save_media guess_type 100 5 "/tmp/note" (Some "text/plain") t2
     one).2.

(** The file of [(100, 5)] deleted behind the back of the store. *)
Definition one_stale : state :=
  State (delete (MediaStorage._get_file_path base 100 5 ".jpg") (files one))
        (locked one) (journal one) (heap one) (base_dir one) (index one).

Definition two_stale : state :=
  State (delete (MediaStorage._get_file_path base 100 5 ".jpg") (files two))
        (locked two) (journal two) (heap two) (base_dir two) (index two).

(** The file of [(100, 5)] protected against removal. *)
Definition one_stuck : state :=
  State (files one) {[ MediaStorage._get_file_path base 100 5 ".jpg" ]}
        (journal one) (heap one) (base_dir one) (index one).

(** A new store whose directory already holds the file that the key
    [(100, 5)] would be stored in. *)
Definition own_file : state :=
  State {[ MediaStorage._get_file_path base 100 5 ".jpg" := photo ]}
        ∅ [] [] base [].

End Examples.


(* ------------------------------------------------------------------ *)
(** ** The life of a store *)

(** One step: a call of a method that changes the state, with whatever
    outcome, or a change of the files behind the back of the store. *)
Inductive step (guess_type : string → option string)
    : state → state → Prop :=
| step_save c m src mt now s r s' :
    MediaStorage.save_media guess_type c m src mt now s = (r, s') →
    step guess_type s s'
| step_list s r s' :
    MediaStorage.list_media s = (r, s') → step guess_type s s'
| step_delete c m s r s' :
    MediaStorage.delete_media c m s = (r, s') → step guess_type s s'
| step_clear s r s' :
    MediaStorage.clear_all_media s = (r, s') → step guess_type s s'
| step_stats s r s' :
    MediaStorage.get_storage_stats s = (r, s') → step guess_type s s'
| step_outside s files' locked' :
    step guess_type s
      (State files' locked' (journal s) (heap s) (base_dir s) (index s)).

(** The states of a store that started with an empty index. *)
Definition reachable (guess_type : string → option string) (s : state)
    : Prop :=
  ∃ s0, index s0 = [] ∧ rtc (step guess_type) s0 s.


(* ------------------------------------------------------------------ *)
(** ** Reading base64 back *)

Module Base64Read.

(** The place of a character in the alphabet. *)
Definition index_of (a : ascii) : option N :=
  let n := N_of_ascii a in
  if (65 <=? n)%N && (n <=? 90)%N then Some (n - 65)%N
  else if (97 <=? n)%N && (n <=? 122)%N then Some (n - 71)%N
  else if (48 <=? n)%N && (n <=? 57)%N then Some (n + 4)%N
  else if Ascii.eqb a "+" then Some 62%N
  else if Ascii.eqb a "/" then Some 63%N
  else None.

Definition bytes_of (count : nat) (n : N) : option (list Byte.byte) :=
  a ← Byte.of_N (n / 65536);
  b ← Byte.of_N (n / 256 mod 256);
  c ← Byte.of_N (n mod 256);
  Some (take count [a; b; c]).

(** The bytes that a padded base64 text stands for. *)
Fixpoint b64decode (s : string) : option (list Byte.byte) :=
  match s with
  | EmptyString => Some []
  | String c1 (String c2 (String c3 (String c4 rest))) =>
      i1 ← index_of c1;
      i2 ← index_of c2;
      if Ascii.eqb c3 "=" then
        if Ascii.eqb c4 "=" && String.eqb rest ""
        then bytes_of 1 (i1 * 262144 + i2 * 4096)
        else None
      else
        i3 ← index_of c3;
        if Ascii.eqb c4 "=" then
          if String.eqb rest ""
          then bytes_of 2 (i1 * 262144 + i2 * 4096 + i3 * 64)
          else None
        else
          i4 ← index_of c4;
          front ← bytes_of 3 (i1 * 262144 + i2 * 4096 + i3 * 64 + i4);
          back ← b64decode rest;
          Some (front ++ back)
  | _ => None
  end.

End Base64Read.

(* ------------------------------------------------------------------ *)
(** ** The discipline of the journal *)

(** What the store may do to the file system, given what it did before:
    write its index file, copy a file to the place of a key in its
    directory, and remove a file that it copied there. *)
Definition event_ok (base : string) (before : list fs_event) (ev : fs_event)
    : Prop :=
  match ev with
  | Wrote p => p = PathLib.join base "index.json"
  | Copied _ dst =>
      ∃ c m ext, dst = MediaStorage._get_file_path base c m ext
  | Removed p => ∃ src, Copied src p ∈ before
  end.

Definition journal_ok (base : string) (j : list fs_event) : Prop :=
  ∀ before ev after, j = before ++ ev :: after → event_ok base before ev.

(** Every file that the index refers to was copied there by the store. *)
Definition entries_copied (s : state) : Prop :=
  ∀ k r, (k, r) ∈ index s → ∃ src, Copied src (entry_path s r) ∈ journal s.

Definition kept (s : state) : Prop :=
  journal_ok (base_dir s) (journal s) ∧ entries_copied s.

(* ------------------------------------------------------------------ *)
(** ** More example stores *)

Module Scenes.

(** The store [Examples.fresh] with an index file that cannot be
    written. *)
Definition read_only_index : state :=
  State (files Examples.fresh)
        {[ PathLib.join Examples.base "index.json" ]}
        [] [] Examples.base [].

(** The store [Examples.fresh] with the place of [(100, 5)] taken by a file
    that cannot be overwritten. *)
Definition taken : state :=
  State (<[MediaStorage._get_file_path Examples.base 100 5 ".jpg" :=
             Examples.note]> (files Examples.fresh))
        {[ MediaStorage._get_file_path Examples.base 100 5 ".jpg" ]}
        [] [] Examples.base [].

(** [Examples.two] after [delete_media(100, 5)]. *)
Definition two_less_one : state :=
  (MediaStorage.delete_media 100 5 Examples.two).2.

(** [Examples.two] with a third attachment, of another chat. *)
Definition three : state :=
  (MediaStorage.save_media Examples.guess_type 200 1 "/tmp/photo.jpg" None
     Examples.t2 Examples.two).2.

(** [Examples.one] with an index file that cannot be written any more. *)
Definition one_read_only : state :=
  State (files Examples.one)
        {[ PathLib.join Examples.base "index.json" ]}
        (journal Examples.one) (heap Examples.one) (base_dir Examples.one)
        (index Examples.one).

(** A hash function for the examples. *)
Definition hash (text : string) : Z := (- Z.of_nat (String.length text))%Z.

End Scenes.

(* ================================================================== *)
(** * [telegram_mcp/utils/errors.py] *)
(* ================================================================== *)

Module PyText.

(** [str.lower] on ASCII text: the letters [A] to [Z]. *)
Definition lower_char (a : ascii) : ascii :=
  let n := N_of_ascii a in
  if (65 <=? n)%N && (n <=? 90)%N then ascii_of_N (n + 32) else a.

Fixpoint lower (s : string) : string :=
  match s with
  | EmptyString => EmptyString
  | String a s' => String (lower_char a) (lower s')
  end.

(** [digits.rjust(width, "0")] *)
Definition zfill (width : nat) (digits : string) : string :=
  Nat.iter (width - String.length digits) (String "0") digits.

(** [f"{n:0{width}d}"]: the sign counts in the width and stands before
    the zeros. *)
Definition format_0d (width : nat) (n : Z) : string :=
  if (n <? 0)%Z
  then String "-" (zfill (width - 1) (Py.str_of_int (- n)))
  else zfill width (Py.str_of_int n).

(** [f"{v}"] for an optional integer. *)
Definition format_optional (v : option Z) : string :=
  match v with
  | Some n => Py.str_of_int n
  | None => "None"
  end.

End PyText.

(** [class ErrorCategory(str, Enum)], members in the order of the class
    body, which is the order of iteration. *)
Inductive ErrorCategory :=
| CHAT | MSG | CONTACT | GROUP | MEDIA | PROFILE | AUTH | ADMIN.

#[global] Instance ErrorCategory_eq_dec : EqDecision ErrorCategory.
Proof. solve_decision. Defined.

Module Errors.

Definition categories : list ErrorCategory :=
  [CHAT; MSG; CONTACT; GROUP; MEDIA; PROFILE; AUTH; ADMIN].

(** [category.name] *)
Definition name (category : ErrorCategory) : string :=
  match category with
  | CHAT => "CHAT" | MSG => "MSG" | CONTACT => "CONTACT" | GROUP => "GROUP"
  | MEDIA => "MEDIA" | PROFILE => "PROFILE" | AUTH => "AUTH"
  | ADMIN => "ADMIN"
  end.

(** [category.value] *)
Definition value (category : ErrorCategory) : string :=
  match category with
  | CHAT => "CHAT" | MSG => "MSG" | CONTACT => "CONTACT" | GROUP => "GROUP"
  | MEDIA => "MEDIA" | PROFILE => "PROFILE" | AUTH => "AUTH"
  | ADMIN => "ADMIN"
  end.

Section log.
(** [hash] of a [str], which changes from one process to the next. *)
Variable hash : string → Z.

(** The message that the function returns.  The record that it hands to
    the logger, the only use of [error] and of the keyword arguments, is
    not part of the model. *)
Definition log_and_format_error (function_name : string) (error : exn)
    (prefix : option ErrorCategory) (kwargs : list (string * string))
    : string :=
  let prefix :=
    match prefix with
    | Some p => Some p
    | None =>
        List.find
          (λ category,
             Py.contains (PyText.lower (name category))
               (PyText.lower function_name))
          categories
    end in
  let prefix_str :=
    match prefix with
    | Some p => value p
    | None => "GEN"
    end in
  let error_code :=
    prefix_str +:+ "-ERR-" +:+
    PyText.format_0d 3 (Z.abs (hash function_name) mod 1000) in
  "An error occurred (code: " +:+ error_code +:+ "). " +:+
  "Check mcp_errors.log for details.".
End log.

End Errors.

(* ================================================================== *)
(** * [json.dumps(obj)] *)
(* ================================================================== *)

(** The documents that the tools serialise. *)
#[local] Unset Elimination Schemes.
Inductive json :=
| JNull
| JBool (b : bool)
| JNumber (n : Z)
| JString (s : string)
| JArray (items : list json)
| JObject (members : list (string * json)).
#[local] Set Elimination Schemes.

Module Utf8.

(** The code points of a text held as UTF-8. *)
Fixpoint code_points (s : string) : list N :=
  match s with
  | EmptyString => []
  | String a rest =>
      let n := N_of_ascii a in
      if (n <? 192)%N then n :: code_points rest
      else if (n <? 224)%N then
        match rest with
        | String b rest' =>
            ((n - 192) * 64 + (N_of_ascii b - 128))%N :: code_points rest'
        | _ => [n]
        end
      else if (n <? 240)%N then
        match rest with
        | String b (String c rest') =>
            ((n - 224) * 4096 + (N_of_ascii b - 128) * 64 +
             (N_of_ascii c - 128))%N :: code_points rest'
        | _ => [n]
        end
      else
        match rest with
        | String b (String c (String d rest')) =>
            ((n - 240) * 262144 + (N_of_ascii b - 128) * 4096 +
             (N_of_ascii c - 128) * 64 + (N_of_ascii d - 128))%N
              :: code_points rest'
        | _ => [n]
        end
  end.

End Utf8.

Module JsonText.

(** [\uxxxx] *)
Definition u_escape (n : N) : string :=
  "\u" +:+
  String (Json.hex_digit (n / 4096))
    (String (Json.hex_digit (n / 256 mod 16))
       (String (Json.hex_digit (n / 16 mod 16))
          (String (Json.hex_digit (n mod 16)) ""))).

(** The escapes of [py_encode_basestring_ascii]: quote, backslash and the
    named control characters; the printable ASCII characters as they are;
    [\uxxxx] for every other character, as a surrogate pair above
    [U+FFFF]. *)
Definition escape_code_point (n : N) : string :=
  if (n =? 34)%N then String "\"%char (String Json.quote "")
  else if (n =? 92)%N then "\\"
  else if (n =? 10)%N then "\n"
  else if (n =? 13)%N then "\r"
  else if (n =? 9)%N then "\t"
  else if (n =? 12)%N then "\f"
  else if (n =? 8)%N then "\b"
  else if (32 <=? n)%N && (n <=? 126)%N then String (ascii_of_N n) ""
  else if (n <? 65536)%N then u_escape n
  else
    let v := (n - 65536)%N in
    u_escape (55296 + v / 1024 mod 1024) +:+ u_escape (56320 + v mod 1024).

Definition str (s : string) : string :=
  String Json.quote
    (String.concat "" (escape_code_point <$> Utf8.code_points s)) +:+
  String Json.quote "".

(** [json.dumps(v)] with the default separators and [ensure_ascii]. *)
Fixpoint dumps (v : json) : string :=
  match v with
  | JNull => "null"
  | JBool true => "true"
  | JBool false => "false"
  | JNumber n => Py.str_of_int n
  | JString s => str s
  | JArray items => "[" +:+ Json.concat_sep ", " (List.map dumps items) +:+ "]"
  | JObject members =>
      "{" +:+
      Json.concat_sep ", "
        (List.map (λ kv, str kv.1 +:+ ": " +:+ dumps kv.2) members) +:+
      "}"
  end.

End JsonText.

(* ================================================================== *)
(** * [telegram_mcp/tools/media_tools.py]: the tool on the cache *)
(* ================================================================== *)

Module MediaTools.

(** [f"{v}"] for a value of a metadata dictionary. *)
Definition format_value (v : jvalue) : string :=
  match v with
  | JStr t => t
  | JInt n => Py.str_of_int n
  end.

(** [v == n] for an integer [n]. *)
Definition eq_int (v : jvalue) (n : Z) : bool :=
  match v with
  | JInt k => (k =? n)%Z
  | JStr _ => false
  end.

(** [MediaStorage.delete_media] once it has its key. *)
Definition delete_media_key (key : string) : M bool :=
  media_info ← gets (λ s, PyDict.get key (index s));
  match media_info with
  | None => mret false
  | Some r =>
      file_path ← getitem r "path" ≫= as_str;
      found ← OS.path_exists file_path;
      (if (found : bool)
       then try_except_OSError (OS.remove file_path) (λ _, mret tt)
       else mret tt);;
      MediaStorage.del_index key;;
      MediaStorage._save_index;;
      mret true
  end.

(** [media_storage.delete_media(a, b)] for two values taken out of a
    dictionary: the method does no more with them than to format them into
    its key. *)
Definition delete_media_values (a b : jvalue) : M bool :=
  delete_media_key (format_value a +:+ "|" +:+ format_value b).

(** The loop of the branch for one chat. *)
Fixpoint clear_chat_loop (chat_id : Z) (media_list : list nat)
    (cleared_count : Z) : M Z :=
  match media_list with
  | [] => mret cleared_count
  | media :: rest =>
      v ← getitem media "chat_id";
      if eq_int v chat_id then
        a ← getitem media "chat_id";
        b ← getitem media "message_id";
        delete_media_values a b;;
        clear_chat_loop chat_id rest (cleared_count + 1)%Z
      else clear_chat_loop chat_id rest cleared_count
  end.

Section tools.
Variable hash : string → Z.

Definition telegram_clear_downloaded_media (chat_id message_id : option Z)
    : M string :=
  try_except
    (match chat_id, message_id with
     | Some c, Some m =>
         success ← MediaStorage.delete_media c m;
         if (success : bool) then
           mret (JsonText.dumps
                   (JObject [ ("ok", JBool true);
                              ("message", JString "Cleared media file");
                              ("chat_id", JNumber c);
                              ("message_id", JNumber m) ]))
         else
           mret (JsonText.dumps
                   (JObject [ ("ok", JBool false);
                              ("message", JString "No media file found");
                              ("chat_id", JNumber c);
                              ("message_id", JNumber m) ]))
     | Some c, None =>
         media_list ← MediaStorage.list_media;
         cleared_count ← clear_chat_loop c media_list 0%Z;
         mret (JsonText.dumps
                 (JObject [ ("ok", JBool true);
                            ("message", JString "Cleared chat media");
                            ("chat_id", JNumber c);
                            ("count", JNumber cleared_count) ]))
     | None, _ =>
         cleared_count ← MediaStorage.clear_all_media;
         mret (JsonText.dumps
                 (JObject [ ("ok", JBool true);
                            ("message", JString "Cleared all media");
                            ("count", JNumber cleared_count) ]))
     end)
    (λ e,
       mret (Errors.log_and_format_error hash
               "telegram_clear_downloaded_media" e None
               [ ("chat_id", PyText.format_optional chat_id);
                 ("message_id", PyText.format_optional message_id) ])).
End tools.

End MediaTools.

(* ================================================================== *)
(** * The two stores of the server *)
(* ================================================================== *)

(** [main.py] evaluates [MediaStorage()] for its resource handler and
    [media_tools.py] evaluates it again for its tools: two objects over one
    directory, each with the index it holds in memory.  [world] has the
    files, the heap and the index of the object of [main.py];
    [tools_index] is the index of the object of [media_tools.py]. *)
Record process := Process {
  world : state;
  tools_index : list (string * nat)
}.

(** A method of [main.media_storage], or a handler that uses it. *)
Definition in_main {A} (m : M A) (p : process) : result A * process :=
  let '(r, s') := m (world p) in
  (r, Process s' (tools_index p)).

(** A method of [media_tools.media_storage], or a tool that uses it. *)
Definition in_tools {A} (m : M A) (p : process) : result A * process :=
  let '(r, s') := m (with_index (λ _, tools_index p) (world p)) in
  (r, Process (with_index (λ _, index (world p)) s') (index s')).

(** The key of a record as the integers it is made of. *)
Definition key_ids (key : string) : option (Z * Z) :=
  match Py.split "|" key with
  | [a; b] =>
      match Py.int_of_str a, Py.int_of_str b with
      | Some c, Some m => Some (c, m)
      | _, _ => None
      end
  | _ => None
  end.

(** The records of the chat [chat_id]. *)
Definition of_chat (chat_id : Z) (kr : string * nat) : bool :=
  match key_ids kr.1 with
  | Some (c, _) => (c =? chat_id)%Z
  | None => false
  end.

(** The state after the loop of the branch for one chat over the entries
    [items]: the entries of the chat are deleted one after the other. *)
Fixpoint chat_cleared (chat_id : Z) (items : list (string * nat))
    (s : state) : state :=
  match items with
  | [] => s
  | (key, r) :: rest =>
      chat_cleared chat_id rest
        (if of_chat chat_id (key, r) then deleted s key r else s)
  end.

(** [text] is made of three digits that read as [n]. *)
Definition three_digits (n : Z) (text : string) : bool :=
  match text with
  | String d1 (String d2 (String d3 EmptyString)) =>
      Py.is_digit d1 && Py.is_digit d2 && Py.is_digit d3 &&
      bool_decide (Py.int_of_str text = Some n)
  | _ => false
  end.

(** The entries that the loop goes over: records of the index that carry
    the two identifiers of their key. *)
Definition listed_items (s : state) (items : list (string * nat)) : Prop :=
  NoDup items.*1 ∧
  ∀ k r, (k, r) ∈ items →
    (k, r) ∈ index s ∧
    ∃ c m, k = MediaStorage._get_key c m ∧
           PyDict.get "chat_id" (deref s r) = Some (JInt c) ∧
           PyDict.get "message_id" (deref s r) = Some (JInt m).

(* ================================================================== *)
(** * Reading the index back: [open(..., 'r', encoding='utf-8')],
      [json.load] and [MediaStorage._load_index] *)
(* ================================================================== *)

Module TextIO.

(** The length of the UTF-8 sequence that the byte [a] starts; 0 when no
    sequence starts with it. *)
Definition lead (a : ascii) : nat :=
  let n := N_of_ascii a in
  if (n <? 128)%N then 1
  else if (n <? 194)%N then 0
  else if (n <? 224)%N then 2
  else if (n <? 240)%N then 3
  else if (n <? 245)%N then 4
  else 0.

Definition is_ascii (a : ascii) : bool := (N_of_ascii a <? 128)%N.

(** A continuation byte. *)
Definition cont (a : ascii) : bool :=
  (128 <=? N_of_ascii a)%N && (N_of_ascii a <=? 191)%N.

(** The second byte of a sequence of three or four bytes that starts with
    [a]: no overlong form, no surrogate, nothing above [U+10FFFF]. *)
Definition second (a b : ascii) : bool :=
  let n := N_of_ascii a in
  let m := N_of_ascii b in
  if (n =? 224)%N then (160 <=? m)%N && (m <=? 191)%N
  else if (n =? 237)%N then (128 <=? m)%N && (m <=? 159)%N
  else if (n =? 240)%N then (144 <=? m)%N && (m <=? 191)%N
  else if (n =? 244)%N then (128 <=? m)%N && (m <=? 143)%N
  else cont b.

(** The bytes are the UTF-8 form of a text: the strict decoder of Python
    accepts them. *)
Fixpoint utf8_valid (s : string) : bool :=
  match s with
  | EmptyString => true
  | String a rest =>
      match lead a, rest with
      | 1, _ => utf8_valid rest
      | 2, String b rest' => cont b && utf8_valid rest'
      | 3, String b (String c rest') =>
          second a b && cont c && utf8_valid rest'
      | 4, String b (String c (String d rest')) =>
          second a b && cont c && cont d && utf8_valid rest'
      | _, _ => false
      end
  end.

End TextIO.

(** The values that [json.load] builds.  A [float] is held as the literal
    it was read from; the source holds the binary64 number that the
    literal denotes. *)
#[local] Unset Elimination Schemes.
Inductive pyvalue :=
| PNone
| PBool (b : bool)
| PInt (n : Z)
| PFloat (literal : string)
| PStr (s : string)
| PList (items : list pyvalue)
| PDict (members : list (string * pyvalue)).
#[local] Set Elimination Schemes.

(** The scanner of [json.decoder], as the C accelerator has it.  [None]
    stands for [JSONDecodeError].  The limits of the interpreter (the depth
    of recursion, the number of digits of an [int]) are not modelled. *)
Module JsonLoad.

Definition is_ws (a : ascii) : bool :=
  Ascii.eqb a " " || Ascii.eqb a "009" || Ascii.eqb a "010" ||
  Ascii.eqb a "013".

Fixpoint skip_ws (s : string) : string :=
  match s with
  | String a s' => if is_ws a then skip_ws s' else s
  | EmptyString => EmptyString
  end.

Definition hex_value (a : ascii) : option N :=
  let n := N_of_ascii a in
  if (48 <=? n)%N && (n <=? 57)%N then Some (n - 48)%N
  else if (97 <=? n)%N && (n <=? 102)%N then Some (n - 87)%N
  else if (65 <=? n)%N && (n <=? 70)%N then Some (n - 55)%N
  else None.

Definition hex4 (a b c d : ascii) : option N :=
  x ← hex_value a; y ← hex_value b; z ← hex_value c; w ← hex_value d;
  Some (x * 4096 + y * 256 + z * 16 + w)%N.

(** The UTF-8 form of a code point; a surrogate that stands alone is
    held in the form of three bytes. *)
Definition utf8_encode (n : N) : string :=
  if (n <? 128)%N then String (ascii_of_N n) ""
  else if (n <? 2048)%N then
    String (ascii_of_N (192 + n / 64))
      (String (ascii_of_N (128 + n mod 64)) "")
  else if (n <? 65536)%N then
    String (ascii_of_N (224 + n / 4096))
      (String (ascii_of_N (128 + n / 64 mod 64))
         (String (ascii_of_N (128 + n mod 64)) ""))
  else
    String (ascii_of_N (240 + n / 262144))
      (String (ascii_of_N (128 + n / 4096 mod 64))
         (String (ascii_of_N (128 + n / 64 mod 64))
            (String (ascii_of_N (128 + n mod 64)) ""))).

(** The character that a backslash and [a] stand for, [\u] apart. *)
Definition simple_escape (a : ascii) : option ascii :=
  if Ascii.eqb a Json.quote then Some Json.quote
  else if Ascii.eqb a "\" then Some "\"%char
  else if Ascii.eqb a "/" then Some "/"%char
  else if Ascii.eqb a "b" then Some "008"%char
  else if Ascii.eqb a "f" then Some "012"%char
  else if Ascii.eqb a "n" then Some "010"%char
  else if Ascii.eqb a "r" then Some "013"%char
  else if Ascii.eqb a "t" then Some "009"%char
  else None.

Definition is_high_surrogate (n : N) : bool :=
  (55296 <=? n)%N && (n <=? 56319)%N.
Definition is_low_surrogate (n : N) : bool :=
  (56320 <=? n)%N && (n <=? 57343)%N.

(** [scanstring] in strict mode, from the character after the opening
    quote: the text of the string and what follows the closing quote. *)
Fixpoint scan_string (s : string) : option (string * string) :=
  match s with
  | EmptyString => None
  | String a rest =>
      if Ascii.eqb a Json.quote then Some (EmptyString, rest)
      else if Ascii.eqb a "\" then
        match rest with
        | EmptyString => None
        | String e rest1 =>
            if Ascii.eqb e "u" then
              match rest1 with
              | String h1 (String h2 (String h3 (String h4 rest2))) =>
                  match hex4 h1 h2 h3 h4 with
                  | None => None
                  | Some cp =>
                      let plain :=
                        match scan_string rest2 with
                        | Some (t, r) => Some (utf8_encode cp +:+ t, r)
                        | None => None
                        end in
                      if is_high_surrogate cp then
                        match rest2 with
                        | String b (String u (String l1 (String l2
                            (String l3 (String l4 rest3))))) =>
                            if Ascii.eqb b "\" && Ascii.eqb u "u" &&
                               negb (String.eqb rest3 "")
                            then
                              match hex4 l1 l2 l3 l4 with
                              | None => None
                              | Some cp2 =>
                                  if is_low_surrogate cp2 then
                                    match scan_string rest3 with
                                    | Some (t, r) =>
                                        Some (utf8_encode
                                                (65536 + (cp - 55296) * 1024 +
                                                 (cp2 - 56320)) +:+ t, r)
                                    | None => None
                                    end
                                  else plain
                              end
                            else plain
                        | _ => plain
                        end
                      else plain
                  end
              | _ => None
              end
            else
              match simple_escape e with
              | None => None
              | Some c =>
                  match scan_string rest1 with
                  | Some (t, r) => Some (String c t, r)
                  | None => None
                  end
              end
        end
      else if (N_of_ascii a <? 32)%N then None
      else
        match scan_string rest with
        | Some (t, r) => Some (String a t, r)
        | None => None
        end
  end.

(** The digits at the start of a text, and the rest. *)
Fixpoint span_digits (s : string) : string * string :=
  match s with
  | String a s' =>
      if Py.is_digit a
      then let '(ds, rest) := span_digits s' in (String a ds, rest)
      else (EmptyString, s)
  | EmptyString => (EmptyString, EmptyString)
  end.

(** The integer part of a number: an optional minus sign, then [0] alone
    or a digit from 1 to 9 followed by digits. *)
Definition scan_int (s : string) : option (string * string) :=
  let '(sign, s1) :=
    match s with
    | String a r => if Ascii.eqb a "-" then ("-", r) else ("", s)
    | EmptyString => ("", s)
    end in
  match s1 with
  | String a r =>
      if Ascii.eqb a "0" then Some (sign +:+ "0", r)
      else if Py.is_digit a then
        let '(ds, rest) := span_digits r in Some (sign +:+ String a ds, rest)
      else None
  | EmptyString => None
  end.

(** The fraction, if any: a dot and digits, at least one. *)
Definition scan_frac (s : string) : string * string :=
  match s with
  | String a r =>
      if Ascii.eqb a "." then
        match r with
        | String b r' =>
            if Py.is_digit b
            then let '(ds, rest) := span_digits r' in
                 (String a (String b ds), rest)
            else (EmptyString, s)
        | EmptyString => (EmptyString, s)
        end
      else (EmptyString, s)
  | EmptyString => (EmptyString, s)
  end.

(** The exponent, if any: [e] or [E], an optional sign and digits, at
    least one; without digits there is no exponent. *)
Definition scan_exp (s : string) : string * string :=
  match s with
  | String e r =>
      if Ascii.eqb e "e" || Ascii.eqb e "E" then
        let '(sign, r1) :=
          match r with
          | String a r' =>
              if Ascii.eqb a "-" || Ascii.eqb a "+"
              then (String a "", r') else ("", r)
          | EmptyString => ("", r)
          end in
        match span_digits r1 with
        | (EmptyString, _) => (EmptyString, s)
        | (ds, rest) => (String e (sign +:+ ds), rest)
        end
      else (EmptyString, s)
  | EmptyString => (EmptyString, s)
  end.

Definition scan_number (s : string) : option (pyvalue * string) :=
  match scan_int s with
  | None => None
  | Some (i, rest) =>
      let '(f, rest) := scan_frac rest in
      let '(e, rest) := scan_exp rest in
      if String.eqb f "" && String.eqb e ""
      then match Py.int_of_str i with
           | Some n => Some (PInt n, rest)
           | None => None
           end
      else Some (PFloat (i +:+ f +:+ e), rest)
  end.

(** [s] without the prefix [p], when it starts with it. *)
Fixpoint strip_prefix (p s : string) : option string :=
  match p, s with
  | EmptyString, _ => Some s
  | String a p', String b s' =>
      if Ascii.eqb a b then strip_prefix p' s' else None
  | _, _ => None
  end.

Definition scan_constant (s : string) : option (pyvalue * string) :=
  match strip_prefix "null" s with
  | Some r => Some (PNone, r)
  | None =>
  match strip_prefix "true" s with
  | Some r => Some (PBool true, r)
  | None =>
  match strip_prefix "false" s with
  | Some r => Some (PBool false, r)
  | None =>
  match strip_prefix "NaN" s with
  | Some r => Some (PFloat "NaN", r)
  | None =>
  match strip_prefix "Infinity" s with
  | Some r => Some (PFloat "Infinity", r)
  | None =>
  match strip_prefix "-Infinity" s with
  | Some r => Some (PFloat "-Infinity", r)
  | None => None
  end end end end end end.

(** [dict(pairs)]: a later value for a key replaces the earlier one in
    its place. *)
Definition to_dict (pairs : list (string * pyvalue))
    : list (string * pyvalue) :=
  foldl (λ d kv, PyDict.set kv.1 kv.2 d) [] pairs.

(** [scan_once], [_parse_object] from its first key on and
    [_parse_array] from its first item on.  [fuel] bounds the number of
    nested calls; the length of the text is enough. *)
Fixpoint scan_once (fuel : nat) (s : string) : option (pyvalue * string) :=
  match fuel with
  | O => None
  | S fuel =>
      match s with
      | EmptyString => None
      | String a rest =>
          if Ascii.eqb a Json.quote then
            match scan_string rest with
            | Some (t, r) => Some (PStr t, r)
            | None => None
            end
          else if Ascii.eqb a "{" then
            match skip_ws rest with
            | String b r =>
                if Ascii.eqb b "}" then Some (PDict [], r)
                else
                  match parse_object fuel (String b r) with
                  | Some (pairs, r') => Some (PDict (to_dict pairs), r')
                  | None => None
                  end
            | EmptyString => None
            end
          else if Ascii.eqb a "[" then
            match skip_ws rest with
            | String b r =>
                if Ascii.eqb b "]" then Some (PList [], r)
                else
                  match parse_array fuel (String b r) with
                  | Some (items, r') => Some (PList items, r')
                  | None => None
                  end
            | EmptyString => None
            end
          else
            match scan_constant s with
            | Some vr => Some vr
            | None => scan_number s
            end
      end
  end
with parse_object (fuel : nat) (s : string)
    : option (list (string * pyvalue) * string) :=
  match fuel with
  | O => None
  | S fuel =>
      match s with
      | String a rest =>
          if Ascii.eqb a Json.quote then
            match scan_string rest with
            | None => None
            | Some (key, r) =>
                match skip_ws r with
                | String c r1 =>
                    if Ascii.eqb c ":" then
                      match scan_once fuel (skip_ws r1) with
                      | None => None
                      | Some (val, r2) =>
                          match skip_ws r2 with
                          | String d r3 =>
                              if Ascii.eqb d "}" then Some ([(key, val)], r3)
                              else if Ascii.eqb d "," then
                                match parse_object fuel (skip_ws r3) with
                                | Some (pairs, r4) =>
                                    Some ((key, val) :: pairs, r4)
                                | None => None
                                end
                              else None
                          | EmptyString => None
                          end
                      end
                    else None
                | EmptyString => None
                end
            end
          else None
      | EmptyString => None
      end
  end
with parse_array (fuel : nat) (s : string)
    : option (list pyvalue * string) :=
  match fuel with
  | O => None
  | S fuel =>
      match scan_once fuel s with
      | None => None
      | Some (val, r) =>
          match skip_ws r with
          | String d r1 =>
              if Ascii.eqb d "]" then Some ([val], r1)
              else if Ascii.eqb d "," then
                match parse_array fuel (skip_ws r1) with
                | Some (items, r2) => Some (val :: items, r2)
                | None => None
                end
              else None
          | EmptyString => None
          end
      end
  end.

(** [json.loads(s)] *)
Definition loads (s : string) : option pyvalue :=
  match scan_once (S (String.length s)) (skip_ws s) with
  | Some (v, rest) =>
      if String.eqb (skip_ws rest) "" then Some v else None
  | None => None
  end.

End JsonLoad.

(** What [_load_index] does: it binds [self.index] to a value, or the
    file is not UTF-8 and the [UnicodeDecodeError] of the read, which the
    method does not catch, leaves it and the constructor. *)
Inductive loaded :=
| Bound (self_index : pyvalue)
| UnicodeDecodeError.

(** [MediaStorage._load_index].  The translation of line ends that a read
    in text mode performs is left out: it replaces white space by white
    space outside the strings and a control character by a control
    character inside them, which the scanner treats alike.  The limits of
    the interpreter (the depth of the recursion, the number of digits of
    an integer literal) are left out as well. *)
Definition _load_index (s : state) : loaded :=
  match files s !! MediaStorage.index_file s with
  | Some content =>
      let text := String.string_of_list_byte content in
      if TextIO.utf8_valid text then
        match JsonLoad.loads text with
        | Some document => Bound document
        | None => Bound (PDict [])
        end
      else UnicodeDecodeError
  | None => Bound (PDict [])
  end.

(** The index of a store as the value that [json.load] builds for it. *)
Definition pyvalue_of (v : jvalue) : pyvalue :=
  match v with
  | JStr t => PStr t
  | JInt n => PInt n
  end.

Definition pyvalue_of_info (d : info) : pyvalue :=
  PDict ((λ fv, (fv.1, pyvalue_of fv.2)) <$> d).

Definition pyvalue_of_index (idx : list (string * info)) : pyvalue :=
  PDict ((λ kd, (kd.1, pyvalue_of_info kd.2)) <$> idx).

(** The strings of the index are texts. *)
Definition texts_valid (s : state) : Prop :=
  ∀ k r f t, (k, r) ∈ index s → (f, JStr t) ∈ deref s r →
    TextIO.utf8_valid t = true.

Definition texts_valid_b (s : state) : bool :=
  forallb
    (λ kr, forallb
             (λ fv, match fv.2 with
                    | JStr t => TextIO.utf8_valid t
                    | JInt _ => true
                    end)
             (deref s kr.2))
    (index s).

(** A piece of text: what stands before it or after it decides alone
    whether the whole is a text. *)
Definition text_piece (p : string) : Prop :=
  ∀ t, TextIO.utf8_valid (p +:+ t) = TextIO.utf8_valid t.

(** The characters that follow a value in the index file. *)
Definition delim (c : ascii) : bool :=
  Ascii.eqb c "," || Ascii.eqb c "010".

(** Fuel that is enough for the members [d], when [need] is enough for
    each value. *)
Definition sum_need {V} (need : V → nat) (d : list (string * V)) : nat :=
  foldr (λ kv acc, S (need kv.2) + acc) 0 d.

(* ================================================================== *)
(** * The world at a path *)
(* ================================================================== *)

(** The state holds the regular files of the world, each under the
    absolute path that names it.  The directories of the world are those
    that these files and the base directory of the store imply. *)
Module World.

(** [p] is an absolute path as [Path] spells it, and it names what it
    refers to directly: it starts with a slash, and none of its
    components is empty, [.] or [..]. *)
Definition canonical (p : string) : bool :=
  match Py.split "/" p with
  | root :: c :: cs =>
      String.eqb root "" &&
      forallb (λ x, negb (String.eqb x "") && negb (String.eqb x ".") &&
                    negb (String.eqb x ".."))
              (c :: cs)
  | _ => false
  end.

(** [p] is a directory: a file of the world lies under it, or it is the
    base directory of the store or one of the directories above it. *)
Definition is_dir (s : state) (p : string) : bool :=
  existsb (String.prefix (p +:+ "/"))
    ((base_dir s +:+ "/") :: (map_to_list (files s)).*1).

(** [Path(p).exists()] for a canonical [p]: there is a file or a
    directory. *)
Definition path_exists (s : state) (p : string) : bool :=
  bool_decide (is_Some (files s !! p)) || is_dir s p.

(** The file at [p] was there in [s] and is not there in [s']. *)
Definition removed (s s' : state) (p : string) : bool :=
  bool_decide (is_Some (files s !! p)) &&
  negb (bool_decide (is_Some (files s' !! p))).

End World.

(* ================================================================== *)
(** * Facts on the string primitives *)
(* ================================================================== *)

Module PyFacts.

Lemma app_cons a s t : String a s +:+ t = String a (s +:+ t).
Proof. reflexivity. Qed.

Lemma app_nil t : "" +:+ t = t.
Proof. reflexivity. Qed.

Lemma app_inv_head p x y : p +:+ x = p +:+ y → x = y.
Proof.
  induction p as [|a p IH]; [done|].
  rewrite !app_cons. intros [= H]. auto.
Qed.

Lemma all_chars_app P s t :
  all_chars P (s +:+ t) = all_chars P s && all_chars P t.
Proof.
  induction s as [|a s IH]; [done|].
  rewrite app_cons. simpl. rewrite IH. by rewrite andb_assoc.
Qed.

(** Two texts that agree up to a delimiter agree on the delimited parts. *)
Lemma app_delim_inj P s1 s2 a b x y :
  all_chars P s1 = true → all_chars P s2 = true →
  P a = false → P b = false →
  s1 +:+ String a x = s2 +:+ String b y →
  s1 = s2 ∧ String a x = String b y.
Proof.
  revert s2. induction s1 as [|c s1 IH]; intros [|d s2]; simpl;
    rewrite ?app_cons, ?app_nil.
  - done.
  - intros _ [Hd _]%andb_prop Ha _ [= -> _]. congruence.
  - intros [Hc _]%andb_prop _ _ Hb [= -> _]. congruence.
  - intros [_ H1]%andb_prop [_ H2]%andb_prop Ha Hb [= -> H].
    destruct (IH s2 H1 H2 Ha Hb H) as [-> ?]. done.
Qed.

Lemma uint_digits d : all_chars Py.is_digit (NilEmpty.string_of_uint d) = true.
Proof. induction d; simpl; auto. Qed.

Lemma uint_nonempty d : d ≠ Decimal.Nil → NilEmpty.string_of_uint d ≠ "".
Proof. by destruct d. Qed.

(** The shape of the decimal text of an integer. *)
Lemma str_of_int_shape n :
  ∃ ds d, all_chars Py.is_digit ds = true ∧ ds ≠ "" ∧
    NilEmpty.uint_of_string ds = Some d ∧
    ((Py.str_of_int n = ds ∧ Z.of_uint d = n) ∨
     (Py.str_of_int n = String "-" ds ∧ Z.of_uint d = (- n)%Z)).
Proof.
  destruct n as [|p|p]; unfold Py.str_of_int; simpl.
  - exists "0", (Decimal.D0 Decimal.Nil). split_and!; [done..|]. by left.
  - exists (NilEmpty.string_of_uint (Pos.to_uint p)), (Pos.to_uint p).
    pose proof (DecimalPos.Unsigned.to_uint_nonnil p) as Hnil.
    split_and!; [apply uint_digits|by apply uint_nonempty|apply NilEmpty.usu|].
    left. split.
    + unfold NilZero.string_of_uint. by destruct (Pos.to_uint p).
    + unfold Z.of_uint. by rewrite DecimalPos.Unsigned.of_to.
  - exists (NilEmpty.string_of_uint (Pos.to_uint p)), (Pos.to_uint p).
    pose proof (DecimalPos.Unsigned.to_uint_nonnil p) as Hnil.
    split_and!; [apply uint_digits|by apply uint_nonempty|apply NilEmpty.usu|].
    right. split.
    + unfold NilZero.string_of_uint. by destruct (Pos.to_uint p).
    + unfold Z.of_uint. by rewrite DecimalPos.Unsigned.of_to.
Qed.

Lemma digit_int_char a : Py.is_digit a = true → int_char a = true.
Proof. unfold int_char. by intros ->. Qed.

Lemma all_chars_impl (P Q : ascii → bool) s :
  (∀ a, P a = true → Q a = true) →
  all_chars P s = true → all_chars Q s = true.
Proof.
  intros HPQ. induction s as [|a s IH]; [done|]. simpl.
  intros [Ha Hs]%andb_prop. rewrite (HPQ _ Ha). simpl. auto.
Qed.

Lemma str_of_int_chars n : all_chars int_char (Py.str_of_int n) = true.
Proof.
  destruct (str_of_int_shape n) as (ds & d & Hds & _ & _ & [[-> _]|[-> _]]).
  - eapply all_chars_impl; [apply digit_int_char|done].
  - simpl. eapply all_chars_impl; [apply digit_int_char|done].
Qed.

Lemma digit_not_space a : Py.is_digit a = true → Py.is_space a = false.
Proof. by destruct a as [[] [] [] [] [] [] [] []]. Qed.

Lemma rstrip_digits ds :
  all_chars Py.is_digit ds = true → Py.rstrip ds = ds.
Proof.
  induction ds as [|a ds IH]; [done|]. simpl.
  intros [Ha Hds]%andb_prop. rewrite (IH Hds).
  destruct ds; [|done]. by rewrite (digit_not_space _ Ha).
Qed.

Lemma literal_digits_true ds :
  all_chars Py.is_digit ds = true → Py.literal_digits true ds = Some ds.
Proof.
  induction ds as [|a ds IH]; [done|]. simpl.
  intros [-> Hds]%andb_prop. by rewrite (IH Hds).
Qed.

Lemma of_digits_digits ds d :
  all_chars Py.is_digit ds = true → ds ≠ "" →
  NilEmpty.uint_of_string ds = Some d →
  Py.of_digits ds = Some (Z.of_uint d).
Proof.
  intros Hds Hne Hd. unfold Py.of_digits.
  destruct ds as [|a ds]; [done|]. simpl in Hds |- *.
  apply andb_prop in Hds as [Ha Hds]. rewrite Ha.
  rewrite (literal_digits_true _ Hds). simpl.
  simpl in Hd. by rewrite Hd.
Qed.

(** [int] reads back what the formatting of an integer prints. *)
Lemma int_of_str_of_int n : Py.int_of_str (Py.str_of_int n) = Some n.
Proof.
  destruct (str_of_int_shape n)
    as (ds & d & Hds & Hne & Hd & [[-> Hn]|[-> Hn]]); unfold Py.int_of_str.
  - destruct ds as [|a ds]; [done|].
    assert (Py.is_digit a = true) as Ha by (simpl in Hds; by apply andb_prop in Hds as [? _]).
    unfold Py.strip. simpl Py.lstrip. rewrite (digit_not_space _ Ha).
    rewrite (rstrip_digits _ Hds).
    replace (Ascii.eqb a "-") with false
      by (by destruct a as [[] [] [] [] [] [] [] []]).
    replace (Ascii.eqb a "+") with false
      by (by destruct a as [[] [] [] [] [] [] [] []]).
    rewrite (of_digits_digits _ d); [by rewrite Hn|done..].
  - unfold Py.strip. simpl Py.lstrip.
    change (Py.rstrip (String "-" ds))
      with (match Py.rstrip ds with
            | "" => String "-" "" | r => String "-" r end).
    rewrite (rstrip_digits _ Hds). destruct ds as [|a ds]; [done|].
    simpl. rewrite (of_digits_digits _ d); [|done..]. simpl.
    f_equal. lia.
Qed.

Lemma str_of_int_inj n n' : Py.str_of_int n = Py.str_of_int n' → n = n'.
Proof.
  intros H. pose proof (int_of_str_of_int n) as H1.
  rewrite H, int_of_str_of_int in H1. congruence.
Qed.

Lemma split_no_sep sep s :
  all_chars (λ a, negb (Ascii.eqb a sep)) s = true → Py.split sep s = [s].
Proof.
  induction s as [|a s IH]; [done|]. simpl.
  intros [Ha Hs]%andb_prop. apply negb_true_iff in Ha. rewrite Ha.
  by rewrite (IH Hs).
Qed.

Lemma split_app sep s t :
  all_chars (λ a, negb (Ascii.eqb a sep)) s = true →
  Py.split sep (s +:+ String sep t) = s :: Py.split sep t.
Proof.
  induction s as [|a s IH].
  - intros _. rewrite app_nil. simpl. by rewrite Ascii.eqb_refl.
  - simpl all_chars. intros [Ha Hs]%andb_prop. apply negb_true_iff in Ha.
    rewrite app_cons. simpl. rewrite Ha. by rewrite (IH Hs).
Qed.

Lemma int_char_not_bar a : int_char a = true → negb (Ascii.eqb a "|") = true.
Proof. by destruct a as [[] [] [] [] [] [] [] []]. Qed.

End PyFacts.

(* ================================================================== *)
(** * Keys and file names *)
(* ================================================================== *)

Module KeyFacts.
Import MediaStorage.

Lemma split_key c m :
  Py.split "|" (_get_key c m) = [Py.str_of_int c; Py.str_of_int m].
Proof.
  unfold _get_key. rewrite PyFacts.app_cons, PyFacts.app_nil.
  rewrite PyFacts.split_app, PyFacts.split_no_sep; [done|..];
    (eapply PyFacts.all_chars_impl;
     [apply PyFacts.int_char_not_bar|apply PyFacts.str_of_int_chars]).
Qed.

(** The key determines the pair of identifiers. *)
Lemma get_key_inj c m c' m' :
  _get_key c m = _get_key c' m' → c = c' ∧ m = m'.
Proof.
  intros H. pose proof (split_key c m) as H1.
  rewrite H, split_key in H1. injection H1 as Hc Hm.
  split; by apply PyFacts.str_of_int_inj.
Qed.

Lemma join_inj b x y : PathLib.join b x = PathLib.join b y → x = y.
Proof.
  unfold PathLib.join. intros Heq.
  repeat case_match; repeat apply PyFacts.app_inv_head in Heq; done.
Qed.

Lemma int_char_underscore : int_char "_" = false.
Proof. done. Qed.

Lemma int_char_dot : int_char "." = false.
Proof. done. Qed.

(** The file name determines the identifiers and the extension. *)
Lemma file_path_inj base c m e c' m' e' :
  dot_ext e → dot_ext e' →
  _get_file_path base c m e = _get_file_path base c' m' e' →
  c = c' ∧ m = m' ∧ e = e'.
Proof.
  intros [x ->] [x' ->]. unfold _get_file_path. intros H%join_inj.
  rewrite !PyFacts.app_cons, !PyFacts.app_nil in H.
  injection H as H.
  apply (PyFacts.app_delim_inj int_char) in H as [Hc H];
    [|apply PyFacts.str_of_int_chars..|done|done].
  injection H as H.
  apply (PyFacts.app_delim_inj int_char) in H as [Hm H];
    [|apply PyFacts.str_of_int_chars..|done|done].
  apply PyFacts.str_of_int_inj in Hc, Hm. done.
Qed.

Lemma file_path_not_index base c m e :
  _get_file_path base c m e ≠ PathLib.join base "index.json".
Proof.
  unfold _get_file_path. intros H%join_inj.
  by rewrite !PyFacts.app_cons in H.
Qed.

Lemma rfind_dot_rest s b r :
  PathLib.rfind_dot s = Some (b, r) → dot_ext r.
Proof.
  revert b r. induction s as [|a s IH]; [done|]. simpl. intros b r.
  destruct (PathLib.rfind_dot s) as [[b' r']|].
  - intros [= _ <-]. eauto.
  - destruct (Ascii.eqb_spec a "."); [|done].
    intros [= _ <-]. subst a. by eexists.
Qed.

Lemma suffix_dot p : PathLib.suffix p = "" ∨ dot_ext (PathLib.suffix p).
Proof.
  unfold PathLib.suffix.
  destruct (PathLib.rfind_dot (PathLib.name p)) as [[b r]|] eqn:H; [|by left].
  case_match; [|by left]. right. eauto using rfind_dot_rest.
Qed.

Lemma ext_map_dot mime :
  dot_ext (default ".bin" (PyDict.get mime ext_map)).
Proof.
  unfold ext_map. simpl. repeat case_decide; simpl; by eexists.
Qed.

(** The extension that [save_media] resolves starts with a dot. *)
Lemma resolved_extension_dot source_path mime :
  dot_ext (if String.eqb (PathLib.suffix source_path) ""
           then default ".bin" (PyDict.get mime ext_map)
           else PathLib.suffix source_path).
Proof.
  destruct (String.eqb_spec (PathLib.suffix source_path) "") as [|Hne].
  - apply ext_map_dot.
  - by destruct (suffix_dot source_path).
Qed.

End KeyFacts.

(* ================================================================== *)
(** * Facts on dictionaries *)
(* ================================================================== *)

Module DictFacts.

Lemma filter_all {A} (P : A → Prop) `{∀ x, Decision (P x)} (l : list A) :
  Forall P l → filter P l = l.
Proof.
  induction 1 as [|x l Hx _ IH]; [done|].
  by rewrite filter_cons_True, IH.
Qed.

Lemma filter_none {A} (P : A → Prop) `{∀ x, Decision (P x)} (l : list A) :
  Forall (λ x, ¬ P x) l → filter P l = [].
Proof.
  induction 1 as [|x l Hx _ IH]; [done|].
  by rewrite filter_cons_False.
Qed.

Section dict.
Context {V : Type}.
Implicit Types (d : list (string * V)) (k : string) (v : V).

Lemma get_set_eq k v d : PyDict.get k (PyDict.set k v d) = Some v.
Proof.
  induction d as [|[k' v'] d IH]; simpl.
  - by rewrite decide_True.
  - case_decide; simpl.
    + by rewrite decide_True.
    + by rewrite decide_False.
Qed.

Lemma get_set_ne k k' v d :
  k ≠ k' → PyDict.get k' (PyDict.set k v d) = PyDict.get k' d.
Proof.
  intros Hne. induction d as [|[k0 v0] d IH]; simpl.
  - by rewrite decide_False.
  - destruct (decide (k0 = k)) as [->|]; simpl.
    + by rewrite !decide_False.
    + by rewrite IH.
Qed.

Lemma get_None k d : PyDict.get k d = None ↔ k ∉ d.*1.
Proof.
  induction d as [|[k' v'] d IH]; simpl.
  - split; [intros _; apply not_elem_of_nil|done].
  - rewrite not_elem_of_cons. case_decide as Hk; [by split; [|intros []]|].
    rewrite IH. by split; [|intros []].
Qed.

Lemma get_Some_elem k v d : PyDict.get k d = Some v → (k, v) ∈ d.
Proof.
  induction d as [|[k' v'] d IH]; simpl; [done|].
  case_decide.
  - intros [= ->]. subst. apply list_elem_of_here.
  - intros. apply list_elem_of_further. auto.
Qed.

Lemma elem_get k v d : NoDup d.*1 → (k, v) ∈ d → PyDict.get k d = Some v.
Proof.
  induction d as [|[k' v'] d IH]; simpl.
  - intros _ []%elem_of_nil.
  - intros [Hk Hd]%NoDup_cons [[= -> ->]|Hin]%elem_of_cons.
    + by rewrite decide_True.
    + rewrite decide_False; [auto|]. intros ->. apply Hk.
      apply list_elem_of_fmap. by exists (k, v).
Qed.

Lemma mem_true k d : PyDict.mem k d = true ↔ k ∈ d.*1.
Proof.
  unfold PyDict.mem. destruct (PyDict.get k d) eqn:H.
  - split; [|done]. intros _. apply get_Some_elem in H.
    apply list_elem_of_fmap. by exists (k, v).
  - apply get_None in H. naive_solver.
Qed.

Lemma keys_set k v d :
  (PyDict.set k v d).*1 = if PyDict.mem k d then d.*1 else d.*1 ++ [k].
Proof.
  unfold PyDict.mem. induction d as [|[k' v'] d IH]; csimpl; [done|].
  case_decide; csimpl; [done|]. rewrite IH. by destruct (PyDict.get k d).
Qed.

Lemma NoDup_keys_set k v d : NoDup d.*1 → NoDup (PyDict.set k v d).*1.
Proof.
  intros Hd. rewrite keys_set. destruct (PyDict.mem k d) eqn:Hm; [done|].
  apply NoDup_app. split_and!; [done| |apply NoDup_singleton].
  intros x Hx ->%list_elem_of_singleton.
  apply mem_true in Hx. congruence.
Qed.

Lemma elem_of_set_inv k v k' v' d :
  NoDup d.*1 →
  (k', v') ∈ PyDict.set k v d →
  (k' = k ∧ v' = v) ∨ (k' ≠ k ∧ (k', v') ∈ d).
Proof.
  intros Hd Hin.
  pose proof (elem_get _ _ _ (NoDup_keys_set k v d Hd) Hin) as Hget.
  destruct (decide (k = k')) as [->|Hne].
  - rewrite get_set_eq in Hget. left. naive_solver.
  - rewrite get_set_ne in Hget by done. right.
    split; [done|]. by apply get_Some_elem.
Qed.

Lemma values_set_subseteq k v d x :
  x ∈ (PyDict.set k v d).*2 → x = v ∨ x ∈ d.*2.
Proof.
  induction d as [|[k' v'] d IH]; simpl.
  - intros [->|[]%elem_of_nil]%elem_of_cons. by left.
  - case_decide; simpl.
    + intros [->|?]%elem_of_cons; [by left|right].
      by apply list_elem_of_further.
    + intros [->|?]%elem_of_cons; [right; apply list_elem_of_here|].
      destruct IH as [|]; [done|by left|right].
      by apply list_elem_of_further.
Qed.

Lemma NoDup_values_set k v d :
  NoDup d.*2 → v ∉ d.*2 → NoDup (PyDict.set k v d).*2.
Proof.
  induction d as [|[k' v'] d IH]; simpl.
  - intros _ _. apply NoDup_singleton.
  - intros [Hv' Hd]%NoDup_cons [Hne Hv]%not_elem_of_cons.
    case_decide; simpl; apply NoDup_cons; split; auto.
    intros [->|?]%values_set_subseteq; done.
Qed.

Lemma del_filter k d :
  NoDup d.*1 → PyDict.del k d = filter (λ kv, kv.1 ≠ k) d.
Proof.
  induction d as [|[k' v'] d IH]; simpl; [done|].
  intros [Hk Hd]%NoDup_cons. case_decide; subst.
  - rewrite filter_cons_False by (simpl; auto).
    symmetry. apply filter_all, Forall_forall.
    intros [k0 v0] Hin; simpl; intros ->.
    apply Hk, list_elem_of_fmap. by exists (k, v0).
  - rewrite filter_cons_True by done. by rewrite IH.
Qed.

Lemma get_del_eq k d : NoDup d.*1 → PyDict.get k (PyDict.del k d) = None.
Proof.
  intros Hd. rewrite del_filter by done. apply get_None.
  intros ([k' v'] & Heq & [Hne _]%list_elem_of_filter)%list_elem_of_fmap.
  simpl in *. by subst.
Qed.

Lemma get_del_ne k k' d :
  k ≠ k' → PyDict.get k' (PyDict.del k d) = PyDict.get k' d.
Proof.
  intros Hne. induction d as [|[k0 v0] d IH]; simpl; [done|].
  destruct (decide (k0 = k)) as [->|]; simpl.
  - by rewrite decide_False.
  - by rewrite IH.
Qed.

Lemma count_key_le k d :
  NoDup d.*1 → length (filter (λ kv, kv.1 = k) d) ≤ 1.
Proof.
  induction d as [|[k' v'] d IH]; simpl; [lia|].
  intros [Hk Hd]%NoDup_cons. destruct (decide (k' = k)) as [->|Hne].
  - rewrite filter_cons_True by done. simpl.
    rewrite filter_none; [simpl; lia|]. apply Forall_forall.
    intros [k0 v0] Hin0 Heq. simpl in Heq. subst.
    apply Hk, list_elem_of_fmap. by exists (k, v0).
  - rewrite filter_cons_False by done. auto.
Qed.

(** A dictionary binds a key at most once. *)
Lemma count_key k d :
  NoDup d.*1 → k ∈ d.*1 → length (filter (λ kv, kv.1 = k) d) = 1.
Proof.
  induction d as [|[k' v'] d IH]; simpl.
  - intros _ []%elem_of_nil.
  - intros [Hk Hd]%NoDup_cons Hin. destruct (decide (k' = k)) as [->|Hne].
    + rewrite filter_cons_True by done. simpl. f_equal.
      rewrite filter_none; [done|]. apply Forall_forall.
      intros [k0 v0] Hin0 Heq. simpl in Heq. subst.
      apply Hk, list_elem_of_fmap. by exists (k, v0).
    + rewrite filter_cons_False by done.
      apply elem_of_cons in Hin as [?|?]; [congruence|auto].
Qed.
End dict.
End DictFacts.

(* ================================================================== *)
(** * The methods, run symbolically *)
(* ================================================================== *)

Ltac munfold :=
  unfold mbind, M_bind, mret, M_ret, gets, modify, raise,
    try_except_OSError, try_except in *.

Module Run.
Import MediaStorage.

Lemma save_index_ok s :
  index_writable s → _save_index s = (Ok tt, persisted s).
Proof.
  intros Hw. unfold _save_index, OS.write_text. munfold.
  by rewrite decide_False.
Qed.

(** A failure to write the index file reaches the caller. *)
Lemma save_index_locked s :
  ¬ index_writable s → ∃ e, _save_index s = (Raise e, s) ∧ is_OSError e = true.
Proof.
  intros Hw. unfold _save_index, OS.write_text. munfold.
  rewrite decide_True by (by apply dec_stable).
  eexists. split; reflexivity.
Qed.

Section save.
Variable guess_type : string → option string.

Lemma save_media_missing c m src mt now s :
  files s !! src = None →
  save_media guess_type c m src mt now s =
    (Raise (FileNotFoundError ("Source file not found: " +:+ src)), s).
Proof.
  intros Hsrc. unfold save_media, OS.path_exists. munfold.
  rewrite Hsrc. rewrite bool_decide_false; [done|]. by intros [? ?].
Qed.

(** Every run of [save_media] on an existing source: the copy is
    refused, or the index is updated in memory and then written. *)
Lemma save_media_run c m src mt now s content :
  let mime := resolved_mime_type guess_type src mt in
  let ext := resolved_extension src mime in
  let dest := _get_file_path (base_dir s) c m ext in
  files s !! src = Some content →
  save_media guess_type c m src mt now s =
    if decide (src = dest)
    then (Raise (SameFileError
                   (OS.repr_path src +:+ " and " +:+ OS.repr_path dest +:+
                    " are the same file")), s)
    else if decide (dest ∈ locked s)
    then (Raise (PermissionError
                   ("[Errno 13] Permission denied: " +:+ OS.repr dest)), s)
    else (_save_index ≫= (λ _, mret dest))
           (stored s c m src content mime now ext).
Proof.
  intros mime ext dest Hsrc.
  unfold save_media, OS.path_exists, OS.copy2, OS.stat_st_size, new_dict.
  unfold mbind at 1. unfold M_bind at 1. unfold gets at 1.
  rewrite bool_decide_true by eauto.
  cbn [negb]. cbv beta iota zeta.
  fold (resolved_mime_type guess_type src mt). fold mime.
  fold (resolved_extension src mime). fold ext.
  unfold mbind at 1. unfold M_bind at 1. unfold gets at 1.
  fold dest.
  unfold mbind at 1. unfold M_bind at 1.
  rewrite Hsrc. destruct (decide (src = dest)); [done|].
  destruct (decide (dest ∈ locked s)); [done|].
  unfold mbind at 1. unfold M_bind at 1.
  cbn [files with_files]. rewrite lookup_insert_eq.
  munfold. done.
Qed.

Lemma save_media_ok c m src mt now s content :
  let mime := resolved_mime_type guess_type src mt in
  let ext := resolved_extension src mime in
  let dest := _get_file_path (base_dir s) c m ext in
  files s !! src = Some content →
  src ≠ dest →
  dest ∉ locked s →
  index_writable s →
  save_media guess_type c m src mt now s =
    (Ok dest, saved s c m src content mime now ext).
Proof.
  intros mime ext dest Hsrc Hne Hdest Hw.
  rewrite (save_media_run _ _ _ _ _ _ _ Hsrc).
  rewrite !decide_False by done. munfold.
  rewrite save_index_ok; [done|].
  unfold index_writable, index_file in *. done.
Qed.

(** A successful [save_media] went through all of its steps. *)
Lemma save_media_inv c m src mt now s content p s' :
  let mime := resolved_mime_type guess_type src mt in
  let ext := resolved_extension src mime in
  let dest := _get_file_path (base_dir s) c m ext in
  files s !! src = Some content →
  save_media guess_type c m src mt now s = (Ok p, s') →
  p = dest ∧ s' = saved s c m src content mime now ext ∧
  src ≠ dest ∧ (dest ∉ locked s) ∧ index_writable s.
Proof.
  intros mime ext dest Hsrc. rewrite (save_media_run _ _ _ _ _ _ _ Hsrc).
  fold mime ext dest.
  destruct (decide (src = dest)); [done|].
  destruct (decide (dest ∈ locked s)); [done|].
  destruct (decide (index_writable s)) as [Hw|Hw].
  - munfold. rewrite save_index_ok.
    + by intros [= <- <-].
    + unfold index_writable, index_file in *. done.
  - destruct (save_index_locked (stored s c m src content mime now ext))
      as (e & He & _).
    + unfold index_writable, index_file in *. done.
    + munfold. by rewrite He.
Qed.

(** Saving a file onto itself is refused by [shutil]. *)
Lemma save_media_same_file c m src mt now s content :
  let mime := resolved_mime_type guess_type src mt in
  let ext := resolved_extension src mime in
  files s !! src = Some content →
  src = _get_file_path (base_dir s) c m ext →
  ∃ msg, save_media guess_type c m src mt now s = (Raise (SameFileError msg), s).
Proof.
  intros mime ext Hsrc Heq.
  unfold save_media, OS.path_exists, OS.copy2. munfold.
  rewrite Hsrc. rewrite bool_decide_true by eauto.
  cbn [negb]. cbv beta iota zeta.
  fold (resolved_mime_type guess_type src mt). fold mime.
  fold (resolved_extension src mime). fold ext.
  rewrite Hsrc. rewrite decide_True by done. eauto.
Qed.
End save.

End Run.

(* ================================================================== *)
(** * The invariant *)
(* ================================================================== *)

Module Inv.
Import MediaStorage.

Lemma wf_ext s s' :
  index s' = index s → heap s' = heap s → base_dir s' = base_dir s →
  wf s → wf s'.
Proof.
  intros Hi Hh Hb [H1 H2 H3]. split; rewrite ?Hi, ?Hh, ?Hb; done.
Qed.

Lemma wf_persisted s : wf s → wf (persisted s).
Proof. by apply wf_ext. Qed.

Lemma wf_info_path base k d :
  wf_info base k d →
  ∃ c m ext, k = _get_key c m ∧ dot_ext ext ∧
    PyDict.get "path" d = Some (JStr (_get_file_path base c m ext)).
Proof. destruct 1; eauto 10. Qed.

Lemma wf_info_size base k d :
  wf_info base k d → ∃ n, PyDict.get "size" d = Some (JInt n).
Proof. destruct 1; eauto. Qed.

Lemma wf_info_mime base k d :
  wf_info base k d → ∃ t, PyDict.get "mime_type" d = Some (JStr t).
Proof. destruct 1; eauto. Qed.

Lemma wf_info_nonempty base k d : wf_info base k d → d ≠ [].
Proof. by destruct 1. Qed.

(** The annotation of [list_media] turns either shape into the listed
    one and leaves the five original members alone. *)
Lemma wf_info_annotated base c m d :
  wf_info base (_get_key c m) d →
  wf_info base (_get_key c m) (annotated c m d) ∧
  (∀ k, k ≠ "chat_id" → k ≠ "message_id" →
        PyDict.get k (annotated c m d) = PyDict.get k d).
Proof.
  intros Hd. split.
  - inversion Hd as [c' m' mime ts size ext Hk Hext|c' m' mime ts size ext Hk Hext];
      apply KeyFacts.get_key_inj in Hk as [<- <-].
    + by apply (wf_listed _ _ c m).
    + by apply (wf_listed _ _ c m).
  - intros k H1 H2. unfold annotated.
    by rewrite !DictFacts.get_set_ne.
Qed.


Lemma annotated_ids c m d :
  PyDict.get "chat_id" (annotated c m d) = Some (JInt c) ∧
  PyDict.get "message_id" (annotated c m d) = Some (JInt m).
Proof.
  unfold annotated. split.
  - rewrite DictFacts.get_set_ne by done. apply DictFacts.get_set_eq.
  - apply DictFacts.get_set_eq.
Qed.

(** The references of a well-formed index are allocated. *)
Lemma wf_ref_lt s k r : wf s → (k, r) ∈ index s → r < length (heap s).
Proof.
  intros Hwf Hin. destruct (wf_entries s Hwf k r Hin) as (d & Hd & _).
  by apply lookup_lt_Some in Hd.
Qed.

Lemma wf_stored s c m src content mime now ext :
  wf s → dot_ext ext → wf (stored s c m src content mime now ext).
Proof.
  intros Hwf Hext. destruct Hwf as [H1 H2 H3].
  split; simpl.
  - by apply DictFacts.NoDup_keys_set.
  - apply DictFacts.NoDup_values_set; [done|].
    intros ([k r] & Heq & Hin)%list_elem_of_fmap. simpl in Heq.
    destruct (H3 k r Hin) as (d & Hd%lookup_lt_Some & _). lia.
  - intros k r Hin.
    apply DictFacts.elem_of_set_inv in Hin as [[-> ->]|[Hne Hin]]; [| |done].
    + eexists. split; [apply list_lookup_middle; done|].
      by apply (wf_fresh _ _ c m).
    + destruct (H3 k r Hin) as (d & Hd & Hinfo).
      exists d. split; [|done]. by apply lookup_app_l_Some.
Qed.

Lemma wf_saved s c m src content mime now ext :
  wf s → dot_ext ext → wf (saved s c m src content mime now ext).
Proof. intros. by apply wf_persisted, wf_stored. Qed.

Lemma wf_empty files locked journal heap base :
  wf (State files locked journal heap base []).
Proof.
  split; simpl; [apply NoDup_nil_2..|]. by intros ? ? ?%elem_of_nil.
Qed.

End Inv.

(* ================================================================== *)
(** * [list_media], run on a well-formed store *)
(* ================================================================== *)

Module ListMedia.
Import MediaStorage.

Lemma getitem_path s r d p :
  heap s !! r = Some d → PyDict.get "path" d = Some (JStr p) →
  (getitem r "path" ≫= as_str) s = (Ok p, s).
Proof.
  intros Hd Hp. unfold getitem, deref, as_str. munfold.
  rewrite Hd. simpl. by rewrite Hp.
Qed.

Lemma live_path s r d p :
  heap s !! r = Some d → PyDict.get "path" d = Some (JStr p) →
  live s r = bool_decide (is_Some (files s !! p)).
Proof.
  intros Hd Hp. unfold live, path_of, deref. rewrite Hd. simpl. by rewrite Hp.
Qed.

Lemma stuck_path s r d p :
  heap s !! r = Some d → PyDict.get "path" d = Some (JStr p) →
  stuck s r = bool_decide (is_Some (files s !! p)) && bool_decide (p ∈ locked s).
Proof.
  intros Hd Hp. unfold stuck, path_of, deref. rewrite Hd. simpl. by rewrite Hp.
Qed.

(** One turn of the loop on an entry whose file exists. *)
Lemma loop_step_live k r items valid stale s d p c m :
  heap s !! r = Some d → PyDict.get "path" d = Some (JStr p) →
  is_Some (files s !! p) → k = _get_key c m →
  list_media_loop ((k, r) :: items) valid stale s =
  list_media_loop items (valid ++ [r]) stale
    (with_heap (alter (annotated c m) r) s).
Proof.
  intros Hd Hp Hex ->. cbn [list_media_loop].
  unfold mbind at 1. unfold M_bind at 1. rewrite (getitem_path _ _ _ _ Hd Hp).
  unfold mbind at 1. unfold M_bind at 1. unfold OS.path_exists at 1.
  unfold gets at 1. rewrite bool_decide_true by done.
  rewrite KeyFacts.split_key. unfold int_.
  rewrite !PyFacts.int_of_str_of_int. unfold setitem. munfold.
  f_equal. unfold with_heap. simpl. f_equal.
  by rewrite list_alter_alter_eq.
Qed.

(** One turn of the loop on an entry whose file is gone. *)
Lemma loop_step_stale k r items valid stale s d p :
  heap s !! r = Some d → PyDict.get "path" d = Some (JStr p) →
  files s !! p = None →
  list_media_loop ((k, r) :: items) valid stale s =
  list_media_loop items valid (stale ++ [k]) s.
Proof.
  intros Hd Hp Hex. cbn [list_media_loop].
  unfold mbind at 1. unfold M_bind at 1. rewrite (getitem_path _ _ _ _ Hd Hp).
  unfold mbind at 1. unfold M_bind at 1. unfold OS.path_exists at 1.
  unfold gets at 1. rewrite bool_decide_false; [done|].
  rewrite Hex. by intros [? ?].
Qed.

Lemma live_heap_irrel s s' r :
  files s' = files s → heap s' !! r = heap s !! r → live s' r = live s r.
Proof. intros Hf Hh. unfold live, deref. by rewrite Hf, Hh. Qed.

Lemma filter_ext_elem {A} (P Q : A → Prop) `{∀ x, Decision (P x)}
    `{∀ x, Decision (Q x)} (l : list A) :
  (∀ x, x ∈ l → P x ↔ Q x) → filter P l = filter Q l.
Proof.
  induction l as [|x l IH]; [done|]. intros HPQ.
  rewrite !filter_cons. rewrite IH by (intros; apply HPQ; by right).
  destruct (decide (P x)) as [HP|HP], (decide (Q x)) as [HQ|HQ]; try done;
    exfalso; apply (HPQ x (list_elem_of_here _ _)) in HP || apply HP, (HPQ x (list_elem_of_here _ _)); done.
Qed.

Lemma list_media_loop_ok items : ∀ s valid stale,
  NoDup items.*2 →
  (∀ k r, (k, r) ∈ items →
     ∃ d, heap s !! r = Some d ∧ wf_info (base_dir s) k d) →
  ∃ h',
    list_media_loop items valid stale s =
      (Ok (valid ++ (filter (λ kr, live s kr.2) items).*2,
           stale ++ (filter (λ kr, ¬ live s kr.2) items).*1),
       with_heap (λ _, h') s) ∧
    length h' = length (heap s) ∧
    (∀ r, r ∉ (filter (λ kr, live s kr.2) items).*2 →
          h' !! r = heap s !! r) ∧
    (∀ k r, (k, r) ∈ items → live s r →
       ∃ c m d, k = _get_key c m ∧ heap s !! r = Some d ∧
                h' !! r = Some (annotated c m d)).
Proof.
  induction items as [|[k r] items IH]; intros s valid stale Hnd Hwf.
  { exists (heap s). simpl. rewrite !app_nil_r.
    split_and!; [by destruct s|done|done|]. by intros ? ? ?%elem_of_nil. }
  destruct (Hwf k r) as (d & Hd & Hinfo); [apply list_elem_of_here|].
  destruct (Inv.wf_info_path _ _ _ Hinfo) as (c & m & ext & Hk & Hext & Hp).
  rewrite fmap_cons in Hnd. apply NoDup_cons in Hnd as [Hr Hnd]. simpl in Hr.
  pose proof (live_path _ _ _ _ Hd Hp) as Hlive.
  destruct (files s !! _) as [content|] eqn:Hfile.
  - (* the file exists *)
    rewrite bool_decide_true in Hlive by eauto.
    set (s1 := with_heap (alter (annotated c m) r) s).
    assert (∀ k' r', (k', r') ∈ items → heap s1 !! r' = heap s !! r') as Hsame.
    { intros k' r' Hin. simpl. apply list_lookup_alter_ne.
      intros <-. apply Hr, list_elem_of_fmap. by exists (k', r). }
    destruct (IH s1 (valid ++ [r]) stale Hnd) as (h' & Hrun & Hlen & Hout & Hann).
    { intros k' r' Hin. rewrite (Hsame _ _ Hin). by apply Hwf, list_elem_of_further. }
    assert (filter (λ kr : string * nat, live s1 kr.2) items =
            filter (λ kr : string * nat, live s kr.2) items) as Hflt.
    { apply filter_ext_elem. intros [k' r'] Hin. simpl.
      by rewrite (live_heap_irrel s s1 r' eq_refl (Hsame _ _ Hin)). }
    assert (filter (λ kr : string * nat, ¬ live s1 kr.2) items =
            filter (λ kr : string * nat, ¬ live s kr.2) items) as Hflt'.
    { apply filter_ext_elem. intros [k' r'] Hin. simpl.
      by rewrite (live_heap_irrel s s1 r' eq_refl (Hsame _ _ Hin)). }
    exists h'. split_and!.
    + rewrite (loop_step_live _ _ _ _ _ _ _ _ c m Hd Hp) by eauto.
      fold s1. rewrite Hrun.
      rewrite Hflt, Hflt'.
      rewrite filter_cons_True by (simpl; by rewrite Hlive).
      rewrite (filter_cons_False (λ kr, ¬ live s kr.2))
        by (simpl; rewrite Hlive; intros Hn; by apply Hn).
      rewrite fmap_cons. simpl. by rewrite <- app_assoc.
    + rewrite Hlen. simpl. apply length_alter.
    + intros r0. rewrite filter_cons_True by (simpl; by rewrite Hlive).
      rewrite fmap_cons. simpl. intros [Hne Hnin]%not_elem_of_cons.
      rewrite Hout by (by rewrite Hflt).
      simpl. by apply list_lookup_alter_ne.
    + intros k' r' [[= -> ->]|Hin]%elem_of_cons Hl.
      * exists c, m, d. split_and!; [done..|].
        rewrite Hout.
        -- simpl. rewrite list_lookup_alter_eq. by rewrite Hd.
        -- rewrite Hflt.
           intros ([k0 r0] & Heq & [_ Hin]%list_elem_of_filter)%list_elem_of_fmap.
           simpl in Heq. subst r0. apply Hr, list_elem_of_fmap. by exists (k0, r).
      * destruct (Hann k' r' Hin) as (c' & m' & d' & Hk' & Hd' & Hh').
        { by rewrite (live_heap_irrel s s1 r' eq_refl (Hsame _ _ Hin)). }
        exists c', m', d'. rewrite <- (Hsame _ _ Hin). done.
  - (* the file is gone *)
    rewrite bool_decide_false in Hlive by (by intros [? ?]).
    destruct (IH s valid (stale ++ [k]) Hnd) as (h' & Hrun & Hlen & Hout & Hann).
    { intros k' r' Hin. by apply Hwf, list_elem_of_further. }
    exists h'. split_and!.
    + rewrite (loop_step_stale _ _ _ _ _ _ _ _ Hd Hp Hfile). rewrite Hrun.
      rewrite filter_cons_False by (simpl; rewrite Hlive; intros []).
      rewrite (filter_cons_True (λ kr, ¬ live s kr.2))
        by (simpl; rewrite Hlive; intros []).
      rewrite fmap_cons. simpl. by rewrite <- app_assoc.
    + done.
    + intros r0. rewrite filter_cons_False by (simpl; rewrite Hlive; intros []).
      auto.
    + intros k' r' [[= -> ->]|Hin]%elem_of_cons Hl; [|by apply Hann].
      by rewrite Hlive in Hl.
Qed.

End ListMedia.

Module ListMediaRun.
Import MediaStorage.

Lemma NoDup_filter_keys {V} (P : string * V → Prop) `{∀ x, Decision (P x)}
    (l : list (string * V)) :
  NoDup l.*1 → NoDup (filter P l).*1.
Proof.
  induction l as [|[k v] l IH]; [done|]. rewrite fmap_cons.
  intros [Hk Hl]%NoDup_cons. rewrite filter_cons. case_decide; [|auto].
  rewrite fmap_cons. apply NoDup_cons. split; [|auto].
  intros ([k' v'] & Heq & [_ Hin]%list_elem_of_filter)%list_elem_of_fmap.
  simpl in Heq. subst k'. apply Hk, list_elem_of_fmap. by exists (k, v').
Qed.

Lemma NoDup_filter_values {V} (P : string * V → Prop) `{∀ x, Decision (P x)}
    (l : list (string * V)) :
  NoDup l.*2 → NoDup (filter P l).*2.
Proof.
  induction l as [|[k v] l IH]; [done|]. rewrite fmap_cons.
  intros [Hk Hl]%NoDup_cons. rewrite filter_cons. case_decide; [|auto].
  rewrite fmap_cons. apply NoDup_cons. split; [|auto].
  intros ([k' v'] & Heq & [_ Hin]%list_elem_of_filter)%list_elem_of_fmap.
  simpl in Heq. subst v'. apply Hk, list_elem_of_fmap. by exists (k', v).
Qed.

Lemma del_index_ok k s :
  NoDup (index s).*1 → k ∈ (index s).*1 →
  del_index k s = (Ok tt, with_index (filter (λ kv, kv.1 ≠ k)) s).
Proof.
  intros Hnd Hin. unfold del_index.
  apply DictFacts.mem_true in Hin. rewrite Hin.
  unfold with_index. by rewrite DictFacts.del_filter.
Qed.

Lemma del_all_ok keys : ∀ s,
  NoDup keys → NoDup (index s).*1 → (∀ k, k ∈ keys → k ∈ (index s).*1) →
  del_all keys s = (Ok tt, with_index (filter (λ kv, kv.1 ∉ keys)) s).
Proof.
  induction keys as [|k keys IH]; intros s Hks Hnd Hin.
  - simpl. munfold. unfold with_index.
    rewrite DictFacts.filter_all; [by destruct s|].
    apply Forall_forall. intros ? _. apply not_elem_of_nil.
  - apply NoDup_cons in Hks as [Hk Hks].
    cbn [del_all]. munfold.
    rewrite del_index_ok by (auto using list_elem_of_here).
    rewrite IH.
    + unfold with_index. simpl. f_equal. f_equal.
      rewrite list_filter_filter. apply ListMedia.filter_ext_elem.
      intros [k' v'] _. simpl. rewrite not_elem_of_cons. tauto.
    + done.
    + simpl. by apply NoDup_filter_keys.
    + intros k' Hk'. simpl.
      pose proof (Hin k' (list_elem_of_further _ _ _ Hk')) as Hk0.
      apply list_elem_of_fmap in Hk0 as ([k0 v0] & Heq & Hin0).
      simpl in Heq. subst k0. apply list_elem_of_fmap. exists (k', v0).
      split; [done|]. apply list_elem_of_filter. split; [|done].
      simpl. by intros ->.
Qed.

Lemma filter_not_stale s :
  NoDup (index s).*1 →
  filter (λ kv, kv.1 ∉ stale_keys s) (index s) = live_entries s.
Proof.
  intros Hnd. apply ListMedia.filter_ext_elem. intros [k r] Hin. simpl.
  unfold stale_keys. split.
  - intros Hk. destruct (live s r) eqn:Hl; [done|]. exfalso. apply Hk.
    apply list_elem_of_fmap. exists (k, r). split; [done|].
    apply list_elem_of_filter. simpl. rewrite Hl. split; [by intros []|done].
  - intros Hl ([k' r'] & Heq & [Hnl Hin']%list_elem_of_filter)%list_elem_of_fmap.
    simpl in *. subst k'.
    pose proof (DictFacts.elem_get _ _ _ Hnd Hin) as H1.
    pose proof (DictFacts.elem_get _ _ _ Hnd Hin') as H2.
    rewrite H1 in H2. injection H2 as <-. done.
Qed.

Lemma stale_nil_live s : stale_keys s = [] → live_entries s = index s.
Proof.
  unfold stale_keys, live_entries. intros H%fmap_nil_inv.
  apply DictFacts.filter_all, Forall_forall. intros kr Hin.
  destruct (live s kr.2) eqn:Hl; [done|]. exfalso.
  apply (filter_nil_not_elem_of _ _ kr H); [|done]. rewrite Hl. by intros [].
Qed.

(** Every run of [list_media] on a well-formed store: the loop annotates
    the live objects in place; when there are stale keys they are deleted
    and the index is written once. *)
Lemma list_media_run s :
  wf s →
  ∃ h',
    list_media s =
      match stale_keys s with
      | [] => (Ok (live_entries s).*2, pruned s h')
      | _ => (_save_index ≫= (λ _, mret (live_entries s).*2)) (pruned s h')
      end ∧
    length h' = length (heap s) ∧
    (∀ r, r ∉ (live_entries s).*2 → h' !! r = heap s !! r) ∧
    (∀ k r, (k, r) ∈ live_entries s →
       ∃ c m d, k = _get_key c m ∧ heap s !! r = Some d ∧
                wf_info (base_dir s) k d ∧
                h' !! r = Some (annotated c m d)).
Proof.
  intros [Hkeys Hrefs Hent].
  destruct (ListMedia.list_media_loop_ok (index s) s [] [] Hrefs Hent)
    as (h' & Hrun & Hlen & Hout & Hann).
  exists h'. split_and!; [|done|done|].
  - unfold list_media. unfold mbind at 1. unfold M_bind at 1.
    unfold gets at 1. unfold mbind at 1. unfold M_bind at 1.
    cbn [app] in Hrun. rewrite Hrun.
    fold (live_entries s). fold (stale_keys s).
    unfold pruned. destruct (stale_keys s) as [|k ks] eqn:Hst.
    + rewrite (stale_nil_live _ Hst). munfold. by destruct s.
    + rewrite <- Hst.
      set (s1 := with_heap (λ _, h') s).
      assert (del_all (stale_keys s) s1 =
              (Ok tt, with_index (λ _, live_entries s) s1)) as Hdel.
      { rewrite del_all_ok.
        - unfold with_index. simpl. by rewrite filter_not_stale.
        - by apply NoDup_filter_keys.
        - done.
        - intros k0 ([k' r'] & -> & [_ Hin]%list_elem_of_filter)%list_elem_of_fmap.
          apply list_elem_of_fmap. by exists (k', r'). }
      unfold mbind at 1. unfold M_bind at 1. by rewrite Hdel.
  - intros k r [Hl Hin]%list_elem_of_filter. simpl in Hl.
    destruct (Hann k r Hin Hl) as (c & m & d & Hk & Hd & Hh').
    destruct (Hent k r Hin) as (d' & Hd' & Hinfo).
    rewrite Hd in Hd'. injection Hd' as <-. eauto 10.
Qed.

(** [list_media] on a well-formed store whose index file is writable:
    the result is the list of the references of the index after the pass,
    and the objects they denote are annotated in place. *)
Lemma list_media_ok s :
  wf s → index_writable s →
  ∃ h',
    list_media s = (Ok (live_entries s).*2, listed s h') ∧
    length h' = length (heap s) ∧
    (∀ r, r ∉ (live_entries s).*2 → h' !! r = heap s !! r) ∧
    (∀ k r, (k, r) ∈ live_entries s →
       ∃ c m d, k = _get_key c m ∧ heap s !! r = Some d ∧
                wf_info (base_dir s) k d ∧
                h' !! r = Some (annotated c m d)).
Proof.
  intros Hwf Hw.
  destruct (list_media_run s Hwf) as (h' & Hrun & Hrest).
  exists h'. split; [|done]. rewrite Hrun. unfold listed.
  destruct (stale_keys s); [done|]. munfold.
  by rewrite Run.save_index_ok.
Qed.

(** The pruned index with the annotated heap is well formed. *)
Lemma wf_pruned s h' :
  wf s →
  (∀ k r, (k, r) ∈ live_entries s →
     ∃ c m d, k = _get_key c m ∧ heap s !! r = Some d ∧
              wf_info (base_dir s) k d ∧
              h' !! r = Some (annotated c m d)) →
  wf (pruned s h').
Proof.
  intros [Hkeys Hrefs Hent] Hann. split; simpl.
  - by apply NoDup_filter_keys.
  - by apply NoDup_filter_values.
  - intros k r Hin.
    destruct (Hann k r Hin) as (c & m & d & -> & Hd & Hinfo & Hd').
    exists (annotated c m d). split; [done|].
    by apply Inv.wf_info_annotated.
Qed.

End ListMediaRun.

(* ================================================================== *)
(** * [delete_media] and [clear_all_media], run *)
(* ================================================================== *)

Module Removal.
Import MediaStorage.

(** The removal of a file with the handler that swallows [OSError]. *)
Lemma best_effort_remove {A} (p : string) (a b : A) s :
  (found ← OS.path_exists p;
   if (found : bool)
   then try_except_OSError (OS.remove p;; mret a) (λ _, mret b)
   else mret b) s =
  (Ok (if removable s p then a else b), unlinked p s).
Proof.
  unfold OS.path_exists, OS.remove, unlinked, removable. munfold.
  destruct (files s !! p) as [content|] eqn:Hf.
  - rewrite bool_decide_true by eauto. rewrite Hf.
    destruct (decide (p ∈ locked s)) as [Hl|Hl].
    + by rewrite bool_decide_true.
    + by rewrite bool_decide_false.
  - rewrite bool_decide_false by (by intros [? ?]). done.
Qed.

Lemma delete_media_absent c m s :
  PyDict.get (_get_key c m) (index s) = None →
  delete_media c m s = (Ok false, s).
Proof. intros H. unfold delete_media. munfold. by rewrite H. Qed.

Lemma entry_path_eq s r d p :
  heap s !! r = Some d → PyDict.get "path" d = Some (JStr p) →
  entry_path s r = p.
Proof.
  intros Hd Hp. unfold entry_path, path_of, deref. rewrite Hd. simpl.
  by rewrite Hp.
Qed.

Lemma unlinked_frame p s :
  heap (unlinked p s) = heap s ∧ index (unlinked p s) = index s ∧
  base_dir (unlinked p s) = base_dir s ∧ locked (unlinked p s) = locked s.
Proof. unfold unlinked. by repeat case_match. Qed.

(** Every run of [delete_media] on a key of a well-formed index: the
    file is removed if the OS allows, the entry is deleted in memory, and
    then the index is written. *)
Lemma delete_media_run c m s r :
  wf s →
  PyDict.get (_get_key c m) (index s) = Some r →
  delete_media c m s =
    (_save_index ≫= (λ _, mret true))
      (with_index (PyDict.del (_get_key c m)) (unlinked (entry_path s r) s)).
Proof.
  intros Hwf Hget.
  pose proof (DictFacts.get_Some_elem _ _ _ Hget) as Hin.
  destruct (wf_entries s Hwf _ _ Hin) as (d & Hd & Hinfo).
  destruct (Inv.wf_info_path _ _ _ Hinfo) as (c' & m' & ext & _ & _ & Hp).
  assert (PyDict.mem (_get_key c m) (index s) = true) as Hmem.
  { apply DictFacts.mem_true, list_elem_of_fmap. by eexists (_, _). }
  unfold delete_media. unfold mbind at 1. unfold M_bind at 1.
  unfold gets at 1. rewrite Hget.
  unfold mbind at 1. unfold M_bind at 1.
  rewrite (ListMedia.getitem_path _ _ _ _ Hd Hp).
  unfold OS.path_exists, OS.remove.
  rewrite (entry_path_eq _ _ _ _ Hd Hp).
  unfold unlinked. munfold.
  destruct (files s !! _) as [content|] eqn:Hf.
  - rewrite bool_decide_true by eauto. rewrite Hf.
    destruct (decide (_ ∈ locked s)) as [Hl|Hl]; simpl.
    + unfold del_index. by rewrite Hmem.
    + unfold del_index. simpl. by rewrite Hmem.
  - rewrite bool_decide_false by (by intros [? ?]).
    unfold del_index. by rewrite Hmem.
Qed.

Lemma delete_media_present c m s r :
  wf s → index_writable s →
  PyDict.get (_get_key c m) (index s) = Some r →
  delete_media c m s = (Ok true, deleted s (_get_key c m) r).
Proof.
  intros Hwf Hw Hget. rewrite (delete_media_run _ _ _ _ Hwf Hget).
  munfold. rewrite Run.save_index_ok; [done|].
  unfold index_writable, index_file in *. simpl.
  by destruct (unlinked_frame (entry_path s r) s) as (_ & _ & -> & ->).
Qed.

Lemma best_effort_remove_bind {A B} (p : string) (a b : A) (k : A → M B) s :
  (found ← OS.path_exists p;
   x ← (if (found : bool)
        then try_except_OSError (OS.remove p;; mret a) (λ _, mret b)
        else mret b);
   k x) s =
  k (if removable s p then a else b) (unlinked p s).
Proof.
  pose proof (best_effort_remove p a b s) as H. revert H.
  unfold OS.path_exists. munfold.
  destruct (bool_decide (is_Some (files s !! p)));
    destruct (OS.remove p s) as [[[]|e] s']; simpl;
    try destruct (is_OSError e); by intros [= <- <-].
Qed.

Lemma entry_path_unlinked p s r :
  entry_path (unlinked p s) r = entry_path s r.
Proof.
  unfold entry_path, deref.
  by destruct (unlinked_frame p s) as (-> & _).
Qed.

Lemma clear_loop_ok values : ∀ s n,
  (∀ r, r ∈ values →
     ∃ d p, heap s !! r = Some d ∧ PyDict.get "path" d = Some (JStr p)) →
  clear_loop values n s =
    (Ok (n + removed_count (entry_path s <$> values) s)%Z,
     unlinked_all (entry_path s <$> values) s).
Proof.
  induction values as [|r values IH]; intros s n Hv.
  - simpl. munfold. by rewrite Z.add_0_r.
  - destruct (Hv r) as (d & p & Hd & Hp); [apply list_elem_of_here|].
    cbn [clear_loop]. unfold mbind at 1. unfold M_bind at 1.
    rewrite (ListMedia.getitem_path _ _ _ _ Hd Hp).
    rewrite best_effort_remove_bind. rewrite IH.
    + rewrite fmap_cons. cbn [removed_count unlinked_all].
      rewrite (entry_path_eq _ _ _ _ Hd Hp).
      assert (entry_path (unlinked p s) <$> values = entry_path s <$> values)
        as -> by (apply list_fmap_ext; intros; apply entry_path_unlinked).
      destruct (removable s p); f_equal; f_equal; lia.
    + intros r' Hr'. destruct (unlinked_frame p s) as (-> & _).
      by apply Hv, list_elem_of_further.
Qed.

Lemma unlinked_all_frame paths : ∀ s,
  heap (unlinked_all paths s) = heap s ∧
  index (unlinked_all paths s) = index s ∧
  base_dir (unlinked_all paths s) = base_dir s ∧
  locked (unlinked_all paths s) = locked s.
Proof.
  induction paths as [|p paths IH]; intros s; [done|]. simpl.
  destruct (IH (unlinked p s)) as (-> & -> & -> & ->). apply unlinked_frame.
Qed.

(** Every run of [clear_all_media] on a well-formed store. *)
Lemma clear_all_media_run s :
  wf s →
  clear_all_media s =
    (_save_index ≫=
       (λ _, mret (removed_count (entry_path s <$> (index s).*2) s)))
      (with_index (λ _, [])
         (unlinked_all (entry_path s <$> (index s).*2) s)).
Proof.
  intros Hwf. unfold clear_all_media.
  unfold mbind at 1. unfold M_bind at 1. unfold gets at 1.
  unfold mbind at 1. unfold M_bind at 1. unfold PyDict.values.
  rewrite clear_loop_ok.
  - unfold modify. munfold. by rewrite Z.add_0_l.
  - intros r ([k r'] & -> & Hin)%list_elem_of_fmap.
    destruct (wf_entries s Hwf _ _ Hin) as (d & Hd & Hinfo).
    destruct (Inv.wf_info_path _ _ _ Hinfo) as (c & m & ext & _ & _ & Hp).
    eauto.
Qed.

Lemma clear_all_media_ok s :
  wf s → index_writable s →
  clear_all_media s =
    (Ok (removed_count (entry_path s <$> (index s).*2) s), cleared s).
Proof.
  intros Hwf Hw. rewrite (clear_all_media_run _ Hwf).
  munfold. rewrite Run.save_index_ok; [done|].
  unfold index_writable, index_file in *. simpl.
  by destruct (unlinked_all_frame (entry_path s <$> (index s).*2) s)
    as (_ & _ & -> & ->).
Qed.

End Removal.

(* ================================================================== *)
(** * The read-only methods and the statistics, run *)
(* ================================================================== *)

Module Reads.
Import MediaStorage.

Lemma get_media_run c m s :
  get_media c m s = (Ok (PyDict.get (_get_key c m) (index s)), s).
Proof. done. Qed.

Lemma get_media_path_absent c m s :
  PyDict.get (_get_key c m) (index s) = None →
  get_media_path c m s = (Ok None, s).
Proof.
  intros H. unfold get_media_path, get_media, truthy. munfold. by rewrite H.
Qed.

Lemma get_media_path_present c m s r :
  wf s → PyDict.get (_get_key c m) (index s) = Some r →
  get_media_path c m s =
    (Ok (if live s r then Some (entry_path s r) else None), s).
Proof.
  intros Hwf Hget.
  pose proof (DictFacts.get_Some_elem _ _ _ Hget) as Hin.
  destruct (wf_entries s Hwf _ _ Hin) as (d & Hd & Hinfo).
  destruct (Inv.wf_info_path _ _ _ Hinfo) as (c' & m' & ext & _ & _ & Hp).
  pose proof (Inv.wf_info_nonempty _ _ _ Hinfo) as Hne.
  unfold get_media_path, get_media, truthy.
  unfold mbind at 1. unfold M_bind at 1. unfold gets at 1. rewrite Hget.
  unfold mbind at 1. unfold M_bind at 1. unfold gets at 1.
  unfold deref at 1. rewrite Hd.
  destruct d as [|kv d]; [done|]. cbn [default from_option id].
  cbv beta iota. unfold mbind at 1. unfold M_bind at 1.
  rewrite (ListMedia.getitem_path _ _ _ _ Hd Hp).
  rewrite (ListMedia.live_path _ _ _ _ Hd Hp).
  rewrite (Removal.entry_path_eq _ _ _ _ Hd Hp).
  unfold OS.path_exists. munfold.
  by destruct (bool_decide _).
Qed.

Lemma sum_sizes_ok media_list : ∀ s acc,
  (∀ r, r ∈ media_list →
     ∃ d n, heap s !! r = Some d ∧ PyDict.get "size" d = Some (JInt n)) →
  sum_sizes media_list acc s = (Ok (acc + sizes s media_list)%Z, s).
Proof.
  induction media_list as [|r l IH]; intros s acc Hl.
  - simpl. munfold. by rewrite Z.add_0_r.
  - destruct (Hl r) as (d & n & Hd & Hn); [apply list_elem_of_here|].
    cbn [sum_sizes]. unfold getitem, as_int, deref. munfold.
    rewrite Hd. simpl default. rewrite Hn.
    rewrite IH by (intros; by apply Hl, list_elem_of_further).
    simpl. unfold size_of, deref. rewrite Hd. simpl default. rewrite Hn.
    simpl. f_equal. f_equal. lia.
Qed.

End Reads.

(* ================================================================== *)
(** * What [list_media] establishes *)
(* ================================================================== *)

Module ListSpec.
Import MediaStorage.

Lemma path_of_annotated c m d : path_of (annotated c m d) = path_of d.
Proof.
  unfold path_of, annotated. by rewrite !DictFacts.get_set_ne.
Qed.

Lemma size_of_annotated c m d : size_of (annotated c m d) = size_of d.
Proof.
  unfold size_of, annotated. by rewrite !DictFacts.get_set_ne.
Qed.

Lemma index_bytes_ext s s' :
  index s' = index s → heap s' = heap s → index_bytes s' = index_bytes s.
Proof.
  intros Hi Hh. unfold index_bytes, index_doc, deref. by rewrite Hi, Hh.
Qed.

(** The path of a well-formed entry is none of the index file. *)
Lemma wf_info_not_index base k d p :
  wf_info base k d → path_of d = Some p → p ≠ PathLib.join base "index.json".
Proof.
  intros Hinfo Hp.
  destruct (Inv.wf_info_path _ _ _ Hinfo) as (c & m & ext & _ & _ & Hget).
  unfold path_of in Hp. rewrite Hget in Hp. injection Hp as <-.
  apply KeyFacts.file_path_not_index.
Qed.

Lemma list_media_spec s :
  wf s → index_writable s →
  ∃ s',
    list_media s = (Ok (index s').*2, s') ∧
    wf s' ∧
    index s' = live_entries s ∧
    base_dir s' = base_dir s ∧
    locked s' = locked s ∧
    length (heap s') = length (heap s) ∧
    (∀ r, r ∉ (index s').*2 → heap s' !! r = heap s !! r) ∧
    (∀ k r, (k, r) ∈ index s' →
       ∃ c m d, k = _get_key c m ∧ heap s !! r = Some d ∧
                wf_info (base_dir s) k d ∧
                heap s' !! r = Some (annotated c m d) ∧
                live s' r) ∧
    (stale_keys s = [] → files s' = files s ∧ journal s' = journal s) ∧
    (stale_keys s ≠ [] →
       files s' = <[index_file s := index_bytes s']> (files s) ∧
       journal s' = journal s ++ [Wrote (index_file s)]).
Proof.
  intros Hwf Hw.
  destruct (ListMediaRun.list_media_ok s Hwf Hw)
    as (h' & Hrun & Hlen & Hout & Hann).
  set (s1 := with_index (λ _, live_entries s) (with_heap (λ _, h') s)).
  assert (index (listed s h') = live_entries s ∧ heap (listed s h') = h' ∧
          base_dir (listed s h') = base_dir s ∧
          locked (listed s h') = locked s) as (Hi & Hh & Hb & Hl).
  { unfold listed. by destruct (stale_keys s). }
  assert (∀ k r, (k, r) ∈ live_entries s → (k, r) ∈ index s ∧ live s r)
    as Hlive.
  { intros k r [? ?]%list_elem_of_filter. done. }
  exists (listed s h'). rewrite Hi, Hh, Hb, Hl.
  split_and!; try done.
  - destruct Hwf as [Hkeys Hrefs Hent]. split; rewrite ?Hi, ?Hh, ?Hb.
    + by apply ListMediaRun.NoDup_filter_keys.
    + by apply ListMediaRun.NoDup_filter_values.
    + intros k r Hin. destruct (Hann k r Hin) as (c & m & d & -> & Hd & Hinfo & Hd').
      exists (annotated c m d). split; [done|].
      by apply Inv.wf_info_annotated.
  - intros k r Hin. destruct (Hann k r Hin) as (c & m & d & -> & Hd & Hinfo & Hd').
    exists c, m, d. split_and!; try done.
    destruct (Hlive _ _ Hin) as [_ Hl0].
    unfold live, deref in Hl0 |- *. rewrite Hh, Hd'. rewrite Hd in Hl0.
    simpl in Hl0 |- *. rewrite path_of_annotated.
    destruct (path_of d) as [p|] eqn:Hp; [|done].
    unfold listed. destruct (stale_keys s); [done|].
    simpl. rewrite lookup_insert_ne; [done|].
    intros Heq. apply (wf_info_not_index _ _ _ _ Hinfo Hp). by rewrite <- Heq.
  - intros Hst. unfold listed. by rewrite Hst.
  - intros Hst. unfold listed. destruct (stale_keys s); [done|]. done.
Qed.

(** After a pass nothing is stale: a second pass changes nothing. *)
Lemma all_live_entries s :
  (∀ k r, (k, r) ∈ index s → live s r) →
  live_entries s = index s ∧ stale_keys s = [].
Proof.
  intros Hl. unfold live_entries, stale_keys. split.
  - apply DictFacts.filter_all, Forall_forall. intros [k r] Hin.
    exact (Hl k r Hin).
  - rewrite DictFacts.filter_none; [done|]. apply Forall_forall.
    intros [k r] Hin Hn. apply Hn. exact (Hl k r Hin).
Qed.

End ListSpec.

(* ================================================================== *)
(** * The decision procedure is sound *)
(* ================================================================== *)

Module Check.
Import MediaStorage.

Lemma wf_info_b_sound base key d : wf_info_b base key d = true → wf_info base key d.
Proof.
  unfold wf_info_b.
  destruct (Py.split "|" key) as [|sc [|sm [|]]]; try done.
  destruct (Py.int_of_str sc) as [c|]; [|done].
  destruct (Py.int_of_str sm) as [m|]; [|done].
  destruct (PyDict.get "mime_type" d) as [[mime|]|]; try done.
  destruct (PyDict.get "timestamp" d) as [[ts|]|]; try done.
  destruct (PyDict.get "size" d) as [[|size]|]; try done.
  destruct (PyDict.get "extension" d) as [[ext|]|]; try done.
  intros [[Hk Hext]%andb_prop Hd]%andb_prop.
  apply bool_decide_eq_true in Hk.
  assert (dot_ext ext) as Hdot.
  { destruct ext as [|a e]; [done|]. apply Ascii.eqb_eq in Hext. subst a.
    by eexists. }
  apply orb_prop in Hd as [Hd|Hd]; apply bool_decide_eq_true in Hd;
    rewrite Hd, Hk.
  - by apply (wf_fresh _ _ c m).
  - by apply (wf_listed _ _ c m).
Qed.

Lemma wf_b_sound s : wf_b s = true → wf s.
Proof.
  unfold wf_b. intros [[H1 H2]%andb_prop H3]%andb_prop.
  apply bool_decide_eq_true in H1, H2.
  split; [done..|]. intros k r Hin.
  rewrite forallb_forall in H3.
  specialize (H3 (k, r) (proj1 (list_elem_of_In _ _) Hin)). simpl in H3.
  destruct (heap s !! r) as [d|]; [|done].
  exists d. split; [done|]. by apply wf_info_b_sound.
Qed.

End Check.

(* ================================================================== *)
(** * Counting the files that [clear_all_media] removes *)
(* ================================================================== *)

Module Counting.
Import MediaStorage.

Lemma removable_unlinked_ne p p' s :
  p ≠ p' → removable (unlinked p s) p' = removable s p'.
Proof.
  intros Hne. unfold removable, unlinked.
  destruct (files s !! p) as [content|]; [|done].
  destruct (decide (p ∈ locked s)); [done|].
  simpl. by rewrite lookup_delete_ne.
Qed.

(** Over distinct paths the loop removes the files that exist and that the
    OS lets go at the start. *)
Lemma removed_count_NoDup paths : ∀ s,
  NoDup paths →
  removed_count paths s =
    Z.of_nat (length (filter (λ p, removable s p) paths)).
Proof.
  induction paths as [|p paths IH]; intros s Hnd; [done|].
  apply NoDup_cons in Hnd as [Hp Hnd]. cbn [removed_count].
  rewrite IH by done. rewrite filter_cons.
  assert (filter (λ p', removable (unlinked p s) p') paths =
          filter (λ p', removable s p') paths) as ->.
  { apply ListMedia.filter_ext_elem. intros p' Hin.
    rewrite removable_unlinked_ne; [done|]. by intros ->. }
  destruct (removable s p); simpl; lia.
Qed.

(** The stored paths of a well-formed index are distinct. *)
Lemma wf_paths_NoDup s : wf s → NoDup (entry_path s <$> (index s).*2).
Proof.
  intros [Hkeys Hrefs Hent]. apply NoDup_fmap_2_strong; [|done].
  intros r1 r2 ([k1 r1'] & Hr1 & Hin1)%list_elem_of_fmap
               ([k2 r2'] & Hr2 & Hin2)%list_elem_of_fmap Hpath.
  simpl in Hr1, Hr2. subst r1' r2'.
  destruct (Hent _ _ Hin1) as (d1 & Hd1 & Hi1).
  destruct (Hent _ _ Hin2) as (d2 & Hd2 & Hi2).
  destruct (Inv.wf_info_path _ _ _ Hi1) as (c1 & m1 & e1 & -> & He1 & Hp1).
  destruct (Inv.wf_info_path _ _ _ Hi2) as (c2 & m2 & e2 & -> & He2 & Hp2).
  rewrite (Removal.entry_path_eq _ _ _ _ Hd1 Hp1) in Hpath.
  rewrite (Removal.entry_path_eq _ _ _ _ Hd2 Hp2) in Hpath.
  apply KeyFacts.file_path_inj in Hpath as (-> & -> & _); [|done..].
  pose proof (DictFacts.elem_get _ _ _ Hkeys Hin1) as H1.
  pose proof (DictFacts.elem_get _ _ _ Hkeys Hin2) as H2.
  congruence.
Qed.

(** An entry is missing, stuck or removable, and only one of the three. *)
Lemma entry_partition s (l : list (string * nat)) :
  (∀ k r, (k, r) ∈ l →
     ∃ d p, heap s !! r = Some d ∧ PyDict.get "path" d = Some (JStr p)) →
  length l =
    length (filter (λ kr, ¬ live s kr.2) l) +
    length (filter (λ kr, stuck s kr.2) l) +
    length (filter (λ p, removable s p) (entry_path s <$> l.*2)).
Proof.
  induction l as [|[k r] l IH]; intros Hl; [done|].
  destruct (Hl k r) as (d & p & Hd & Hp); [apply list_elem_of_here|].
  rewrite !fmap_cons, !filter_cons. simpl.
  rewrite (ListMedia.live_path _ _ _ _ Hd Hp).
  rewrite (ListMedia.stuck_path _ _ _ _ Hd Hp).
  rewrite (Removal.entry_path_eq _ _ _ _ Hd Hp).
  rewrite IH by (intros; by eapply Hl, list_elem_of_further).
  unfold removable.
  destruct (bool_decide (is_Some (files s !! p)));
    destruct (bool_decide (p ∈ locked s)); simpl;
    repeat case_decide; simpl; try lia; try done; exfalso; tauto.
Qed.

Lemma removed_count_wf s :
  wf s →
  removed_count (entry_path s <$> (index s).*2) s =
    (Z.of_nat (length (index s))
     - Z.of_nat (length (filter (λ kr, ¬ live s kr.2) (index s)))
     - Z.of_nat (length (filter (λ kr, stuck s kr.2) (index s))))%Z.
Proof.
  intros Hwf. rewrite removed_count_NoDup by (by apply wf_paths_NoDup).
  rewrite (entry_partition s (index s)); [lia|].
  intros k r Hin. destruct (wf_entries s Hwf _ _ Hin) as (d & Hd & Hinfo).
  destruct (Inv.wf_info_path _ _ _ Hinfo) as (c & m & ext & _ & _ & Hp).
  eauto.
Qed.

End Counting.

(* ================================================================== *)
(** * A second pass of [list_media] *)
(* ================================================================== *)

Module ListAgain.
Import MediaStorage.

Lemma annotated_idem base c m d :
  wf_info base (_get_key c m) d →
  annotated c m (annotated c m d) = annotated c m d.
Proof. by destruct 1. Qed.

Lemma state_eq s s' :
  files s' = files s → locked s' = locked s → journal s' = journal s →
  heap s' = heap s → base_dir s' = base_dir s → index s' = index s →
  s' = s.
Proof. destruct s, s'. simpl. by intros -> -> -> -> -> ->. Qed.

Lemma index_writable_ext s s' :
  base_dir s' = base_dir s → locked s' = locked s →
  index_writable s → index_writable s'.
Proof.
  unfold index_writable, index_file. by intros -> ->.
Qed.

(** Listing twice in a row: the second pass returns the same objects and
    leaves the state as the first one left it. *)
Lemma list_media_idem s l s' :
  wf s → index_writable s →
  list_media s = (Ok l, s') → list_media s' = (Ok l, s').
Proof.
  intros Hwf Hw Hrun.
  destruct (ListSpec.list_media_spec s Hwf Hw)
    as (s1 & Hrun1 & Hwf1 & Hi1 & Hb1 & Hl1 & Hlen1 & Hout1 & Hann1 & _).
  rewrite Hrun in Hrun1. injection Hrun1 as -> <-.
  assert (index_writable s') as Hw' by (by eapply index_writable_ext).
  destruct (ListSpec.list_media_spec s' Hwf1 Hw')
    as (s2 & Hrun2 & Hwf2 & Hi2 & Hb2 & Hl2 & Hlen2 & Hout2 & Hann2 & Hsame & _).
  destruct (ListSpec.all_live_entries s') as [Hall Hst].
  { intros k r Hin. by destruct (Hann1 k r Hin) as (? & ? & ? & ? & ? & ? & ? & ?). }
  rewrite Hall in Hi2. destruct (Hsame Hst) as [Hf2 Hj2].
  assert (s2 = s') as ->; [|by rewrite Hrun2].
  apply state_eq; try done.
  apply list_eq. intros r.
  destruct (decide (r ∈ (index s2).*2)) as [Hin|Hnin]; [|by apply Hout2].
  apply list_elem_of_fmap in Hin as ([k r'] & -> & Hin). simpl.
  destruct (Hann2 k r' Hin) as (c & m & d & -> & Hd & Hinfo & Hd2 & _).
  rewrite Hi2 in Hin.
  destruct (Hann1 _ _ Hin) as (c0 & m0 & d0 & Hk & Hd0 & Hinfo0 & Hd1 & _).
  apply KeyFacts.get_key_inj in Hk as [<- <-].
  rewrite Hd in Hd1. injection Hd1 as ->.
  rewrite Hd2, Hd. f_equal. by eapply annotated_idem.
Qed.

End ListAgain.

(* ================================================================== *)
(** * Members in the text of the index file *)
(* ================================================================== *)

Module JsonFacts.

Lemma occurs_refl t : occurs t t.
Proof.
  exists "", "". rewrite PyFacts.app_nil. induction t as [|a t IH]; [done|].
  rewrite PyFacts.app_cons. by f_equal.
Qed.

Lemma app_assoc s t u : (s +:+ t) +:+ u = s +:+ (t +:+ u).
Proof.
  induction s as [|a s IH]; [done|]. rewrite !PyFacts.app_cons. by f_equal.
Qed.

Lemma occurs_app_l t s u : occurs t s → occurs t (s +:+ u).
Proof.
  intros (pre & post & ->). exists pre, (post +:+ u).
  by rewrite !app_assoc.
Qed.

Lemma occurs_app_r t s u : occurs t s → occurs t (u +:+ s).
Proof.
  intros (pre & post & ->). exists (u +:+ pre), post.
  by rewrite !app_assoc.
Qed.

Lemma occurs_trans t s u : occurs t s → occurs s u → occurs t u.
Proof.
  intros (pre & post & ->) (pre' & post' & ->).
  exists (pre' +:+ pre), (post +:+ post'). by rewrite !app_assoc.
Qed.

Lemma occurs_concat_sep sep x l : x ∈ l → occurs x (Json.concat_sep sep l).
Proof.
  induction l as [|y l IH]; [by intros ?%elem_of_nil|].
  intros [->|Hin]%elem_of_cons.
  - destruct l as [|z l]; simpl; [apply occurs_refl|].
    apply occurs_app_l, occurs_refl.
  - destruct l as [|z l]; [by apply elem_of_nil in Hin|].
    change (Json.concat_sep sep (y :: z :: l))
      with (y +:+ sep +:+ Json.concat_sep sep (z :: l)).
    by apply occurs_app_r, occurs_app_r, IH.
Qed.

(** A member of a dictionary is in the text of the dictionary. *)
Lemma occurs_object {V} (enc : V → string) ind (d : list (string * V)) k v :
  (k, v) ∈ d →
  occurs (Json.str k +:+ ": " +:+ enc v) (Json.object enc ind d).
Proof.
  intros Hin. unfold Json.object. destruct d as [|kv d]; [by apply elem_of_nil in Hin|].
  do 4 apply occurs_app_r. apply occurs_app_l.
  apply occurs_concat_sep.
  apply list_elem_of_fmap. by exists (k, v).
Qed.


End JsonFacts.

(* ================================================================== *)
(** * Rounding to two decimals, and the statistics *)
(* ================================================================== *)

Module StatsRun.
Import MediaStorage.

(** The rounded integer is within one half of the number. *)
Lemma round_half_even_bound (n : Z) (d : positive) :
  (2 * Z.abs (Z.pos d * round_half_even (n # d) - n) <= Z.pos d)%Z.
Proof.
  unfold round_half_even. simpl Qnum. simpl Qden.
  pose proof (Z.div_mod n (Z.pos d) ltac:(done)) as Hdm.
  pose proof (Z.mod_pos_bound n (Z.pos d) ltac:(done)) as Hr.
  repeat case_match;
    rewrite ?Z.ltb_lt, ?Z.ltb_ge in *; lia.
Qed.

Lemma round2_bound (x : Q) : (Qabs (round2 x - x) <= 1 # 200)%Q.
Proof.
  destruct x as [a b]. unfold round2.
  pose proof (round_half_even_bound (a * 100) (b * 1)) as H.
  change ((a # b) * 100)%Q with ((a * 100) # (b * 1)) in *.
  set (k := round_half_even ((a * 100) # (b * 1))) in *.
  apply Qabs_Qle_condition. unfold Qle, Qminus, Qplus, Qopp. simpl.
  rewrite Pos.mul_1_r in H. lia.
Qed.

Lemma get_storage_stats_ok s l s' :
  wf s → index_writable s →
  list_media s = (Ok l, s') →
  get_storage_stats s =
    (Ok (StorageStats (Z.of_nat (length l)) (sizes s' l)
           (round2 (inject_Z (sizes s' l) / inject_Z (1024 * 1024)))
           (base_dir s)),
     s').
Proof.
  intros Hwf Hw Hrun.
  destruct (ListSpec.list_media_spec s Hwf Hw)
    as (s1 & Hrun1 & Hwf1 & Hi1 & Hb1 & Hl1 & Hlen1 & Hout1 & Hann1 & _).
  rewrite Hrun in Hrun1. injection Hrun1 as -> <-.
  unfold get_storage_stats. unfold mbind at 1. unfold M_bind at 1.
  rewrite Hrun. unfold mbind at 1. unfold M_bind at 1.
  rewrite Reads.sum_sizes_ok.
  - munfold. rewrite Z.add_0_l. by rewrite Hb1.
  - intros r ([k r'] & -> & Hin)%list_elem_of_fmap. simpl.
    destruct (Hann1 _ _ Hin) as (c & m & d & -> & Hd & Hinfo & Hd' & _).
    destruct (Inv.wf_info_size _ _ _ Hinfo) as (n & Hn).
    exists (annotated c m d), n. split; [done|].
    unfold annotated. by rewrite !DictFacts.get_set_ne.
Qed.

End StatsRun.

(* ================================================================== *)
(** * The resource handler, run *)
(* ================================================================== *)

Module Resource.
Import MediaStorage.

Lemma resource_unknown cs ms c m s :
  Py.int_of_str cs = Some c → Py.int_of_str ms = Some m →
  PyDict.get (_get_key c m) (index s) = None →
  get_telegram_media cs ms s =
    (Raise (ValueError
              ("Failed to serve media resource: " +:+
               ("Media not found: " +:+ cs +:+ "/" +:+ ms +:+
                ". Download it first."))), s).
Proof.
  intros Hc Hm Hget. unfold get_telegram_media, int_, get_media, truthy.
  munfold. rewrite Hc, Hm. simpl. by rewrite Hget.
Qed.

Lemma resource_known cs ms c m s r :
  wf s →
  Py.int_of_str cs = Some c → Py.int_of_str ms = Some m →
  PyDict.get (_get_key c m) (index s) = Some r →
  get_telegram_media cs ms s =
    match files s !! entry_path s r with
    | None =>
        (Raise (ValueError
                  ("Failed to serve media resource: " +:+
                   ("Media file not found at " +:+ entry_path s r))), s)
    | Some content =>
        (Ok [Blob ("tgfile://" +:+ cs +:+ "/" +:+ ms)
               (Base64.b64encode content)
               (match PyDict.get "mime_type" (deref s r) with
                | Some (JStr t) => t
                | _ => ""
                end)], s)
    end.
Proof.
  intros Hwf Hc Hm Hget.
  pose proof (DictFacts.get_Some_elem _ _ _ Hget) as Hin.
  destruct (wf_entries s Hwf _ _ Hin) as (d & Hd & Hinfo).
  destruct (Inv.wf_info_path _ _ _ Hinfo) as (c' & m' & ext & _ & _ & Hp).
  destruct (Inv.wf_info_mime _ _ _ Hinfo) as (t & Ht).
  pose proof (Inv.wf_info_nonempty _ _ _ Hinfo) as Hne.
  rewrite (Removal.entry_path_eq _ _ _ _ Hd Hp).
  cbv beta iota zeta delta
    [get_telegram_media int_ get_media truthy getitem as_str deref
     OS.path_exists OS.read_bytes mbind M_bind mret M_ret gets raise
     try_except].
  rewrite Hc, Hm. cbv beta iota. rewrite Hget. cbv beta iota.
  rewrite Hd. cbn [default from_option id].
  destruct d as [|kv d]; [done|]. cbv beta iota.
  rewrite Hd. cbn [default from_option id]. rewrite Hp. cbv beta iota.
  destruct (files s !! _) as [content|] eqn:Hf.
  - rewrite bool_decide_true by eauto. cbn [negb]. cbv beta iota.
    rewrite Hf. cbv beta iota. rewrite Hd. cbn [default from_option id].
    by rewrite Ht.
  - by rewrite bool_decide_false by (by intros [? ?]).
Qed.

End Resource.

(* ================================================================== *)
(** * The invariant holds in every state of a store *)
(* ================================================================== *)

Module Preserve.
Import MediaStorage.

Lemma save_index_frame s r s' :
  _save_index s = (r, s') →
  index s' = index s ∧ heap s' = heap s ∧ base_dir s' = base_dir s.
Proof.
  unfold _save_index, OS.write_text. munfold.
  destruct (decide (index_file s ∈ locked s)); by intros [= <- <-].
Qed.

Lemma then_save_index_wf {A} (v : A) s r s' :
  wf s → (_save_index ≫= (λ _, mret v)) s = (r, s') → wf s'.
Proof.
  intros Hwf. munfold. destruct (_save_index s) as [[[]|e] s1] eqn:Hs;
    intros [= <- <-];
    destruct (save_index_frame _ _ _ Hs) as (Hi & Hh & Hb);
    by apply (Inv.wf_ext s).
Qed.

Lemma wf_save_media guess_type c m src mt now s r s' :
  wf s → save_media guess_type c m src mt now s = (r, s') → wf s'.
Proof.
  intros Hwf. destruct (files s !! src) as [content|] eqn:Hsrc.
  - rewrite (Run.save_media_run _ _ _ _ _ _ _ _ Hsrc).
    repeat case_decide; try (by intros [= <- <-]).
    apply then_save_index_wf, Inv.wf_stored; [done|].
    apply KeyFacts.resolved_extension_dot.
  - rewrite Run.save_media_missing by done. by intros [= <- <-].
Qed.

Lemma wf_list_media s r s' : wf s → list_media s = (r, s') → wf s'.
Proof.
  intros Hwf. destruct (ListMediaRun.list_media_run s Hwf)
    as (h' & -> & _ & _ & Hann).
  pose proof (ListMediaRun.wf_pruned s h' Hwf Hann) as Hwf'.
  destruct (stale_keys s).
  - by intros [= <- <-].
  - by apply then_save_index_wf.
Qed.

Lemma wf_delete_media c m s r s' : wf s → delete_media c m s = (r, s') → wf s'.
Proof.
  intros Hwf. destruct (PyDict.get (_get_key c m) (index s)) as [r0|] eqn:Hget.
  - rewrite (Removal.delete_media_run _ _ _ _ Hwf Hget).
    apply then_save_index_wf.
    destruct (Removal.unlinked_frame (entry_path s r0) s) as (Hh & Hi & Hb & _).
    destruct Hwf as [Hkeys Hrefs Hent]. split; simpl; rewrite ?Hh, ?Hi, ?Hb.
    + rewrite DictFacts.del_filter by done.
      by apply ListMediaRun.NoDup_filter_keys.
    + rewrite DictFacts.del_filter by done.
      by apply ListMediaRun.NoDup_filter_values.
    + intros k r1. rewrite DictFacts.del_filter by done.
      intros [_ Hin]%list_elem_of_filter. auto.
  - rewrite Removal.delete_media_absent by done. by intros [= <- <-].
Qed.

Lemma wf_clear_all_media s r s' : wf s → clear_all_media s = (r, s') → wf s'.
Proof.
  intros Hwf. rewrite (Removal.clear_all_media_run _ Hwf).
  apply then_save_index_wf.
  split; simpl; [apply NoDup_nil_2..|]. by intros ? ? ?%elem_of_nil.
Qed.

Lemma sum_sizes_state l : ∀ acc s r s', sum_sizes l acc s = (r, s') → s' = s.
Proof.
  induction l as [|x l IH]; intros acc s r s'.
  - by intros [= <- <-].
  - cbn [sum_sizes]. unfold getitem, as_int. munfold.
    destruct (PyDict.get "size" (deref s x)) as [[t|n]|];
      try (by intros [= <- <-]).
    apply IH.
Qed.

Lemma wf_get_storage_stats s r s' :
  wf s → get_storage_stats s = (r, s') → wf s'.
Proof.
  intros Hwf. unfold get_storage_stats. unfold mbind at 1. unfold M_bind at 1.
  destruct (list_media s) as [[l|e] s1] eqn:Hlist.
  - pose proof (wf_list_media _ _ _ Hwf Hlist) as Hwf1.
    unfold mbind at 1. unfold M_bind at 1.
    destruct (sum_sizes l 0 s1) as [[n|e] s2] eqn:Hsum;
      apply sum_sizes_state in Hsum as ->; munfold; by intros [= <- <-].
  - intros [= <- <-]. by eapply wf_list_media.
Qed.

Lemma wf_step guess_type s s' : wf s → step guess_type s s' → wf s'.
Proof.
  intros Hwf Hstep. destruct Hstep.
  - by eapply wf_save_media.
  - by eapply wf_list_media.
  - by eapply wf_delete_media.
  - by eapply wf_clear_all_media.
  - by eapply wf_get_storage_stats.
  - by apply (Inv.wf_ext s).
Qed.

Lemma wf_reachable guess_type s : reachable guess_type s → wf s.
Proof.
  intros (s0 & Hnil & Hsteps).
  assert (wf s0) as Hwf0.
  { split; rewrite ?Hnil; [apply NoDup_nil_2..|]. by intros ? ? ?%elem_of_nil. }
  clear Hnil. induction Hsteps as [|s1 s2 s3 Hstep _ IH]; [done|].
  apply IH. by eapply wf_step.
Qed.

End Preserve.

(* ================================================================== *)
(** * Base64 loses nothing *)
(* ================================================================== *)

Module Base64Facts.
Import Base64Read.

#[local] Ltac Zify.zify_post_hook ::= Z.to_euclidean_division_equations.

Lemma index_of_char i : (i < 64)%N → index_of (Base64.char i) = Some i.
Proof.
  intros Hi.
  assert (forallb (λ j, bool_decide (index_of (Base64.char j) = Some j))
            (N.of_nat <$> seq 0 64) = true) as Hall by (vm_compute; reflexivity).
  rewrite forallb_forall in Hall.
  specialize (Hall i). rewrite bool_decide_eq_true in Hall. apply Hall.
  apply list_elem_of_In, list_elem_of_fmap.
  exists (N.to_nat i). split; [lia|]. apply list_elem_of_In, in_seq. lia.
Qed.

Lemma char_not_pad i : (i < 64)%N → Ascii.eqb (Base64.char i) "=" = false.
Proof.
  intros Hi.
  assert (forallb (λ j, negb (Ascii.eqb (Base64.char j) "="))
            (N.of_nat <$> seq 0 64) = true) as Hall by (vm_compute; reflexivity).
  rewrite forallb_forall in Hall.
  apply negb_true_iff, Hall, list_elem_of_In, list_elem_of_fmap.
  exists (N.to_nat i). split; [lia|]. apply list_elem_of_In, in_seq. lia.
Qed.

Lemma byte_of_to a n : n = Byte.to_N a → Byte.of_N n = Some a.
Proof. intros ->. apply Byte.of_to_N. Qed.

Lemma decode_three a b c rest :
  b64decode (Base64.b64encode (a :: b :: c :: rest)) =
  (back ← b64decode (Base64.b64encode rest); Some (a :: b :: c :: back)).
Proof.
  pose proof (Byte.to_N_bounded a). pose proof (Byte.to_N_bounded b).
  pose proof (Byte.to_N_bounded c).
  cbn [Base64.b64encode]. cbv zeta.
  set (n := (Byte.to_N a * 65536 + Byte.to_N b * 256 + Byte.to_N c)%N).
  cbn [b64decode].
  rewrite !index_of_char by lia. cbn [mbind option_bind].
  rewrite ?char_not_pad by lia. rewrite ?index_of_char by lia.
  cbn [mbind option_bind].
  replace (n / 262144 * 262144 + n / 4096 mod 64 * 4096 +
           n / 64 mod 64 * 64 + n mod 64)%N with n by lia.
  unfold bytes_of.
  rewrite (byte_of_to a (n / 65536)) by lia.
  rewrite (byte_of_to b (n / 256 mod 256)) by lia.
  rewrite (byte_of_to c (n mod 256)) by lia. done.
Qed.

Lemma decode_two a b :
  b64decode (Base64.b64encode [a; b]) = Some [a; b].
Proof.
  pose proof (Byte.to_N_bounded a). pose proof (Byte.to_N_bounded b).
  cbn [Base64.b64encode]. cbv zeta.
  set (n := (Byte.to_N a * 65536 + Byte.to_N b * 256)%N).
  cbn [b64decode].
  rewrite !index_of_char by lia. cbn [mbind option_bind].
  rewrite ?char_not_pad by lia. rewrite ?index_of_char by lia.
  cbn [mbind option_bind]. simpl.
  replace (n / 262144 * 262144 + n / 4096 mod 64 * 4096 +
           n / 64 mod 64 * 64)%N with n by lia.
  unfold bytes_of.
  rewrite (byte_of_to a (n / 65536)) by lia.
  rewrite (byte_of_to b (n / 256 mod 256)) by lia.
  replace (n mod 256)%N with 0%N by lia. done.
Qed.

Lemma decode_one a : b64decode (Base64.b64encode [a]) = Some [a].
Proof.
  pose proof (Byte.to_N_bounded a).
  cbn [Base64.b64encode]. cbv zeta.
  set (n := (Byte.to_N a * 65536)%N).
  cbn [b64decode].
  rewrite !index_of_char by lia. cbn [mbind option_bind]. simpl.
  replace (n / 262144 * 262144 + n / 4096 mod 64 * 4096)%N with n by lia.
  unfold bytes_of.
  rewrite (byte_of_to a (n / 65536)) by lia.
  replace (n / 256 mod 256)%N with 0%N by lia.
  replace (n mod 256)%N with 0%N by lia. done.
Qed.

(** Decoding the encoding of a byte string gives the byte string back:
    the blob of a resource determines the whole content of the file. *)
Lemma b64decode_encode bs : b64decode (Base64.b64encode bs) = Some bs.
Proof.
  induction bs as [bs IH] using (induction_ltof1 _ (@length _)).
  unfold ltof in IH.
  destruct bs as [|a [|b [|c rest]]];
    [done|apply decode_one|apply decode_two|].
  rewrite decode_three, IH by (simpl; lia). done.
Qed.

End Base64Facts.

(* ================================================================== *)
(** * The files after the loop of [clear_all_media] *)
(* ================================================================== *)

Module ClearFacts.
Import MediaStorage.

Lemma files_unlinked_same p s :
  files (unlinked p s) !! p = if removable s p then None else files s !! p.
Proof.
  unfold unlinked, removable.
  destruct (files s !! p) as [content|] eqn:Hf.
  - rewrite bool_decide_true by eauto. destruct (decide (p ∈ locked s)).
    + rewrite bool_decide_true by done. simpl. exact Hf.
    + rewrite bool_decide_false by done. simpl. apply lookup_delete_eq.
  - rewrite bool_decide_false by (by intros [? ?]). simpl. exact Hf.
Qed.

Lemma files_unlinked_other p0 s p :
  p ≠ p0 → files (unlinked p0 s) !! p = files s !! p.
Proof.
  intros Hne. unfold unlinked.
  destruct (files s !! p0); [|done].
  destruct (decide (p0 ∈ locked s)); [done|].
  simpl. by apply lookup_delete_ne.
Qed.

Lemma unlinked_not_removable p s : removable s p = false → unlinked p s = s.
Proof.
  unfold unlinked, removable. destruct (files s !! p) as [content|]; [|done].
  rewrite bool_decide_true by eauto. destruct (decide (p ∈ locked s)); [done|].
  by rewrite bool_decide_false.
Qed.

(** The loop removes the files among [paths] that are there and that the
    OS lets go, and no other. *)
Lemma files_unlinked_all_spec paths : ∀ s p,
  files (unlinked_all paths s) !! p =
    if bool_decide (p ∈ paths) && removable s p then None else files s !! p.
Proof.
  induction paths as [|p0 paths IH]; intros s p.
  - cbn [unlinked_all]. by rewrite bool_decide_false by apply not_elem_of_nil.
  - cbn [unlinked_all]. rewrite IH. destruct (decide (p = p0)) as [->|Hne].
    + rewrite (bool_decide_true (p0 ∈ p0 :: paths))
        by apply list_elem_of_here.
      rewrite files_unlinked_same. cbn [andb].
      destruct (removable s p0) eqn:Hr.
      * by destruct (bool_decide (p0 ∈ paths) && removable (unlinked p0 s) p0).
      * rewrite (unlinked_not_removable _ _ Hr), Hr.
        by rewrite andb_false_r.
    + rewrite (Counting.removable_unlinked_ne p0 p s) by done.
      rewrite (files_unlinked_other p0 s p Hne).
      rewrite (bool_decide_ext (p ∈ p0 :: paths) (p ∈ paths)); [done|].
      rewrite elem_of_cons. split; [by intros [?|?]|by right].
Qed.

Lemma removable_entry s r d p :
  heap s !! r = Some d → PyDict.get "path" d = Some (JStr p) →
  live s r && negb (stuck s r) = removable s (entry_path s r).
Proof.
  intros Hd Hp.
  rewrite (ListMedia.live_path _ _ _ _ Hd Hp).
  rewrite (ListMedia.stuck_path _ _ _ _ Hd Hp).
  rewrite (Removal.entry_path_eq _ _ _ _ Hd Hp). unfold removable.
  by destruct (bool_decide (is_Some (files s !! p))),
       (bool_decide (p ∈ locked s)).
Qed.

Lemma length_filter_fmap {A} (f : A → string) (g : string → bool)
    (h : A → bool) (l : list A) :
  (∀ x, x ∈ l → g (f x) = h x) →
  length (filter (λ p, g p) (f <$> l)) = length (filter (λ x, h x) l).
Proof.
  induction l as [|x l IH]; intros Hl; [done|].
  rewrite fmap_cons, !filter_cons.
  rewrite (Hl x) by apply list_elem_of_here.
  specialize (IH (λ y Hy, Hl y (list_elem_of_further _ _ _ Hy))).
  destruct (decide (h x)); simpl; by rewrite ?IH.
Qed.

(** The files of the entries after [clear_all_media] on a well-formed
    store whose index file can be written. *)
Lemma files_cleared_entry s k r :
  wf s → (k, r) ∈ index s →
  files (cleared s) !! entry_path s r =
    if live s r && negb (stuck s r) then None else files s !! entry_path s r.
Proof.
  intros Hwf Hin.
  destruct (wf_entries s Hwf _ _ Hin) as (d & Hd & Hinfo).
  destruct (Inv.wf_info_path _ _ _ Hinfo) as (c & m & ext & _ & _ & Hp).
  rewrite (removable_entry _ _ _ _ Hd Hp).
  unfold cleared, persisted. cbn [files with_files with_index].
  destruct (Removal.unlinked_all_frame (entry_path s <$> (index s).*2) s)
    as (_ & _ & Hb & _).
  unfold index_file. cbn [base_dir with_index]. rewrite Hb.
  rewrite lookup_insert_ne.
  - rewrite files_unlinked_all_spec. rewrite bool_decide_true; [done|].
    apply list_elem_of_fmap. exists r. split; [done|].
    apply list_elem_of_fmap. by exists (k, r).
  - rewrite (Removal.entry_path_eq _ _ _ _ Hd Hp).
    apply not_eq_sym, KeyFacts.file_path_not_index.
Qed.

Lemma files_cleared_other s p :
  p ∉ entry_path s <$> (index s).*2 → p ≠ index_file s →
  files (cleared s) !! p = files s !! p.
Proof.
  intros Hp Hne. unfold cleared, persisted. cbn [files with_files with_index].
  destruct (Removal.unlinked_all_frame (entry_path s <$> (index s).*2) s)
    as (_ & _ & Hb & _).
  unfold index_file in *. cbn [base_dir with_index]. rewrite Hb.
  rewrite lookup_insert_ne by done.
  rewrite files_unlinked_all_spec. by rewrite bool_decide_false.
Qed.

(** The number that [clear_all_media] returns counts the entries whose
    file was there before the call and is not there after it. *)
Lemma removed_count_files s :
  wf s →
  removed_count (entry_path s <$> (index s).*2) s =
    Z.of_nat (length (filter (λ kr, World.removed s (cleared s)
                                      (entry_path s kr.2))
                        (index s))).
Proof.
  intros Hwf.
  rewrite Counting.removed_count_NoDup by (by apply Counting.wf_paths_NoDup).
  f_equal. rewrite <- list_fmap_compose.
  apply (length_filter_fmap (λ kr, entry_path s kr.2) (removable s)).
  intros [k r] Hin. cbn [snd]. unfold World.removed.
  rewrite (files_cleared_entry s k r Hwf Hin).
  destruct (wf_entries s Hwf _ _ Hin) as (d & Hd & Hinfo).
  destruct (Inv.wf_info_path _ _ _ Hinfo) as (c & m & ext & _ & _ & Hp).
  rewrite (removable_entry _ _ _ _ Hd Hp).
  destruct (removable s (entry_path s r)) eqn:Hr.
  - unfold removable in Hr. apply andb_prop in Hr as [-> _]. reflexivity.
  - by destruct (bool_decide (is_Some (files s !! entry_path s r))).
Qed.

Lemma not_exists_no_file s p :
  World.path_exists s p = false → files s !! p = None.
Proof.
  unfold World.path_exists. intros [Hf _]%orb_false_elim.
  apply bool_decide_eq_false in Hf.
  destruct (files s !! p); [|done]. exfalso. apply Hf. eauto.
Qed.

End ClearFacts.


(* ================================================================== *)
(** * The properties of the cache *)
(* ================================================================== *)

(** Closes a decidable goal on a concrete store by evaluation. *)
Ltac by_evaluation := apply (bool_decide_unpack _); vm_compute; exact I.

Section save_properties.
Import MediaStorage.
Variable guess_type : string → option string.

(** C8. Saving from a source path at which there is nothing fails with
    [FileNotFoundError] and leaves the whole state as it was: the index
    in memory, the index file and the stored files.  The source is an
    absolute path as [Path] spells it, and the world has no file and no
    directory there. *)
Theorem C8_save_missing_source_is_atomic c m src mt now s :
  World.canonical src = true →
  World.path_exists s src = false →
  save_media guess_type c m src mt now s =
    (Raise (FileNotFoundError ("Source file not found: " +:+ src)), s).
Proof.
  intros _ Hnone. apply Run.save_media_missing.
  by apply ClearFacts.not_exists_no_file.
Qed.

(** C7. A completed save stores the supplied MIME type, else the guessed
    one, else [application/octet-stream]; the extension is the suffix of
    the source path when it has one, else the entry of the table of eight
    for the resolved MIME type, else [.bin]; and the destination is the
    base directory joined with [chat{chat_id}_msg{message_id}{extension}].
    A source of three bytes named [*.jpg], saved for [(100, 5)] without a
    MIME type, is stored as [image/jpeg], [.jpg], size 3, under
    [chat100_msg5.jpg]. *)
Theorem C7_save_resolution c m src mt now s content p s' :
  files s !! src = Some content →
  save_media guess_type c m src mt now s = (Ok p, s') →
  ∃ mime ext,
    p = PathLib.join (base_dir s)
          ("chat" +:+ Py.str_of_int c +:+ "_msg" +:+ Py.str_of_int m +:+ ext) ∧
    record_of s' c m =
      Some [ ("path", JStr p); ("mime_type", JStr mime);
             ("timestamp", JStr now);
             ("size", JInt (Z.of_nat (length content)));
             ("extension", JStr ext) ] ∧
    (∀ t, mt = Some t → mime = t) ∧
    (∀ t, mt = None → guess_type src = Some t → mime = t) ∧
    (mt = None → guess_type src = None → mime = "application/octet-stream") ∧
    (PathLib.suffix src ≠ "" → ext = PathLib.suffix src) ∧
    (PathLib.suffix src = "" →
       (mime = "image/jpeg" → ext = ".jpg") ∧
       (mime = "image/png" → ext = ".png") ∧
       (mime = "image/gif" → ext = ".gif") ∧
       (mime = "image/webp" → ext = ".webp") ∧
       (mime = "video/mp4" → ext = ".mp4") ∧
       (mime = "audio/mpeg" → ext = ".mp3") ∧
       (mime = "audio/ogg" → ext = ".ogg") ∧
       (mime = "application/pdf" → ext = ".pdf") ∧
       (mime ∉ [ "image/jpeg"; "image/png"; "image/gif"; "image/webp";
                 "video/mp4"; "audio/mpeg"; "audio/ogg";
                 "application/pdf" ] → ext = ".bin")) ∧
    (c = 100%Z → m = 5%Z → mt = None → length content = 3 →
     PathLib.suffix src = ".jpg" → guess_type src = Some "image/jpeg" →
     p = PathLib.join (base_dir s) "chat100_msg5.jpg" ∧
     mime = "image/jpeg" ∧ ext = ".jpg" ∧
     PyDict.get "size" <$> record_of s' c m = Some (Some (JInt 3))).
Proof.
  intros Hsrc Hrun.
  destruct (Run.save_media_inv _ _ _ _ _ _ _ _ _ _ Hsrc Hrun)
    as (-> & -> & _ & _ & _).
  set (mime := resolved_mime_type guess_type src mt).
  set (ext := resolved_extension src mime).
  assert (record_of (saved s c m src content mime now ext) c m =
          Some (fresh_info (_get_file_path (base_dir s) c m ext) mime now
                  (Z.of_nat (length content)) ext)) as Hrec.
  { unfold record_of. simpl. rewrite DictFacts.get_set_eq. simpl.
    by apply list_lookup_middle. }
  assert (PathLib.suffix src ≠ "" → ext = PathLib.suffix src) as Hsuf.
  { intros Hne. unfold ext, resolved_extension.
    by destruct (String.eqb_spec (PathLib.suffix src) ""). }
  assert (PathLib.suffix src = "" →
          ext = default ".bin" (PyDict.get mime ext_map)) as Htab.
  { intros He. unfold ext, resolved_extension. by rewrite He. }
  exists mime, ext. split_and!.
  - done.
  - done.
  - by intros t ->.
  - intros t -> Hg. unfold mime. simpl. by rewrite Hg.
  - intros -> Hg. unfold mime. simpl. by rewrite Hg.
  - done.
  - intros He. rewrite (Htab He). unfold ext_map.
    split_and!; try (by intros ->).
    intros Hnot. simpl. repeat case_decide; try done; subst mime;
      exfalso; apply Hnot; set_solver.
  - intros -> -> -> Hlen Hjpg Hg.
    assert (mime = "image/jpeg") as Hm by (unfold mime; simpl; by rewrite Hg).
    assert (ext = ".jpg") as He by (rewrite Hsuf; by rewrite Hjpg).
    split_and!; [by rewrite He|done|done|].
    rewrite Hrec. simpl. by rewrite Hlen.
Qed.

(** C1, as amended. Round trip: for a source file that exists and is not
    already the file that the key is stored in, a save with a supplied
    MIME type that can write its destination and the index file
    completes, and [get] then yields a record with that MIME type whose
    path holds exactly the bytes of the source. *)
Theorem C1_round_trip c m src content mime now s :
  let dest :=
    _get_file_path (base_dir s) c m (resolved_extension src mime) in
  files s !! src = Some content →
  src ≠ dest →
  dest ∉ locked s →
  index_writable s →
  ∃ p s' r d,
    save_media guess_type c m src (Some mime) now s = (Ok p, s') ∧
    get_media c m s' = (Ok (Some r), s') ∧
    heap s' !! r = Some d ∧
    PyDict.get "mime_type" d = Some (JStr mime) ∧
    PyDict.get "path" d = Some (JStr p) ∧
    files s' !! p = Some content.
Proof.
  intros dest Hsrc Hne Hdest Hw.
  pose proof (Run.save_media_ok guess_type c m src (Some mime) now s content
                Hsrc Hne Hdest Hw) as Hrun.
  simpl in Hrun. fold dest in Hrun.
  eexists _, _, (length (heap s)), _. split_and!; [exact Hrun|..].
  - rewrite Reads.get_media_run. simpl. by rewrite DictFacts.get_set_eq.
  - simpl. by apply list_lookup_middle.
  - done.
  - done.
  - simpl. rewrite lookup_insert_ne.
    + fold dest. apply lookup_insert_eq.
    + unfold index_file. simpl. intros Heq.
      by eapply KeyFacts.file_path_not_index.
Qed.
End save_properties.

Lemma C8_witness :
  World.canonical "/tmp/missing.jpg" = true ∧
  World.path_exists Examples.fresh "/tmp/missing.jpg" = false ∧
  MediaStorage.save_media Examples.guess_type 100 5 "/tmp/missing.jpg" None
    Examples.t1 Examples.fresh =
  (Raise (FileNotFoundError "Source file not found: /tmp/missing.jpg"),
   Examples.fresh).
Proof.
  split; [reflexivity|]. split; [vm_compute; reflexivity|].
  apply (C8_save_missing_source_is_atomic Examples.guess_type 100 5
           "/tmp/missing.jpg" None Examples.t1 Examples.fresh).
  - reflexivity.
  - vm_compute. reflexivity.
Defined.

Lemma C7_witness :
  files Examples.fresh !! "/tmp/photo.jpg" = Some Examples.photo ∧
  MediaStorage.save_media Examples.guess_type 100 5 "/tmp/photo.jpg" None
    Examples.t1 Examples.fresh =
    (Ok "/home/u/.telegram-mcp/media/chat100_msg5.jpg", Examples.one) ∧
  record_of Examples.one 100 5 =
    Some [ ("path", JStr "/home/u/.telegram-mcp/media/chat100_msg5.jpg");
           ("mime_type", JStr "image/jpeg");
           ("timestamp", JStr Examples.t1);
           ("size", JInt 3);
           ("extension", JStr ".jpg") ].
Proof.
  split; [reflexivity|]. split; [vm_compute; reflexivity|].
  destruct (C7_save_resolution Examples.guess_type 100 5 "/tmp/photo.jpg" None
              Examples.t1 Examples.fresh Examples.photo
              "/home/u/.telegram-mcp/media/chat100_msg5.jpg" Examples.one)
    as (mime & ext & Hp & Hrec & _ & _ & _ & _ & _ & Hscenario);
    [reflexivity|vm_compute; reflexivity|].
  destruct Hscenario as (_ & -> & -> & _); [reflexivity..|].
  exact Hrec.
Defined.

Lemma C1_round_trip_witness :
  ∃ p s' r d,
    MediaStorage.save_media Examples.guess_type 100 5 "/tmp/photo.jpg"
      (Some "image/jpeg") Examples.t1 Examples.fresh = (Ok p, s') ∧
    MediaStorage.get_media 100 5 s' = (Ok (Some r), s') ∧
    heap s' !! r = Some d ∧
    PyDict.get "mime_type" d = Some (JStr "image/jpeg") ∧
    PyDict.get "path" d = Some (JStr p) ∧
    files s' !! p = Some Examples.photo.
Proof.
  apply (C1_round_trip Examples.guess_type 100 5 "/tmp/photo.jpg"
           Examples.photo "image/jpeg" Examples.t1 Examples.fresh).
  - reflexivity.
  - by_evaluation.
  - by_evaluation.
  - by_evaluation.
Defined.

(** C1 fails as stated: the source is an existing file, but it is the very
    file that the key [(100, 5)] is stored in; [shutil.copy2] refuses to
    copy a file onto itself, the save raises, and [get] finds no record. *)
Lemma C1_counterexample :
  let src := MediaStorage._get_file_path Examples.base 100 5 ".jpg" in
  files Examples.own_file !! src = Some Examples.photo ∧
  ∃ msg,
    MediaStorage.save_media Examples.guess_type 100 5 src (Some "image/jpeg")
      Examples.t1 Examples.own_file =
      (Raise (SameFileError msg), Examples.own_file) ∧
    MediaStorage.get_media 100 5 Examples.own_file =
      (Ok None, Examples.own_file).
Proof.
  split; [reflexivity|]. eexists. split; vm_compute; reflexivity.
Qed.

Section removal_properties.
Import MediaStorage.

(** C4. Deleting a key that the index does not hold returns [False] and
    changes nothing.  Deleting a key that it holds removes that entry and
    no other, writes the index file and returns [True], whether the file
    is removed, cannot be removed or is missing already; a second delete of
    the key then returns [False]. *)
Theorem C4_delete_semantics c m s :
  wf s → index_writable s →
  (PyDict.get (_get_key c m) (index s) = None →
   delete_media c m s = (Ok false, s)) ∧
  (∀ r, PyDict.get (_get_key c m) (index s) = Some r →
     ∃ s',
       delete_media c m s = (Ok true, s') ∧
       PyDict.get (_get_key c m) (index s') = None ∧
       (∀ k, k ≠ _get_key c m →
             PyDict.get k (index s') = PyDict.get k (index s)) ∧
       files s' !! index_file s = Some (index_bytes s') ∧
       (removable s (entry_path s r) = true →
        files s' !! entry_path s r = None) ∧
       (stuck s r = true →
        files s' !! entry_path s r = files s !! entry_path s r) ∧
       (live s r = false → files s' !! entry_path s r = None) ∧
       delete_media c m s' = (Ok false, s')).
Proof.
  intros Hwf Hw. split; [apply Removal.delete_media_absent|].
  intros r Hget.
  pose proof (DictFacts.get_Some_elem _ _ _ Hget) as Hin.
  destruct (wf_entries s Hwf _ _ Hin) as (d & Hd & Hinfo).
  destruct (Inv.wf_info_path _ _ _ Hinfo) as (c' & m' & ext & _ & _ & Hp).
  pose proof (Removal.entry_path_eq _ _ _ _ Hd Hp) as Hpath.
  assert (entry_path s r ≠ index_file s) as Hne.
  { rewrite Hpath. apply KeyFacts.file_path_not_index. }
  destruct (Removal.unlinked_frame (entry_path s r) s) as (Hh & Hi & Hb & Hl).
  assert (index (deleted s (_get_key c m) r) =
          PyDict.del (_get_key c m) (index s)) as Hidx.
  { unfold deleted. simpl. by rewrite Hi. }
  assert (PyDict.get (_get_key c m) (index (deleted s (_get_key c m) r)) = None)
    as Hgone.
  { rewrite Hidx. apply DictFacts.get_del_eq, Hwf. }
  exists (deleted s (_get_key c m) r). split_and!.
  - by apply Removal.delete_media_present.
  - done.
  - intros k Hk. rewrite Hidx. by apply DictFacts.get_del_ne.
  - unfold deleted, persisted, index_file. simpl. rewrite Hb.
    rewrite lookup_insert_eq. f_equal.
  - intros Hrm. unfold deleted, persisted, index_file. simpl. rewrite Hb.
    rewrite lookup_insert_ne by done.
    unfold removable in Hrm. apply andb_prop in Hrm as [Hex Hnl].
    apply bool_decide_eq_true in Hex as [content Hex].
    apply negb_true_iff, bool_decide_eq_false in Hnl.
    unfold unlinked. rewrite Hex. rewrite decide_False by done.
    simpl. apply lookup_delete_eq.
  - intros Hst. unfold deleted, persisted, index_file. simpl. rewrite Hb.
    rewrite lookup_insert_ne by done.
    rewrite (ListMedia.stuck_path _ _ _ _ Hd Hp) in Hst. rewrite <- Hpath in Hst.
    apply andb_prop in Hst as [Hex Hlk].
    apply bool_decide_eq_true in Hex as [content Hex].
    apply bool_decide_eq_true in Hlk.
    unfold unlinked. rewrite Hex. by rewrite decide_True.
  - intros Hlv. unfold deleted, persisted, index_file. simpl. rewrite Hb.
    rewrite lookup_insert_ne by done.
    rewrite (ListMedia.live_path _ _ _ _ Hd Hp) in Hlv. rewrite <- Hpath in Hlv.
    apply bool_decide_eq_false in Hlv.
    unfold unlinked. destruct (files s !! entry_path s r) eqn:Hf; [|done].
    exfalso. apply Hlv. eauto.
  - by apply Removal.delete_media_absent.
Qed.

(** C5, as amended. [clear_all] returns the number of files that it
    removed: the [N] entries of the index less the [M] whose file was
    missing and less the [F] whose file the OS refused to remove, hence
    [N - M] when no removal fails.  Afterwards the index is empty and the
    index file holds the empty object, whatever the removals did; on an
    empty store the result is 0.  The files that are counted are gone: the
    file of an entry is not there afterwards when it was there and the OS
    let it go, and it is as before otherwise; the result is the number of
    entries whose file was there before the call and is not there after
    it; and no file other than these and the index file has changed. *)
Theorem C5_clear_all_count s :
  wf s → index_writable s →
  let N := Z.of_nat (length (index s)) in
  let M := Z.of_nat (length (filter (λ kr, ¬ live s kr.2) (index s))) in
  let F := Z.of_nat (length (filter (λ kr, stuck s kr.2) (index s))) in
  ∃ s',
    clear_all_media s = (Ok (N - M - F)%Z, s') ∧
    index s' = [] ∧
    files s' !! index_file s = Some (String.list_byte_of_string "{}") ∧
    (F = 0%Z → clear_all_media s = (Ok (N - M)%Z, s')) ∧
    (index s = [] → clear_all_media s = (Ok 0%Z, s')) ∧
    (∀ k r, (k, r) ∈ index s →
       files s' !! entry_path s r =
         if live s r && negb (stuck s r) then None
         else files s !! entry_path s r) ∧
    (N - M - F)%Z =
      Z.of_nat (length (filter (λ kr, World.removed s s' (entry_path s kr.2))
                          (index s))) ∧
    (∀ p, p ∉ entry_path s <$> (index s).*2 → p ≠ index_file s →
       files s' !! p = files s !! p).
Proof.
  intros Hwf Hw N M F.
  pose proof (Removal.clear_all_media_ok s Hwf Hw) as Hrun.
  pose proof (ClearFacts.removed_count_files s Hwf) as Hfiles.
  rewrite (Counting.removed_count_wf s Hwf) in Hrun, Hfiles.
  fold N M F in Hrun, Hfiles.
  exists (cleared s). split_and!.
  - done.
  - done.
  - unfold cleared, persisted, index_file. simpl.
    destruct (Removal.unlinked_all_frame (entry_path s <$> (index s).*2) s)
      as (_ & _ & -> & _).
    by rewrite lookup_insert_eq.
  - intros HF. rewrite Hrun. do 2 f_equal. lia.
  - intros Hnil. rewrite Hrun. unfold N, M, F. rewrite Hnil. done.
  - intros k r Hin. exact (ClearFacts.files_cleared_entry s k r Hwf Hin).
  - exact Hfiles.
  - intros p Hp Hne. by apply ClearFacts.files_cleared_other.
Qed.
End removal_properties.

Lemma C4_witness :
  wf Examples.two ∧ index_writable Examples.two ∧
  ∃ s',
    MediaStorage.delete_media 100 5 Examples.two = (Ok true, s') ∧
    PyDict.get (MediaStorage._get_key 100 5) (index s') = None ∧
    MediaStorage.delete_media 100 5 s' = (Ok false, s') ∧
    MediaStorage.delete_media 7 7 Examples.two = (Ok false, Examples.two).
Proof.
  assert (wf Examples.two) as Hwf by (apply Check.wf_b_sound; vm_compute; reflexivity).
  assert (index_writable Examples.two) as Hw by by_evaluation.
  split; [exact Hwf|]. split; [exact Hw|].
  destruct (C4_delete_semantics 100 5 Examples.two Hwf Hw) as [_ Hpresent].
  destruct (Hpresent 0) as (s' & Hrun & Hgone & _ & _ & _ & _ & _ & Hagain);
    [reflexivity|].
  exists s'. split_and!; [done..|].
  apply (C4_delete_semantics 7 7 Examples.two Hwf Hw). reflexivity.
Defined.

Lemma C5_witness :
  wf Examples.two_stale ∧ index_writable Examples.two_stale ∧
  ∃ s',
    MediaStorage.clear_all_media Examples.two_stale = (Ok 1%Z, s') ∧
    index s' = [] ∧
    files Examples.two_stale
      !! "/home/u/.telegram-mcp/media/chat100_msg6.bin" = Some Examples.note ∧
    files s' !! "/home/u/.telegram-mcp/media/chat100_msg6.bin" = None.
Proof.
  assert (wf Examples.two_stale) as Hwf
    by (apply Check.wf_b_sound; vm_compute; reflexivity).
  assert (index_writable Examples.two_stale) as Hw by by_evaluation.
  split; [exact Hwf|]. split; [exact Hw|].
  destruct (C5_clear_all_count Examples.two_stale Hwf Hw)
    as (s' & Hrun & Hidx & _ & _ & _ & Hgone & _).
  exists s'. split; [|split; [exact Hidx|]].
  - rewrite Hrun. reflexivity.
  - split; [vm_compute; reflexivity|].
    assert (("100|6", 1) ∈ index Examples.two_stale) as Hin
      by (apply list_elem_of_further, list_elem_of_here).
    exact (Hgone "100|6" 1 Hin).
Defined.

(** C5 fails as stated: the store has one entry ([N = 1]), its file is
    there ([M = 0]), but the OS refuses to remove it; [clear_all] returns
    0, not [N - M = 1].  The index is emptied all the same. *)
Lemma C5_counterexample :
  length (index Examples.one_stuck) = 1 ∧
  length (filter (λ kr, ¬ live Examples.one_stuck kr.2)
            (index Examples.one_stuck)) = 0 ∧
  ∃ s',
    MediaStorage.clear_all_media Examples.one_stuck = (Ok 0%Z, s') ∧
    index s' = [].
Proof.
  split; [reflexivity|]. split; [vm_compute; reflexivity|].
  eexists. split; [vm_compute; reflexivity|reflexivity].
Qed.

Section listing_properties.
Import MediaStorage.

(** C3, as amended. Stale pruning: while the file of a record is gone and
    no list pass has run, [get] still returns the metadata and
    [resolve_path] reports absence.  The next [list] leaves the record
    out, removes every stale entry from the index in memory and writes the
    index file exactly once for the whole pass.  After that pass [get] and
    [resolve_path] both report absence for the key, and a further [list]
    returns the same records and changes nothing. *)
Theorem C3_stale_pruning c m r s :
  wf s → index_writable s →
  PyDict.get (_get_key c m) (index s) = Some r →
  live s r = false →
  get_media c m s = (Ok (Some r), s) ∧
  get_media_path c m s = (Ok None, s) ∧
  ∃ l s',
    list_media s = (Ok l, s') ∧
    (r ∉ l) ∧
    (∀ k r', (k, r') ∈ index s' ↔ (k, r') ∈ index s ∧ live s r') ∧
    journal s' = journal s ++ [Wrote (index_file s)] ∧
    writes_of (index_file s) (journal s') =
      S (writes_of (index_file s) (journal s)) ∧
    files s' !! index_file s = Some (index_bytes s') ∧
    get_media c m s' = (Ok None, s') ∧
    get_media_path c m s' = (Ok None, s') ∧
    list_media s' = (Ok l, s').
Proof.
  intros Hwf Hw Hget Hstale.
  pose proof (DictFacts.get_Some_elem _ _ _ Hget) as Hin.
  split; [by rewrite Reads.get_media_run, Hget|].
  split; [by rewrite (Reads.get_media_path_present _ _ _ _ Hwf Hget), Hstale|].
  destruct (ListSpec.list_media_spec s Hwf Hw)
    as (s' & Hrun & Hwf' & Hi & Hb & Hl & Hlen & Hout & Hann & _ & Hwrite).
  assert (stale_keys s ≠ []) as Hne.
  { unfold stale_keys. intros Hnil%fmap_nil_inv.
    apply (filter_nil_not_elem_of _ _ (_get_key c m, r) Hnil); [|done].
    simpl. rewrite Hstale. by intros []. }
  destruct (Hwrite Hne) as [Hfiles Hjournal].
  assert (∀ k r', (k, r') ∈ index s' ↔ (k, r') ∈ index s ∧ live s r') as Hiff.
  { intros k r'. rewrite Hi. unfold live_entries.
    rewrite list_elem_of_filter. simpl. tauto. }
  assert (PyDict.get (_get_key c m) (index s') = None) as Hgone.
  { apply DictFacts.get_None.
    intros ([k r'] & Hk & [Hin' Hlive]%Hiff)%list_elem_of_fmap.
    simpl in Hk. subst k.
    pose proof (DictFacts.elem_get _ _ _ (wf_keys s Hwf) Hin') as Hget'.
    rewrite Hget in Hget'. injection Hget' as <-.
    by rewrite Hstale in Hlive. }
  exists (index s').*2, s'. split_and!.
  - done.
  - intros ([k r'] & Hr & [_ Hlive]%Hiff)%list_elem_of_fmap.
    simpl in Hr. subst r'. by rewrite Hstale in Hlive.
  - done.
  - done.
  - rewrite Hjournal. unfold writes_of. rewrite filter_app, length_app.
    rewrite (filter_cons_True _ (Wrote (index_file s))) by done. simpl. lia.
  - rewrite Hfiles. apply lookup_insert_eq.
  - by rewrite Reads.get_media_run, Hgone.
  - by apply Reads.get_media_path_absent.
  - by apply (ListAgain.list_media_idem s).
Qed.

(** C6. Statistics: [stats] runs the very pass of [list], so it leaves the
    state that [list] leaves; its [total_files] is the number of records
    that [list] returns, before or after it; [total_size_bytes] is the sum
    of their sizes; [total_size_mb] is that sum over [1024 * 1024] rounded
    to a multiple of one hundredth, at most half a hundredth away; and
    [storage_path] is the base directory. *)
Theorem C6_stats_consistency s :
  wf s → index_writable s →
  ∃ l s' st,
    list_media s = (Ok l, s') ∧
    get_storage_stats s = (Ok st, s') ∧
    list_media s' = (Ok l, s') ∧
    total_files st = Z.of_nat (length l) ∧
    total_size_bytes st = sizes s' l ∧
    total_size_mb st =
      round2 (inject_Z (total_size_bytes st) / inject_Z (1024 * 1024)) ∧
    (∃ n, total_size_mb st = n # 100) ∧
    (Qabs (total_size_mb st -
           inject_Z (total_size_bytes st) / inject_Z (1024 * 1024))
       <= 1 # 200)%Q ∧
    storage_path st = base_dir s.
Proof.
  intros Hwf Hw.
  destruct (ListSpec.list_media_spec s Hwf Hw) as (s' & Hrun & _).
  eexists _, s', _. split; [exact Hrun|].
  split; [by apply StatsRun.get_storage_stats_ok|].
  split; [by apply (ListAgain.list_media_idem s)|].
  simpl. split_and!; try done.
  - by eexists.
  - apply StatsRun.round2_bound.
Qed.

End listing_properties.

Lemma C3_witness :
  wf Examples.two_stale ∧ index_writable Examples.two_stale ∧
  PyDict.get (MediaStorage._get_key 100 5) (index Examples.two_stale) = Some 0 ∧
  live Examples.two_stale 0 = false ∧
  ∃ l s',
    MediaStorage.list_media Examples.two_stale = (Ok l, s') ∧
    l = [1] ∧
    MediaStorage.get_media 100 5 s' = (Ok None, s') ∧
    MediaStorage.get_media_path 100 5 s' = (Ok None, s').
Proof.
  assert (wf Examples.two_stale) as Hwf
    by (apply Check.wf_b_sound; vm_compute; reflexivity).
  assert (index_writable Examples.two_stale) as Hw by by_evaluation.
  split; [exact Hwf|]. split; [exact Hw|].
  split; [reflexivity|]. split; [reflexivity|].
  destruct (C3_stale_pruning 100 5 0 Examples.two_stale Hwf Hw)
    as (_ & _ & l & s' & Hrun & _ & _ & _ & _ & _ & Hget & Hpath & _);
    [reflexivity..|].
  exists l, s'. split_and!; [done| |done..].
  assert (MediaStorage.list_media Examples.two_stale =
          (Ok [1], (MediaStorage.list_media Examples.two_stale).2)) as Hrun'
    by (vm_compute; reflexivity).
  rewrite Hrun in Hrun'. by injection Hrun'.
Defined.

(** C3 fails as stated: once [list] has run, the stale entry is gone from
    the index in memory, and [get] for the key returns [None] instead of
    the metadata. *)
Lemma C3_counterexample :
  MediaStorage.get_media 100 5 Examples.one_stale =
    (Ok (Some 0), Examples.one_stale) ∧
  live Examples.one_stale 0 = false ∧
  ∃ s',
    MediaStorage.list_media Examples.one_stale = (Ok [], s') ∧
    MediaStorage.get_media 100 5 s' = (Ok None, s').
Proof.
  split; [reflexivity|]. split; [reflexivity|].
  eexists. split; vm_compute; reflexivity.
Qed.

Lemma C6_witness :
  wf Examples.two ∧ index_writable Examples.two ∧
  ∃ s' st,
    MediaStorage.get_storage_stats Examples.two = (Ok st, s') ∧
    total_files st = 2%Z ∧ total_size_bytes st = 5%Z ∧
    storage_path st = Examples.base.
Proof.
  assert (wf Examples.two) as Hwf
    by (apply Check.wf_b_sound; vm_compute; reflexivity).
  assert (index_writable Examples.two) as Hw by by_evaluation.
  split; [exact Hwf|]. split; [exact Hw|].
  destruct (C6_stats_consistency Examples.two Hwf Hw)
    as (l & s' & st & Hlist & Hstats & _ & Hn & Hb & _ & _ & _ & Hp).
  exists s', st. split; [exact Hstats|].
  assert (MediaStorage.list_media Examples.two =
          (Ok [0; 1], (MediaStorage.list_media Examples.two).2)) as Hrun
    by (vm_compute; reflexivity).
  assert (s' = (MediaStorage.list_media Examples.two).2) as Hs'
    by (by rewrite Hlist).
  rewrite Hlist in Hrun. injection Hrun as ->.
  split_and!; [exact Hn| |exact Hp].
  rewrite Hb, Hs'. vm_compute. reflexivity.
Defined.


(** An instance of C10 with a later save: the index file that
    [save_media] writes after a [list] has the two members in the entry
    that was listed, and not in the new one. *)
Example list_then_save_persists_ids :
  let s1 := (MediaStorage.list_media Examples.one).2 in
  let s2 :=
    (MediaStorage.save_media Examples.guess_type 100 6 "/tmp/note"
       (Some "text/plain") Examples.t2 s1).2 in
  String.string_of_list_byte
    <$> files s2 !! MediaStorage.index_file s2 =
  Some (Json.dumps
    [ ("100|5",
       [ ("path", JStr "/home/u/.telegram-mcp/media/chat100_msg5.jpg");
         ("mime_type", JStr "image/jpeg");
         ("timestamp", JStr Examples.t1);
         ("size", JInt 3);
         ("extension", JStr ".jpg");
         ("chat_id", JInt 100);
         ("message_id", JInt 5) ]);
      ("100|6",
       [ ("path", JStr "/home/u/.telegram-mcp/media/chat100_msg6.bin");
         ("mime_type", JStr "text/plain");
         ("timestamp", JStr Examples.t2);
         ("size", JInt 2);
         ("extension", JStr ".bin") ]) ]).
Proof. vm_compute. reflexivity. Qed.

Section overwrite_properties.
Import MediaStorage.
Variable guess_type : string → option string.

(** C2. In every state of a store the index holds at most one record for
    a key, and a key stands for one pair of identifiers.  After two
    completed saves under the same key the index has exactly one entry for
    it, with the path, MIME type, size, extension and timestamp of the
    second save; and when the two saves resolved different extensions, the
    file that the first save wrote is still there with its content, under
    a path that no entry refers to any more. *)
Theorem C2_key_uniqueness_and_overwrite s :
  reachable guess_type s →
  (∀ k, length (filter (λ kr, kr.1 = k) (index s)) ≤ 1) ∧
  (∀ c m c' m', _get_key c' m' = _get_key c m → c' = c ∧ m' = m) ∧
  ∀ c m src1 mt1 now1 content1 p1 s1 src2 mt2 now2 content2 p2 s2,
    files s !! src1 = Some content1 →
    save_media guess_type c m src1 mt1 now1 s = (Ok p1, s1) →
    files s1 !! src2 = Some content2 →
    save_media guess_type c m src2 mt2 now2 s1 = (Ok p2, s2) →
    let mime2 := resolved_mime_type guess_type src2 mt2 in
    let ext1 :=
      resolved_extension src1 (resolved_mime_type guess_type src1 mt1) in
    let ext2 := resolved_extension src2 mime2 in
    reachable guess_type s2 ∧
    length (filter (λ kr, kr.1 = _get_key c m) (index s2)) = 1 ∧
    p2 = _get_file_path (base_dir s) c m ext2 ∧
    (∀ k, k ≠ _get_key c m →
          PyDict.get k (index s2) = PyDict.get k (index s)) ∧
    record_of s2 c m =
      Some [ ("path", JStr p2); ("mime_type", JStr mime2);
             ("timestamp", JStr now2);
             ("size", JInt (Z.of_nat (length content2)));
             ("extension", JStr ext2) ] ∧
    (ext1 ≠ ext2 →
     p1 ≠ p2 ∧ files s2 !! p1 = Some content1 ∧
     ∀ k r, (k, r) ∈ index s2 → entry_path s2 r ≠ p1).
Proof.
  intros Hreach. pose proof (Preserve.wf_reachable _ _ Hreach) as Hwf.
  split; [intros k; apply DictFacts.count_key_le, Hwf|].
  split; [intros c m c' m'; apply KeyFacts.get_key_inj|].
  intros c m src1 mt1 now1 content1 p1 s1 src2 mt2 now2 content2 p2 s2
    Hsrc1 Hrun1 Hsrc2 Hrun2 mime2 ext1 ext2.
  assert (reachable guess_type s2) as Hreach2.
  { destruct Hreach as (s0 & Hnil & Hsteps). exists s0. split; [done|].
    eapply rtc_r; [|by eapply step_save].
    eapply rtc_r; [exact Hsteps|by eapply step_save]. }
  pose proof (Preserve.wf_reachable _ _ Hreach2) as Hwf2.
  destruct (Run.save_media_inv _ _ _ _ _ _ _ _ _ _ Hsrc1 Hrun1)
    as (-> & -> & _ & _ & _).
  destruct (Run.save_media_inv _ _ _ _ _ _ _ _ _ _ Hsrc2 Hrun2)
    as (-> & -> & _ & _ & _).
  fold ext1. fold mime2 ext2.
  set (s1 := saved s c m src1 content1 _ now1 ext1) in *.
  assert (base_dir s1 = base_dir s) as Hb by done.
  assert (dot_ext ext1 ∧ dot_ext ext2) as [Hd1 Hd2]
    by (split; apply KeyFacts.resolved_extension_dot).
  assert (record_of (saved s1 c m src2 content2 mime2 now2 ext2) c m =
          Some (fresh_info (_get_file_path (base_dir s1) c m ext2) mime2 now2
                  (Z.of_nat (length content2)) ext2)) as Hrec.
  { unfold record_of. simpl. rewrite DictFacts.get_set_eq. simpl.
    by apply list_lookup_middle. }
  split_and!.
  - done.
  - apply DictFacts.count_key; [apply Hwf2|].
    simpl. rewrite DictFacts.keys_set.
    destruct (PyDict.mem _ _) eqn:Hmem.
    + by apply DictFacts.mem_true.
    + apply elem_of_app. right. apply list_elem_of_here.
  - by rewrite Hb.
  - intros k Hk. simpl. by rewrite !DictFacts.get_set_ne.
  - by rewrite Hrec, Hb.
  - intros Hext.
    assert (_get_file_path (base_dir s) c m ext1 ≠
            _get_file_path (base_dir s1) c m ext2) as Hne.
    { rewrite Hb. intros (_ & _ & ?)%KeyFacts.file_path_inj; done. }
    split; [done|]. split.
    + simpl. unfold index_file.
      rewrite lookup_insert_ne by (apply not_eq_sym, KeyFacts.file_path_not_index).
      rewrite lookup_insert_ne by (by apply not_eq_sym).
      simpl. rewrite lookup_insert_ne
        by (apply not_eq_sym, KeyFacts.file_path_not_index).
      apply lookup_insert_eq.
    + intros k r Hin Hpath. subst s1 mime2 ext1 ext2.
      destruct (wf_entries _ Hwf2 _ _ Hin) as (d & Hd & Hinfo).
      destruct (Inv.wf_info_path _ _ _ Hinfo) as (c' & m' & e' & -> & He' & Hp).
      rewrite (Removal.entry_path_eq _ _ _ _ Hd Hp) in Hpath.
      simpl in Hpath.
      apply KeyFacts.file_path_inj in Hpath as (-> & -> & ->); [|done..].
      pose proof (DictFacts.elem_get _ _ _ (wf_keys _ Hwf2) Hin) as Hget.
      unfold record_of in Hrec. rewrite Hget in Hrec.
      cbn [mbind option_bind] in Hrec. rewrite Hd in Hrec.
      injection Hrec as ->. apply Hne. simpl in Hp. by injection Hp.
Qed.
End overwrite_properties.

Lemma C2_witness :
  reachable Examples.guess_type Examples.fresh ∧
  length (filter (λ kr, kr.1 = MediaStorage._get_key 100 5)
            (index Examples.resaved)) = 1 ∧
  record_of Examples.resaved 100 5 =
    Some [ ("path", JStr "/home/u/.telegram-mcp/media/chat100_msg5.bin");
           ("mime_type", JStr "text/plain");
           ("timestamp", JStr Examples.t2);
           ("size", JInt 2);
           ("extension", JStr ".bin") ] ∧
  files Examples.resaved !! "/home/u/.telegram-mcp/media/chat100_msg5.jpg" =
    Some Examples.photo.
Proof.
  assert (reachable Examples.guess_type Examples.fresh) as Hreach
    by (exists Examples.fresh; split; [reflexivity|apply rtc_refl]).
  split; [exact Hreach|].
  destruct (C2_key_uniqueness_and_overwrite Examples.guess_type Examples.fresh
              Hreach) as (_ & _ & Hsaves).
  destruct (Hsaves 100%Z 5%Z
              "/tmp/photo.jpg" None Examples.t1 Examples.photo
              "/home/u/.telegram-mcp/media/chat100_msg5.jpg" Examples.one
              "/tmp/note" (Some "text/plain") Examples.t2 Examples.note
              "/home/u/.telegram-mcp/media/chat100_msg5.bin" Examples.resaved)
    as (_ & Hone & _ & _ & Hrec & Horphan);
    [reflexivity|vm_compute; reflexivity|reflexivity|vm_compute; reflexivity|].
  split; [exact Hone|]. split; [exact Hrec|].
  destruct Horphan as (_ & Hfile & _); [by_evaluation|exact Hfile].
Defined.

Section resource_properties.
Import MediaStorage.

(** C9, as amended. Resolving [tgfile://{chat_id}/{message_id}]: for a key
    that the store does not know the handler fails with the condition
    "Media not found: {chat_id}/{message_id}. Download it first."; for a
    known key whose file is missing it fails with "Media file not found at
    {path}", which names the path of the file and has no download hint;
    in both cases nothing is downloaded or changed.  For a known key whose
    file exists it returns the whole content of the file in base64 with
    the MIME type of the record and the address it was asked for. *)
Theorem C9_resource_resolution cs ms c m s :
  wf s →
  Py.int_of_str cs = Some c → Py.int_of_str ms = Some m →
  (PyDict.get (_get_key c m) (index s) = None →
   get_telegram_media cs ms s =
     (Raise (ValueError
               ("Failed to serve media resource: Media not found: " +:+
                cs +:+ "/" +:+ ms +:+ ". Download it first.")), s)) ∧
  (∀ r, PyDict.get (_get_key c m) (index s) = Some r →
        files s !! entry_path s r = None →
        get_telegram_media cs ms s =
          (Raise (ValueError
                    ("Failed to serve media resource: " +:+
                     "Media file not found at " +:+ entry_path s r)), s)) ∧
  (∀ r content,
     PyDict.get (_get_key c m) (index s) = Some r →
     files s !! entry_path s r = Some content →
     ∃ d mime,
       heap s !! r = Some d ∧
       PyDict.get "mime_type" d = Some (JStr mime) ∧
       get_telegram_media cs ms s =
         (Ok [Blob ("tgfile://" +:+ cs +:+ "/" +:+ ms)
                (Base64.b64encode content) mime], s) ∧
       Base64Read.b64decode (Base64.b64encode content) = Some content).
Proof.
  intros Hwf Hc Hm. split_and!.
  - intros Hget. by rewrite (Resource.resource_unknown _ _ _ _ _ Hc Hm Hget).
  - intros r Hget Hfile.
    rewrite (Resource.resource_known _ _ _ _ _ _ Hwf Hc Hm Hget).
    by rewrite Hfile.
  - intros r content Hget Hfile.
    pose proof (DictFacts.get_Some_elem _ _ _ Hget) as Hin.
    destruct (wf_entries s Hwf _ _ Hin) as (d & Hd & Hinfo).
    destruct (Inv.wf_info_mime _ _ _ Hinfo) as (t & Ht).
    exists d, t. split_and!; [done..| |apply Base64Facts.b64decode_encode].
    rewrite (Resource.resource_known _ _ _ _ _ _ Hwf Hc Hm Hget).
    rewrite Hfile. unfold deref. rewrite Hd. simpl. by rewrite Ht.
Qed.
End resource_properties.

Lemma C9_witness :
  wf Examples.one ∧
  get_telegram_media "100" "5" Examples.fresh =
    (Raise (ValueError
              "Failed to serve media resource: Media not found: 100/5. Download it first."),
     Examples.fresh) ∧
  get_telegram_media "100" "5" Examples.one =
    (Ok [Blob "tgfile://100/5" "/9j/" "image/jpeg"], Examples.one).
Proof.
  assert (wf Examples.one) as Hwf
    by (apply Check.wf_b_sound; vm_compute; reflexivity).
  split; [exact Hwf|]. split.
  - apply (C9_resource_resolution "100" "5" 100 5 Examples.fresh);
      [apply Inv.wf_empty|reflexivity..].
  - destruct (C9_resource_resolution "100" "5" 100 5 Examples.one Hwf)
      as (_ & _ & Hok); [reflexivity..|].
    destruct (Hok 0 Examples.photo) as (d & mime & Hd & Hmime & Hrun & _);
      [reflexivity|vm_compute; reflexivity|].
    rewrite Hrun. injection Hd as <-. vm_compute in Hmime.
    by injection Hmime as <-.
Defined.

(** C9 fails as stated: the key [(100, 5)] is known and its file is
    missing; the condition raised names the path of the file, it has
    neither the words "Download it first" nor the address. *)
Lemma C9_counterexample :
  PyDict.get (MediaStorage._get_key 100 5) (index Examples.one_stale) = Some 0 ∧
  files Examples.one_stale !! entry_path Examples.one_stale 0 = None ∧
  ∃ msg,
    get_telegram_media "100" "5" Examples.one_stale =
      (Raise (ValueError msg), Examples.one_stale) ∧
    msg = "Failed to serve media resource: Media file not found at /home/u/.telegram-mcp/media/chat100_msg5.jpg" ∧
    Py.contains "Download it first" msg = false ∧
    Py.contains "tgfile://100/5" msg = false ∧
    Py.contains "100/5" msg = false.
Proof.
  split; [reflexivity|]. split; [vm_compute; reflexivity|].
  eexists. split; [vm_compute; reflexivity|].
  split; [reflexivity|]. split_and!; vm_compute; reflexivity.
Qed.

(* ================================================================== *)
(** * The journal of a store *)
(* ================================================================== *)

Module JournalFacts.
Import MediaStorage.

Lemma journal_ok_nil base : journal_ok base [].
Proof. intros before ev after H. by destruct before. Qed.

Lemma journal_ok_snoc base j ev :
  journal_ok base j → event_ok base j ev → journal_ok base (j ++ [ev]).
Proof.
  intros Hj Hev before ev' after Heq.
  destruct after as [|x after _] using rev_ind.
  - apply app_inj_tail in Heq as [-> ->]. done.
  - change (before ++ ev' :: after ++ [x])
      with (before ++ (ev' :: after) ++ [x]) in Heq.
    rewrite (assoc (++)) in Heq.
    apply app_inj_tail in Heq as [-> ->]. by eapply Hj.
Qed.

Lemma entries_copied_mono s s' :
  (∀ k r, (k, r) ∈ index s' →
          (k, r) ∈ index s ∧ entry_path s' r = entry_path s r) →
  (∀ ev, ev ∈ journal s → ev ∈ journal s') →
  entries_copied s → entries_copied s'.
Proof.
  intros Hsub Hj He k r Hin. destruct (Hsub k r Hin) as [Hin' ->].
  destruct (He k r Hin') as (src & Hsrc). eauto.
Qed.

Lemma kept_persisted s : kept s → kept (persisted s).
Proof.
  intros [Hj He]. split.
  - apply journal_ok_snoc; [done|]. done.
  - apply (entries_copied_mono s); [done| |done].
    intros ev Hev. simpl. apply elem_of_app. by left.
Qed.

Lemma save_index_cases s r s' :
  _save_index s = (r, s') → s' = s ∨ s' = persisted s.
Proof.
  unfold _save_index, OS.write_text. munfold.
  destruct (decide (index_file s ∈ locked s)); intros [= <- <-]; auto.
Qed.

Lemma kept_then_save {A} (v : A) s r s' :
  kept s → (_save_index ≫= (λ _, mret v)) s = (r, s') → kept s'.
Proof.
  intros Hk. munfold. destruct (_save_index s) as [[[]|e] s1] eqn:Hs;
    intros [= <- <-];
    destruct (save_index_cases _ _ _ Hs) as [->| ->];
    auto using kept_persisted.
Qed.

Lemma entry_path_ext s s' r :
  heap s' !! r = heap s !! r → entry_path s' r = entry_path s r.
Proof. unfold entry_path, deref. by intros ->. Qed.

Lemma kept_stored s c m src content mime now ext :
  wf s → kept s → kept (stored s c m src content mime now ext).
Proof.
  intros Hwf [Hj He]. split.
  - apply journal_ok_snoc; [done|]. simpl. eauto.
  - intros k r Hin. simpl in Hin.
    apply DictFacts.elem_of_set_inv in Hin as [[-> ->]|[Hne Hin]];
      [| |apply Hwf].
    + exists src. simpl. apply elem_of_app. right.
      unfold entry_path, deref. simpl.
      rewrite list_lookup_middle by done. simpl. apply list_elem_of_here.
    + destruct (He k r Hin) as (src' & Hsrc').
      exists src'. rewrite (entry_path_ext s).
      * simpl. apply elem_of_app. by left.
      * simpl. apply lookup_app_l. by eapply Inv.wf_ref_lt.
Qed.

Lemma kept_save_media guess_type c m src mt now s r s' :
  wf s → kept s → save_media guess_type c m src mt now s = (r, s') → kept s'.
Proof.
  intros Hwf Hk. destruct (files s !! src) as [content|] eqn:Hsrc.
  - rewrite (Run.save_media_run _ _ _ _ _ _ _ _ Hsrc).
    repeat case_decide; try (by intros [= <- <-]).
    by apply kept_then_save, kept_stored.
  - rewrite Run.save_media_missing by done. by intros [= <- <-].
Qed.

Lemma kept_pruned s h' :
  kept s →
  (∀ k r, (k, r) ∈ live_entries s →
     ∃ c m d, k = _get_key c m ∧ heap s !! r = Some d ∧
              wf_info (base_dir s) k d ∧
              h' !! r = Some (annotated c m d)) →
  kept (pruned s h').
Proof.
  intros [Hj He] Hann. split; [done|].
  apply (entries_copied_mono s); [|done|done].
  intros k r Hin. simpl in Hin. split.
  - by apply list_elem_of_filter in Hin as [_ ?].
  - destruct (Hann k r Hin) as (c & m & d & _ & Hd & _ & Hd').
    unfold entry_path, deref. simpl. rewrite Hd, Hd'. simpl.
    by rewrite ListSpec.path_of_annotated.
Qed.

Lemma kept_list_media s r s' : wf s → kept s → list_media s = (r, s') → kept s'.
Proof.
  intros Hwf Hk. destruct (ListMediaRun.list_media_run s Hwf)
    as (h' & -> & _ & _ & Hann).
  pose proof (kept_pruned s h' Hk Hann) as Hk'.
  destruct (stale_keys s).
  - by intros [= <- <-].
  - by apply kept_then_save.
Qed.

Lemma kept_unlinked p s :
  kept s → (∃ src, Copied src p ∈ journal s) → kept (unlinked p s).
Proof.
  intros [Hj He] Hp. unfold unlinked.
  destruct (files s !! p); [|done].
  destruct (decide (p ∈ locked s)); [done|]. split.
  - by apply journal_ok_snoc.
  - apply (entries_copied_mono s); [done| |done].
    intros ev Hev. simpl. apply elem_of_app. by left.
Qed.

Lemma journal_unlinked p s ev :
  ev ∈ journal s → ev ∈ journal (unlinked p s).
Proof.
  intros Hev. unfold unlinked. repeat case_match; try done.
  simpl. apply elem_of_app. by left.
Qed.

Lemma kept_with_index (f : list (string * nat) → list (string * nat)) s :
  kept s → (∀ kr, kr ∈ f (index s) → kr ∈ index s) → kept (with_index f s).
Proof.
  intros [Hj He] Hsub. split; [done|].
  apply (entries_copied_mono s); [|done|done].
  intros k r Hin. split; [by apply Hsub|done].
Qed.

Lemma kept_delete_media c m s r s' :
  wf s → kept s → delete_media c m s = (r, s') → kept s'.
Proof.
  intros Hwf Hk.
  destruct (PyDict.get (_get_key c m) (index s)) as [r0|] eqn:Hget.
  - rewrite (Removal.delete_media_run _ _ _ _ Hwf Hget).
    apply kept_then_save, kept_with_index.
    + apply kept_unlinked; [done|].
      apply (proj2 Hk (_get_key c m)). by apply DictFacts.get_Some_elem.
    + intros kr. rewrite DictFacts.del_filter.
      * by intros [_ ?]%list_elem_of_filter.
      * destruct (Removal.unlinked_frame (entry_path s r0) s) as (_ & -> & _).
        apply Hwf.
  - rewrite Removal.delete_media_absent by done. by intros [= <- <-].
Qed.

Lemma kept_unlinked_all paths : ∀ s,
  kept s → (∀ p, p ∈ paths → ∃ src, Copied src p ∈ journal s) →
  kept (unlinked_all paths s).
Proof.
  induction paths as [|p paths IH]; intros s Hk Hp; [done|].
  simpl. apply IH.
  - apply kept_unlinked; [done|]. apply Hp, list_elem_of_here.
  - intros p' Hin. destruct (Hp p') as (src & Hsrc);
      [by apply list_elem_of_further|].
    exists src. by apply journal_unlinked.
Qed.

Lemma kept_clear_all_media s r s' :
  wf s → kept s → clear_all_media s = (r, s') → kept s'.
Proof.
  intros Hwf Hk. rewrite (Removal.clear_all_media_run _ Hwf).
  apply kept_then_save, kept_with_index.
  - apply kept_unlinked_all; [done|].
    intros p (r0 & -> & ([k r1] & -> & Hin)%list_elem_of_fmap)%list_elem_of_fmap.
    by apply (proj2 Hk k).
  - by intros kr ?%elem_of_nil.
Qed.

Lemma kept_get_storage_stats s r s' :
  wf s → kept s → get_storage_stats s = (r, s') → kept s'.
Proof.
  intros Hwf Hk. unfold get_storage_stats. unfold mbind at 1. unfold M_bind at 1.
  destruct (list_media s) as [[l|e] s1] eqn:Hlist.
  - pose proof (kept_list_media _ _ _ Hwf Hk Hlist) as Hk1.
    unfold mbind at 1. unfold M_bind at 1.
    destruct (sum_sizes l 0 s1) as [[n|e] s2] eqn:Hsum;
      apply Preserve.sum_sizes_state in Hsum as ->; munfold; by intros [= <- <-].
  - intros [= <- <-]. by eapply kept_list_media.
Qed.

Lemma kept_step guess_type s s' :
  wf s → kept s → step guess_type s s' → kept s'.
Proof.
  intros Hwf Hk Hstep. destruct Hstep.
  - by eapply kept_save_media.
  - by eapply kept_list_media.
  - by eapply kept_delete_media.
  - by eapply kept_clear_all_media.
  - by eapply kept_get_storage_stats.
  - done.
Qed.

Lemma kept_history guess_type s0 s :
  index s0 = [] → journal s0 = [] → rtc (step guess_type) s0 s →
  wf s ∧ kept s.
Proof.
  intros Hnil Hj Hsteps.
  assert (wf s0 ∧ kept s0) as H0.
  { split.
    - split; rewrite ?Hnil; [apply NoDup_nil_2..|]. by intros ? ? ?%elem_of_nil.
    - split.
      + rewrite Hj. apply journal_ok_nil.
      + intros k r. rewrite Hnil. by intros ?%elem_of_nil. }
  clear Hnil Hj. induction Hsteps as [|s1 s2 s3 Hstep _ IH]; [done|].
  destruct H0 as [Hwf Hk]. apply IH. split.
  - by eapply Preserve.wf_step.
  - by eapply kept_step.
Qed.

End JournalFacts.

(* ================================================================== *)
(** * Further properties of the cache *)
(* ================================================================== *)

Section invariant_properties.
Import MediaStorage.
Variable guess_type : string → option string.

(** X1. In every state of a store that started with an empty index, each
    entry of the index is keyed [{chat_id}|{message_id}] and refers to a
    dictionary whose [path] is the base directory joined with
    [chat{chat_id}_msg{message_id}{extension}], whose [extension] is that
    extension and starts with a dot, and whose [mime_type], [timestamp]
    and [size] are two strings and an integer: whatever was saved, listed,
    deleted or cleared before, and whatever happened to the files. *)
Theorem reachable_entries_canonical s k r :
  reachable guess_type s → (k, r) ∈ index s →
  ∃ c m ext mime ts size d,
    k = Py.str_of_int c +:+ "|" +:+ Py.str_of_int m ∧
    heap s !! r = Some d ∧
    PyDict.get "path" d =
      Some (JStr (PathLib.join (base_dir s)
                    ("chat" +:+ Py.str_of_int c +:+ "_msg" +:+
                     Py.str_of_int m +:+ ext))) ∧
    PyDict.get "extension" d = Some (JStr ext) ∧
    (∃ ext', ext = String "." ext') ∧
    PyDict.get "mime_type" d = Some (JStr mime) ∧
    PyDict.get "timestamp" d = Some (JStr ts) ∧
    PyDict.get "size" d = Some (JInt size) ∧
    get_media c m s = (Ok (Some r), s).
Proof.
  intros Hreach Hin. pose proof (Preserve.wf_reachable _ _ Hreach) as Hwf.
  destruct (wf_entries s Hwf k r Hin) as (d & Hd & Hinfo).
  assert (∀ c m, k = _get_key c m → get_media c m s = (Ok (Some r), s)) as Hget.
  { intros c m ->. rewrite Reads.get_media_run.
    by rewrite (DictFacts.elem_get _ _ _ (wf_keys s Hwf) Hin). }
  destruct Hinfo as [c m mime ts size ext Hk Hext|c m mime ts size ext Hk Hext];
    exists c, m, ext, mime, ts, size; eexists;
    (split; [exact Hk|]); (split; [exact Hd|]); split_and!; try done; auto.
Qed.

(** X2. In every state of a store that started with an empty index, two
    entries under different keys refer to different files, and no entry
    refers to the index file: removing or replacing the file of one
    message never touches the file of another, nor the index. *)
Theorem reachable_paths_disjoint s k1 r1 k2 r2 :
  reachable guess_type s →
  (k1, r1) ∈ index s → (k2, r2) ∈ index s → k1 ≠ k2 →
  entry_path s r1 ≠ entry_path s r2 ∧
  entry_path s r1 ≠ index_file s ∧
  r1 ≠ r2.
Proof.
  intros Hreach Hin1 Hin2 Hne.
  pose proof (Preserve.wf_reachable _ _ Hreach) as Hwf.
  destruct (wf_entries s Hwf _ _ Hin1) as (d1 & Hd1 & Hi1).
  destruct (wf_entries s Hwf _ _ Hin2) as (d2 & Hd2 & Hi2).
  destruct (Inv.wf_info_path _ _ _ Hi1) as (c1 & m1 & e1 & -> & He1 & Hp1).
  destruct (Inv.wf_info_path _ _ _ Hi2) as (c2 & m2 & e2 & -> & He2 & Hp2).
  rewrite (Removal.entry_path_eq _ _ _ _ Hd1 Hp1).
  rewrite (Removal.entry_path_eq _ _ _ _ Hd2 Hp2).
  split_and!.
  - intros (-> & -> & _)%KeyFacts.file_path_inj; done.
  - apply KeyFacts.file_path_not_index.
  - intros ->. rewrite Hd1 in Hd2. injection Hd2 as ->.
    rewrite Hp1 in Hp2. injection Hp2.
    intros (-> & -> & _)%KeyFacts.file_path_inj; done.
Qed.

(** X3. What a store does to the file system, from a start with an empty
    index and an empty journal and through any sequence of calls and of
    outside changes: the only file it writes is its index file; it copies
    files only to [chat{chat_id}_msg{message_id}{extension}] in its base
    directory; and it removes a file only after it copied a file to that
    very path. *)
Theorem store_journal_discipline s0 s before ev after :
  index s0 = [] → journal s0 = [] → rtc (step guess_type) s0 s →
  journal s = before ++ ev :: after →
  match ev with
  | Wrote p => p = index_file s
  | Copied src dst =>
      ∃ c m ext, dst = _get_file_path (base_dir s) c m ext
  | Removed p =>
      ∃ src c m ext,
        Copied src p ∈ before ∧ p = _get_file_path (base_dir s) c m ext
  end.
Proof.
  intros Hnil Hj Hsteps Heq.
  destruct (JournalFacts.kept_history _ _ _ Hnil Hj Hsteps) as [_ [Hok _]].
  pose proof (Hok _ _ _ Heq) as Hev.
  destruct ev as [p|src dst|p]; [done|done|].
  destruct Hev as (src & Hsrc). exists src.
  apply list_elem_of_split in Hsrc as (b1 & b2 & ->).
  rewrite <- (assoc (++)) in Heq. simpl in Heq.
  destruct (Hok _ _ _ Heq) as (c & m & ext & ->).
  exists c, m, ext. split; [|done].
  apply elem_of_app. right. apply list_elem_of_here.
Qed.

(** X4. The two ways in which [save_media] fails after it found its
    source.  When the destination cannot be written, the copy raises and
    nothing has changed: the index in memory, the index file, the files.
    When the copy is done and the index file cannot be written, the error
    of the write reaches the caller, but the save is not undone: the file
    is in the store, the index in memory has the new record, and the index
    file is as it was. *)
Theorem save_media_failure_modes c m src mt now s content :
  let mime := resolved_mime_type guess_type src mt in
  let ext := resolved_extension src mime in
  let dest := _get_file_path (base_dir s) c m ext in
  files s !! src = Some content →
  src ≠ dest →
  (dest ∈ locked s →
   save_media guess_type c m src mt now s =
     (Raise (PermissionError
               ("[Errno 13] Permission denied: '" +:+ dest +:+ "'")), s)) ∧
  (dest ∉ locked s → index_file s ∈ locked s →
   ∃ s',
     save_media guess_type c m src mt now s =
       (Raise (PermissionError
                 ("[Errno 13] Permission denied: '" +:+ index_file s +:+ "'")),
        s') ∧
     files s' !! dest = Some content ∧
     files s' !! index_file s = files s !! index_file s ∧
     get_media c m s' = (Ok (Some (length (heap s))), s') ∧
     record_of s' c m =
       Some [ ("path", JStr dest); ("mime_type", JStr mime);
              ("timestamp", JStr now);
              ("size", JInt (Z.of_nat (length content)));
              ("extension", JStr ext) ]).
Proof.
  intros mime ext dest Hsrc Hne. split.
  - intros Hl. rewrite (Run.save_media_run _ _ _ _ _ _ _ _ Hsrc).
    fold mime ext dest. rewrite decide_False by done.
    by rewrite decide_True.
  - intros Hl Hi. rewrite (Run.save_media_run _ _ _ _ _ _ _ _ Hsrc).
    fold mime ext dest. rewrite !decide_False by done.
    exists (stored s c m src content mime now ext). split_and!.
    + unfold _save_index, OS.write_text. munfold.
      rewrite decide_True by done. done.
    + simpl. fold dest. apply lookup_insert_eq.
    + simpl. fold dest. apply lookup_insert_ne.
      apply KeyFacts.file_path_not_index.
    + rewrite Reads.get_media_run. simpl. by rewrite DictFacts.get_set_eq.
    + unfold record_of. simpl. rewrite DictFacts.get_set_eq. simpl.
      by apply list_lookup_middle.
Qed.

(** X5. A completed save shows in the next listing: the record of the key
    is among those that [list_media] returns, with the path that the save
    returned, the size of the source, and the two identifiers as
    integers. *)
Theorem save_then_list c m src mt now s content p s1 :
  wf s →
  files s !! src = Some content →
  save_media guess_type c m src mt now s = (Ok p, s1) →
  ∃ l s2 r mime ext,
    list_media s1 = (Ok l, s2) ∧
    r ∈ l ∧
    get_media c m s2 = (Ok (Some r), s2) ∧
    heap s2 !! r =
      Some [ ("path", JStr p); ("mime_type", JStr mime);
             ("timestamp", JStr now);
             ("size", JInt (Z.of_nat (length content)));
             ("extension", JStr ext);
             ("chat_id", JInt c); ("message_id", JInt m) ] ∧
    files s2 !! p = Some content.
Proof.
  intros Hwf Hsrc Hrun.
  destruct (Run.save_media_inv _ _ _ _ _ _ _ _ _ _ Hsrc Hrun)
    as (-> & -> & Hne & Hl & Hw).
  set (mime := resolved_mime_type guess_type src mt) in *.
  set (ext := resolved_extension src mime) in *.
  set (dest := _get_file_path (base_dir s) c m ext) in *.
  set (s1 := saved s c m src content mime now ext).
  assert (wf s1) as Hwf1.
  { apply Inv.wf_saved; [done|]. apply KeyFacts.resolved_extension_dot. }
  assert (index_writable s1) as Hw1 by done.
  assert (files s1 !! dest = Some content) as Hfile.
  { simpl. rewrite lookup_insert_ne
      by (apply not_eq_sym, KeyFacts.file_path_not_index).
    apply lookup_insert_eq. }
  set (r := length (heap s)).
  assert ((_get_key c m, r) ∈ index s1) as Hin.
  { apply DictFacts.get_Some_elem. simpl. apply DictFacts.get_set_eq. }
  assert (heap s1 !! r =
          Some (fresh_info dest mime now (Z.of_nat (length content)) ext))
    as Hd by (simpl; by apply list_lookup_middle).
  assert (live s1 r = true) as Hlive.
  { rewrite (ListMedia.live_path _ _ _ dest Hd) by done.
    apply bool_decide_eq_true. rewrite Hfile. eauto. }
  destruct (ListSpec.list_media_spec s1 Hwf1 Hw1)
    as (s2 & Hlist & Hwf2 & Hi & Hb & _ & _ & _ & Hann & Hsame & Hwrite).
  assert ((_get_key c m, r) ∈ index s2) as Hin2.
  { rewrite Hi. apply list_elem_of_filter. split; [|done].
    simpl. by rewrite Hlive. }
  destruct (Hann _ _ Hin2) as (c' & m' & d & Hk & Hd1 & _ & Hd2 & _).
  apply KeyFacts.get_key_inj in Hk as [<- <-].
  rewrite Hd in Hd1. injection Hd1 as <-.
  exists (index s2).*2, s2, r, mime, ext. split_and!.
  - done.
  - apply list_elem_of_fmap. by exists (_get_key c m, r).
  - rewrite Reads.get_media_run.
    by rewrite (DictFacts.elem_get _ _ _ (wf_keys _ Hwf2) Hin2).
  - done.
  - destruct (decide (stale_keys s1 = [])) as [Hst|Hst].
    + destruct (Hsame Hst) as [-> _]. done.
    + destruct (Hwrite Hst) as [-> _].
      rewrite lookup_insert_ne; [done|].
      apply not_eq_sym, KeyFacts.file_path_not_index.
Qed.

End invariant_properties.

Module FrameFacts.
Import MediaStorage.

Lemma files_unlinked p0 s p :
  p ≠ p0 → files (unlinked p0 s) !! p = files s !! p.
Proof.
  intros Hne. unfold unlinked. repeat case_match; try done.
  simpl. by apply lookup_delete_ne.
Qed.

Lemma files_unlinked_all paths : ∀ s p,
  p ∉ paths → files (unlinked_all paths s) !! p = files s !! p.
Proof.
  induction paths as [|p0 paths IH]; intros s p Hp; [done|].
  apply not_elem_of_cons in Hp as [Hne Hp]. simpl.
  rewrite IH by done. by apply files_unlinked.
Qed.

Lemma files_then_save {A} (v : A) s r s' p :
  (_save_index ≫= (λ _, mret v)) s = (r, s') → p ≠ index_file s →
  files s' !! p = files s !! p.
Proof.
  intros Hrun Hne. revert Hrun. munfold.
  destruct (_save_index s) as [[[]|e] s1] eqn:Hs; intros [= <- <-];
    destruct (JournalFacts.save_index_cases _ _ _ Hs) as [->| ->]; try done;
    simpl; by apply lookup_insert_ne.
Qed.

Lemma list_media_empty s : index s = [] → list_media s = (Ok [], s).
Proof. intros Hnil. unfold list_media. munfold. by rewrite Hnil. Qed.

Lemma get_storage_stats_empty s :
  index s = [] →
  get_storage_stats s = (Ok (StorageStats 0 0 (0 # 100) (base_dir s)), s).
Proof.
  intros Hnil. unfold get_storage_stats.
  unfold mbind at 1. unfold M_bind at 1. by rewrite list_media_empty.
Qed.

End FrameFacts.

Section reading_properties.
Import MediaStorage.

(** X6. [get_media_path] answers with a path exactly when the index has
    a record for the key and the file of the record exists, and the path
    is that of the record; it answers [None] otherwise.  It changes
    nothing: a stale record stays in the index. *)
Theorem get_media_path_spec c m s :
  wf s →
  ∃ res,
    get_media_path c m s = (Ok res, s) ∧
    ∀ p, res = Some p ↔
         ∃ r d, PyDict.get (_get_key c m) (index s) = Some r ∧
                heap s !! r = Some d ∧
                PyDict.get "path" d = Some (JStr p) ∧
                is_Some (files s !! p).
Proof.
  intros Hwf.
  destruct (PyDict.get (_get_key c m) (index s)) as [r|] eqn:Hget.
  - pose proof (DictFacts.get_Some_elem _ _ _ Hget) as Hin.
    destruct (wf_entries s Hwf _ _ Hin) as (d & Hd & Hinfo).
    destruct (Inv.wf_info_path _ _ _ Hinfo) as (c' & m' & ext & _ & _ & Hp).
    rewrite (Reads.get_media_path_present _ _ _ _ Hwf Hget).
    rewrite (ListMedia.live_path _ _ _ _ Hd Hp).
    rewrite (Removal.entry_path_eq _ _ _ _ Hd Hp).
    eexists. split; [done|]. intros p. case_bool_decide as Hex.
    + split.
      * intros [= <-]. by exists r, d.
      * intros (r' & d' & [= <-] & Hd' & Hp' & _).
        rewrite Hd in Hd'. injection Hd' as <-. congruence.
    + split; [done|].
      intros (r' & d' & [= <-] & Hd' & Hp' & Hex').
      rewrite Hd in Hd'. injection Hd' as <-.
      rewrite Hp in Hp'. injection Hp' as <-. done.
  - rewrite Reads.get_media_path_absent by done.
    eexists. split; [done|]. intros p. split; [done|].
    by intros (r & d & ? & _).
Qed.

(** X7. After [clear_all_media] the store is empty for every reader: no
    key has a record or a path, [list_media] returns no record, and the
    statistics are zero files, zero bytes and zero megabytes; neither of
    the two writes or changes anything further. *)
Theorem clear_then_empty s :
  wf s → index_writable s →
  ∃ n s',
    clear_all_media s = (Ok n, s') ∧
    (∀ c m, get_media c m s' = (Ok None, s') ∧
            get_media_path c m s' = (Ok None, s')) ∧
    list_media s' = (Ok [], s') ∧
    get_storage_stats s' =
      (Ok (StorageStats 0 0 (0 # 100) (base_dir s)), s').
Proof.
  intros Hwf Hw. rewrite (Removal.clear_all_media_ok s Hwf Hw).
  eexists _, (cleared s). split; [done|].
  assert (index (cleared s) = []) as Hnil by done.
  assert (base_dir (cleared s) = base_dir s) as Hb.
  { unfold cleared. simpl.
    by destruct (Removal.unlinked_all_frame (entry_path s <$> (index s).*2) s)
      as (_ & _ & -> & _). }
  split_and!.
  - intros c m. split.
    + rewrite Reads.get_media_run. by rewrite Hnil.
    + apply Reads.get_media_path_absent. by rewrite Hnil.
  - by apply FrameFacts.list_media_empty.
  - rewrite <- Hb. by apply FrameFacts.get_storage_stats_empty.
Qed.

(** X8. The removals leave every other file alone, however they end.
    [delete_media] changes no file but the one of the record of the key
    and the index file; [clear_all_media] changes no file but those of the
    records of the index and the index file.  A file in the base directory
    that no record refers to, such as the one left behind by a save of the
    same key under another extension, survives both. *)
Theorem removals_touch_indexed_files_only s p :
  wf s → p ≠ index_file s →
  (∀ c m res s',
     delete_media c m s = (res, s') →
     (∀ r, PyDict.get (_get_key c m) (index s) = Some r → p ≠ entry_path s r) →
     files s' !! p = files s !! p) ∧
  (∀ res s',
     clear_all_media s = (res, s') →
     (∀ k r, (k, r) ∈ index s → p ≠ entry_path s r) →
     files s' !! p = files s !! p).
Proof.
  intros Hwf Hne. split.
  - intros c m res s' Hrun Hp.
    destruct (PyDict.get (_get_key c m) (index s)) as [r|] eqn:Hget.
    + rewrite (Removal.delete_media_run _ _ _ _ Hwf Hget) in Hrun.
      apply (FrameFacts.files_then_save _ _ _ _ p) in Hrun.
      * rewrite Hrun. simpl. apply FrameFacts.files_unlinked. by apply Hp.
      * unfold index_file. simpl.
        by destruct (Removal.unlinked_frame (entry_path s r) s)
          as (_ & _ & -> & _).
    + rewrite Removal.delete_media_absent in Hrun by done.
      by injection Hrun as <- <-.
  - intros res s' Hrun Hp.
    rewrite (Removal.clear_all_media_run _ Hwf) in Hrun.
    apply (FrameFacts.files_then_save _ _ _ _ p) in Hrun.
    + rewrite Hrun. simpl. apply FrameFacts.files_unlinked_all.
      intros (r & -> & ([k r'] & -> & Hin)%list_elem_of_fmap)%list_elem_of_fmap.
      by apply (Hp k r').
    + unfold index_file. simpl.
      by destruct (Removal.unlinked_all_frame (entry_path s <$> (index s).*2) s)
        as (_ & _ & -> & _).
Qed.

(** X9. The resource handler only reads.  Whatever the two texts of the
    address and whatever the state of the store, it leaves the store and
    the files as they are (a stale record is not pruned), and it ends in
    one of two ways: with exactly one blob whose [uri] is [tgfile://]
    followed by the two texts as they were given, or with a [ValueError]
    whose message starts with "Failed to serve media resource: ". *)
Theorem resource_handler_reads_only chat_id message_id s :
  ∃ res,
    get_telegram_media chat_id message_id s = (res, s) ∧
    match res with
    | Ok [b] => uri b = "tgfile://" +:+ chat_id +:+ "/" +:+ message_id
    | Ok _ => False
    | Raise (ValueError msg) =>
        ∃ reason, msg = "Failed to serve media resource: " +:+ reason
    | Raise _ => False
    end.
Proof.
  unfold get_telegram_media, int_, get_media, truthy, getitem, as_str,
    OS.path_exists, OS.read_bytes.
  munfold.
  repeat (case_match; simplify_eq/=; try done);
    eexists; (split; [reflexivity|]); simpl; eauto.
Qed.

End reading_properties.

Module SceneFacts.

Lemma reachable_fresh : reachable Examples.guess_type Examples.fresh.
Proof. exists Examples.fresh. split; [reflexivity|apply rtc_refl]. Qed.

Lemma fresh_to_two :
  rtc (step Examples.guess_type) Examples.fresh Examples.two.
Proof.
  eapply rtc_l.
  - eapply (step_save _ 100 5 "/tmp/photo.jpg" None Examples.t1
              Examples.fresh _ Examples.one).
    apply surjective_pairing.
  - apply rtc_once.
    eapply (step_save _ 100 6 "/tmp/note" (Some "text/plain") Examples.t2
              Examples.one _ Examples.two).
    apply surjective_pairing.
Qed.

Lemma reachable_two : reachable Examples.guess_type Examples.two.
Proof. exists Examples.fresh. split; [reflexivity|apply fresh_to_two]. Qed.

Lemma fresh_to_two_less_one :
  rtc (step Examples.guess_type) Examples.fresh Scenes.two_less_one.
Proof.
  eapply rtc_r; [apply fresh_to_two|].
  eapply (step_delete _ 100 5 Examples.two _ Scenes.two_less_one).
  apply surjective_pairing.
Qed.

Lemma wf_one : wf Examples.one.
Proof. apply Check.wf_b_sound. vm_compute. reflexivity. Qed.

Lemma wf_two : wf Examples.two.
Proof. apply Check.wf_b_sound. vm_compute. reflexivity. Qed.

Lemma wf_one_stale : wf Examples.one_stale.
Proof. apply Check.wf_b_sound. vm_compute. reflexivity. Qed.

Lemma wf_resaved : wf Examples.resaved.
Proof. apply Check.wf_b_sound. vm_compute. reflexivity. Qed.

End SceneFacts.

Lemma reachable_entries_canonical_witness :
  ∃ mime ts size d,
    heap Examples.two !! 1 = Some d ∧
    PyDict.get "path" d =
      Some (JStr "/home/u/.telegram-mcp/media/chat100_msg6.bin") ∧
    PyDict.get "extension" d = Some (JStr ".bin") ∧
    PyDict.get "mime_type" d = Some (JStr mime) ∧
    PyDict.get "timestamp" d = Some (JStr ts) ∧
    PyDict.get "size" d = Some (JInt size).
Proof.
  destruct (reachable_entries_canonical Examples.guess_type Examples.two
              "100|6" 1 SceneFacts.reachable_two)
    as (c & m & ext & mime & ts & size & d & Hk & Hd & Hp & He & _ & Hm & Ht
        & Hs & _);
    [by_evaluation|].
  exists mime, ts, size, d.
  injection Hd as <-. vm_compute in He. injection He as <-.
  apply (KeyFacts.get_key_inj 100 6) in Hk as [-> ->].
  split_and!; try done.
Defined.

Lemma reachable_paths_disjoint_witness :
  entry_path Examples.two 0 ≠ entry_path Examples.two 1 ∧
  entry_path Examples.two 0 ≠ MediaStorage.index_file Examples.two ∧
  0 ≠ 1.
Proof.
  apply (reachable_paths_disjoint Examples.guess_type Examples.two
           "100|5" 0 "100|6" 1 SceneFacts.reachable_two);
    by_evaluation.
Defined.

Lemma store_journal_discipline_witness :
  journal Scenes.two_less_one =
    [ Copied "/tmp/photo.jpg" "/home/u/.telegram-mcp/media/chat100_msg5.jpg";
      Wrote "/home/u/.telegram-mcp/media/index.json";
      Copied "/tmp/note" "/home/u/.telegram-mcp/media/chat100_msg6.bin";
      Wrote "/home/u/.telegram-mcp/media/index.json";
      Removed "/home/u/.telegram-mcp/media/chat100_msg5.jpg";
      Wrote "/home/u/.telegram-mcp/media/index.json" ] ∧
  ∃ src c m ext,
    Copied src "/home/u/.telegram-mcp/media/chat100_msg5.jpg" ∈
      [ Copied "/tmp/photo.jpg" "/home/u/.telegram-mcp/media/chat100_msg5.jpg";
        Wrote "/home/u/.telegram-mcp/media/index.json";
        Copied "/tmp/note" "/home/u/.telegram-mcp/media/chat100_msg6.bin";
        Wrote "/home/u/.telegram-mcp/media/index.json" ] ∧
    "/home/u/.telegram-mcp/media/chat100_msg5.jpg" =
      MediaStorage._get_file_path (base_dir Scenes.two_less_one) c m ext.
Proof.
  split; [vm_compute; reflexivity|].
  apply (store_journal_discipline Examples.guess_type Examples.fresh
           Scenes.two_less_one
           [ Copied "/tmp/photo.jpg"
               "/home/u/.telegram-mcp/media/chat100_msg5.jpg";
             Wrote "/home/u/.telegram-mcp/media/index.json";
             Copied "/tmp/note" "/home/u/.telegram-mcp/media/chat100_msg6.bin";
             Wrote "/home/u/.telegram-mcp/media/index.json" ]
           (Removed "/home/u/.telegram-mcp/media/chat100_msg5.jpg")
           [ Wrote "/home/u/.telegram-mcp/media/index.json" ]).
  - reflexivity.
  - reflexivity.
  - apply SceneFacts.fresh_to_two_less_one.
  - vm_compute. reflexivity.
Defined.

Lemma save_media_failure_modes_witness :
  MediaStorage.save_media Examples.guess_type 100 5 "/tmp/photo.jpg" None
    Examples.t1 Scenes.taken =
    (Raise (PermissionError
              "[Errno 13] Permission denied: '/home/u/.telegram-mcp/media/chat100_msg5.jpg'"),
     Scenes.taken) ∧
  ∃ s',
    MediaStorage.save_media Examples.guess_type 100 5 "/tmp/photo.jpg" None
      Examples.t1 Scenes.read_only_index =
      (Raise (PermissionError
                "[Errno 13] Permission denied: '/home/u/.telegram-mcp/media/index.json'"),
       s') ∧
    files s' !! "/home/u/.telegram-mcp/media/chat100_msg5.jpg" =
      Some Examples.photo ∧
    files s' !! "/home/u/.telegram-mcp/media/index.json" = None ∧
    MediaStorage.get_media 100 5 s' = (Ok (Some 0), s').
Proof.
  split.
  - apply (save_media_failure_modes Examples.guess_type 100 5 "/tmp/photo.jpg"
             None Examples.t1 Scenes.taken Examples.photo);
      [reflexivity|by_evaluation|by_evaluation].
  - destruct (save_media_failure_modes Examples.guess_type 100 5
                "/tmp/photo.jpg" None Examples.t1 Scenes.read_only_index
                Examples.photo) as [_ Hindex];
      [reflexivity|by_evaluation|].
    destruct Hindex as (s' & Hrun & Hfile & Hidx & Hget & _);
      [by_evaluation|by_evaluation|].
    exists s'. split_and!; [exact Hrun|exact Hfile|exact Hidx|exact Hget].
Defined.

Lemma save_then_list_witness :
  ∃ l s2 r,
    MediaStorage.list_media Examples.one = (Ok l, s2) ∧
    r ∈ l ∧
    MediaStorage.get_media 100 5 s2 = (Ok (Some r), s2) ∧
    PyDict.get "chat_id" <$> heap s2 !! r = Some (Some (JInt 100)) ∧
    files s2 !! "/home/u/.telegram-mcp/media/chat100_msg5.jpg" =
      Some Examples.photo.
Proof.
  destruct (save_then_list Examples.guess_type 100 5 "/tmp/photo.jpg" None
              Examples.t1 Examples.fresh Examples.photo
              "/home/u/.telegram-mcp/media/chat100_msg5.jpg" Examples.one)
    as (l & s2 & r & mime & ext & Hlist & Hin & Hget & Hd & Hfile);
    [apply Inv.wf_empty|reflexivity|vm_compute; reflexivity|].
  exists l, s2, r. split_and!; [done..| |done].
  by rewrite Hd.
Defined.

Lemma get_media_path_spec_witness :
  MediaStorage.get_media_path 100 5 Examples.one =
    (Ok (Some "/home/u/.telegram-mcp/media/chat100_msg5.jpg"), Examples.one) ∧
  MediaStorage.get_media_path 100 5 Examples.one_stale =
    (Ok None, Examples.one_stale).
Proof.
  split.
  - destruct (get_media_path_spec 100 5 Examples.one SceneFacts.wf_one)
      as (res & Hrun & Hres).
    rewrite Hrun. do 2 f_equal.
    apply Hres. exists 0. eexists. split_and!; [reflexivity..|].
    vm_compute. eauto.
  - destruct (get_media_path_spec 100 5 Examples.one_stale
                SceneFacts.wf_one_stale) as (res & Hrun & Hres).
    rewrite Hrun. do 2 f_equal.
    destruct res as [p|]; [|done].
    destruct (proj1 (Hres p) eq_refl) as (r & d & Hget & Hd & Hp & Hex).
    injection Hget as <-. injection Hd as <-. injection Hp as <-.
    vm_compute in Hex. by destruct Hex.
Defined.

Lemma clear_then_empty_witness :
  ∃ s',
    MediaStorage.clear_all_media Examples.two = (Ok 2%Z, s') ∧
    MediaStorage.list_media s' = (Ok [], s') ∧
    MediaStorage.get_storage_stats s' =
      (Ok (StorageStats 0 0 (0 # 100) Examples.base), s').
Proof.
  destruct (clear_then_empty Examples.two SceneFacts.wf_two)
    as (n & s' & Hrun & _ & Hlist & Hstats); [by_evaluation|].
  exists s'. split_and!; [|done..].
  assert (MediaStorage.clear_all_media Examples.two =
          (Ok 2%Z, (MediaStorage.clear_all_media Examples.two).2)) as Hrun'
    by (vm_compute; reflexivity).
  rewrite Hrun in Hrun'. injection Hrun' as ->. exact Hrun.
Defined.

Lemma removals_touch_indexed_files_only_witness :
  let orphan := "/home/u/.telegram-mcp/media/chat100_msg5.jpg" in
  files Examples.resaved !! orphan = Some Examples.photo ∧
  files (MediaStorage.clear_all_media Examples.resaved).2 !! orphan =
    Some Examples.photo ∧
  files (MediaStorage.delete_media 100 5 Examples.resaved).2 !! orphan =
    Some Examples.photo.
Proof.
  intros orphan.
  destruct (removals_touch_indexed_files_only Examples.resaved orphan
              SceneFacts.wf_resaved) as [Hdelete Hclear]; [by_evaluation|].
  split; [reflexivity|]. split.
  - rewrite (Hclear _ _ (surjective_pairing _)); [reflexivity|].
    intros k r Hin. apply list_elem_of_singleton in Hin as [= -> ->].
    by_evaluation.
  - rewrite (Hdelete 100%Z 5%Z _ _ (surjective_pairing _)); [reflexivity|].
    intros r [= <-]. by_evaluation.
Defined.

(* ================================================================== *)
(** * The error message and the tool on the cache *)
(* ================================================================== *)

Module ErrorFacts.

Lemma format_03d_small :
  forallb (λ k, three_digits (Z.of_nat k) (PyText.format_0d 3 (Z.of_nat k)))
    (seq 0 1000) = true.
Proof. vm_compute. reflexivity. Qed.

Lemma format_03d n :
  (0 ≤ n < 1000)%Z → three_digits n (PyText.format_0d 3 n) = true.
Proof.
  intros Hn. pose proof format_03d_small as H.
  rewrite forallb_forall in H.
  specialize (H (Z.to_nat n)). rewrite Z2Nat.id in H by lia.
  apply H. apply in_seq. lia.
Qed.

Lemma find_first {A} (f : A → bool) before x after :
  f x = true → (∀ y, y ∈ before → f y = false) →
  List.find f (before ++ x :: after) = Some x.
Proof.
  intros Hx. induction before as [|y before IH]; intros Hb; simpl.
  - by rewrite Hx.
  - rewrite (Hb y) by apply list_elem_of_here.
    apply IH. intros z Hz. by apply Hb, list_elem_of_further.
Qed.

Lemma find_none {A} (f : A → bool) l :
  (∀ y, y ∈ l → f y = false) → List.find f l = None.
Proof.
  induction l as [|y l IH]; intros Hl; simpl; [done|].
  rewrite (Hl y) by apply list_elem_of_here.
  apply IH. intros z Hz. by apply Hl, list_elem_of_further.
Qed.

(** The message for a code. *)
Lemma message_of_code hash function_name error prefix kwargs code :
  match prefix with
  | Some p => Some p
  | None =>
      List.find
        (λ category,
           Py.contains (PyText.lower (Errors.name category))
             (PyText.lower function_name))
        Errors.categories
  end = code →
  Errors.log_and_format_error hash function_name error prefix kwargs =
    "An error occurred (code: " +:+
    match code with Some p => Errors.value p | None => "GEN" end +:+
    "-ERR-" +:+
    PyText.format_0d 3 (Z.abs (hash function_name) mod 1000) +:+
    "). Check mcp_errors.log for details.".
Proof.
  intros <-. unfold Errors.log_and_format_error.
  rewrite !JsonFacts.app_assoc. done.
Qed.

End ErrorFacts.

Section error_properties.
Variable hash : string → Z.

(** X10. The message of [log_and_format_error] is "An error occurred
    (code: P-ERR-ddd). Check mcp_errors.log for details.", where [ddd] is
    exactly three digits, the absolute value of the hash of the function
    name modulo 1000, and [P] is the prefix that was passed; without one,
    the first category, in the order CHAT, MSG, CONTACT, GROUP, MEDIA,
    PROFILE, AUTH, ADMIN, whose name in lower case occurs in the function
    name in lower case; and GEN when there is none.  Neither the error nor
    the keyword arguments show in it. *)
Theorem error_message_shape function_name error prefix kwargs :
  let named (category : ErrorCategory) :=
    Py.contains (PyText.lower (Errors.name category))
      (PyText.lower function_name) in
  ∃ code d1 d2 d3,
    Errors.log_and_format_error hash function_name error prefix kwargs =
      "An error occurred (code: " +:+ code +:+ "-ERR-" +:+
      String d1 (String d2 (String d3 "")) +:+
      "). Check mcp_errors.log for details." ∧
    Py.is_digit d1 = true ∧ Py.is_digit d2 = true ∧ Py.is_digit d3 = true ∧
    Py.int_of_str (String d1 (String d2 (String d3 ""))) =
      Some (Z.abs (hash function_name) mod 1000)%Z ∧
    (∀ p, prefix = Some p → code = Errors.value p) ∧
    (∀ before p after,
       prefix = None →
       [CHAT; MSG; CONTACT; GROUP; MEDIA; PROFILE; AUTH; ADMIN] =
         before ++ p :: after →
       named p = true → (∀ q, q ∈ before → named q = false) →
       code = Errors.value p) ∧
    (prefix = None →
     (∀ q, q ∈ [CHAT; MSG; CONTACT; GROUP; MEDIA; PROFILE; AUTH; ADMIN] →
           named q = false) →
     code = "GEN") ∧
    ∀ error' kwargs',
      Errors.log_and_format_error hash function_name error' prefix kwargs' =
      Errors.log_and_format_error hash function_name error prefix kwargs.
Proof.
  intros named.
  pose proof (ErrorFacts.format_03d (Z.abs (hash function_name) mod 1000))
    as Hd.
  destruct (PyText.format_0d 3 (Z.abs (hash function_name) mod 1000))
    as [|d1 [|d2 [|d3 [|? ?]]]] eqn:Hfmt;
    try (by discriminate Hd; [apply Z.mod_pos_bound]).
  specialize (Hd (Z.mod_pos_bound _ 1000 eq_refl)).
  unfold three_digits in Hd.
  apply andb_prop in Hd as [Hd Hread].
  apply andb_prop in Hd as [Hd H3]. apply andb_prop in Hd as [H1 H2].
  apply bool_decide_eq_true in Hread.
  eexists _, d1, d2, d3. split.
  { rewrite (ErrorFacts.message_of_code _ _ _ _ _ _ eq_refl).
    rewrite Hfmt. reflexivity. }
  split_and!; try done.
  - by intros p ->.
  - intros before p after -> Hcat Hp Hbefore.
    fold named. change Errors.categories
      with [CHAT; MSG; CONTACT; GROUP; MEDIA; PROFILE; AUTH; ADMIN].
    rewrite Hcat. by rewrite ErrorFacts.find_first.
  - intros -> Hnone. fold named.
    by rewrite ErrorFacts.find_none.
Qed.

End error_properties.

Module ToolFacts.
Import MediaStorage MediaTools.

Lemma delete_media_key_eq c m : delete_media_key (_get_key c m) = delete_media c m.
Proof. reflexivity. Qed.

Lemma key_ids_key c m : key_ids (_get_key c m) = Some (c, m).
Proof.
  unfold key_ids. rewrite KeyFacts.split_key.
  by rewrite !PyFacts.int_of_str_of_int.
Qed.

Lemma of_chat_key c c' m r : of_chat c (_get_key c' m, r) = (c' =? c)%Z.
Proof. unfold of_chat. simpl. by rewrite key_ids_key. Qed.

Lemma deleted_frame s k r :
  heap (deleted s k r) = heap s ∧ base_dir (deleted s k r) = base_dir s ∧
  locked (deleted s k r) = locked s ∧
  index (deleted s k r) = PyDict.del k (index s).
Proof.
  unfold deleted. simpl.
  by destruct (Removal.unlinked_frame (entry_path s r) s) as (-> & -> & -> & ->).
Qed.

Lemma elem_of_del k (d : list (string * nat)) kr :
  NoDup d.*1 → kr ∈ PyDict.del k d ↔ kr ∈ d ∧ kr.1 ≠ k.
Proof.
  intros Hd. rewrite DictFacts.del_filter by done.
  rewrite list_elem_of_filter. tauto.
Qed.

Lemma listed_items_deleted s k r items :
  wf s → listed_items s ((k, r) :: items) →
  listed_items (deleted s k r) items.
Proof.
  intros Hwf [Hnd Hit]. apply NoDup_cons in Hnd as [Hk Hnd].
  destruct (deleted_frame s k r) as (Hh & _ & _ & Hi).
  split; [done|]. intros k' r' Hin.
  destruct (Hit k' r') as (Hin' & c & m & -> & Hc & Hm);
    [by apply list_elem_of_further|].
  split.
  - rewrite Hi. apply elem_of_del; [apply Hwf|]. split; [done|].
    simpl. intros <-. apply Hk. apply list_elem_of_fmap.
    by exists (_get_key c m, r').
  - exists c, m. unfold deref. rewrite Hh. done.
Qed.

Lemma clear_chat_loop_ok c items : ∀ s n,
  wf s → index_writable s → listed_items s items →
  clear_chat_loop c items.*2 n s =
    (Ok (n + Z.of_nat (length (filter (λ kr, of_chat c kr) items)))%Z,
     chat_cleared c items s).
Proof.
  induction items as [|[k r] items IH]; intros s n Hwf Hw Hit.
  - simpl. munfold. by rewrite Z.add_0_r.
  - destruct (proj2 Hit k r) as (Hin & c' & m' & -> & Hc & Hm);
      [apply list_elem_of_here|].
    rewrite fmap_cons. cbn [clear_chat_loop snd chat_cleared].
    rewrite filter_cons. rewrite of_chat_key.
    unfold mbind at 1. unfold M_bind at 1. unfold getitem at 1. rewrite Hc.
    cbn [eq_int]. destruct (c' =? c)%Z eqn:Heq.
    + unfold mbind at 1. unfold M_bind at 1. unfold getitem at 1. rewrite Hc.
      unfold mbind at 1. unfold M_bind at 1. unfold getitem at 1. rewrite Hm.
      unfold mbind at 1. unfold M_bind at 1.
      unfold delete_media_values. cbn [format_value].
      fold (_get_key c' m'). rewrite delete_media_key_eq.
      rewrite (Removal.delete_media_present _ _ _ r Hwf Hw)
        by (apply DictFacts.elem_get; [apply Hwf|done]).
      destruct (deleted_frame s (_get_key c' m') r) as (Hh & Hb & Hl & Hi).
      rewrite IH.
      * simpl. do 2 f_equal. lia.
      * eapply Preserve.wf_delete_media; [exact Hwf|].
        apply (Removal.delete_media_present _ _ _ r Hwf Hw).
        apply DictFacts.elem_get; [apply Hwf|done].
      * by eapply ListAgain.index_writable_ext.
      * by apply listed_items_deleted.
    + rewrite IH; try done.
      destruct Hit as [Hnd Hit]. apply NoDup_cons in Hnd as [_ Hnd].
      split; [done|]. intros k0 r0 Hin0.
      by apply Hit, list_elem_of_further.
Qed.

(** The index after the loop: the entries of the chat among [items] are
    gone, the others are as they were. *)
Lemma index_chat_cleared c items : ∀ s kr,
  wf s → listed_items s items →
  kr ∈ index (chat_cleared c items s) ↔
  kr ∈ index s ∧ ¬ (of_chat c kr = true ∧ kr.1 ∈ items.*1).
Proof.
  induction items as [|[k r] items IH]; intros s kr Hwf Hit.
  - simpl. split; [|tauto]. intros ?. split; [done|].
    by intros [_ ?%elem_of_nil].
  - destruct (proj2 Hit k r) as (Hin & c' & m' & -> & Hc & Hm);
      [apply list_elem_of_here|].
    cbn [chat_cleared]. rewrite fmap_cons, elem_of_cons. simpl.
    destruct (of_chat c (_get_key c' m', r)) eqn:Hchat.
    + destruct (deleted_frame s (_get_key c' m') r) as (Hh & Hb & Hl & Hi).
      assert (wf (deleted s (_get_key c' m') r)) as Hwf'.
      { destruct Hwf as [Hkeys Hrefs Hent]. split; rewrite ?Hh, ?Hb, ?Hi.
        - rewrite DictFacts.del_filter by done.
          by apply ListMediaRun.NoDup_filter_keys.
        - rewrite DictFacts.del_filter by done.
          by apply ListMediaRun.NoDup_filter_values.
        - intros k0 r0. rewrite DictFacts.del_filter by done.
          intros [_ Hin0]%list_elem_of_filter. auto. }
      rewrite IH; [|done|by apply listed_items_deleted].
      rewrite Hi, elem_of_del by apply Hwf.
      split.
      * intros [[Hkr Hne] Hnot]. split; [done|].
        intros [Hc' [Heq|Hrest]]; [done|]. apply Hnot. done.
      * intros [Hkr Hnot]. split.
        -- split; [done|]. intros Heq. apply Hnot. split; [|by left].
           destruct kr as [k0 r0]. simpl in Heq. subst k0.
           unfold of_chat in *. done.
        -- intros [Hc' Hrest]. apply Hnot. auto.
    + rewrite IH; [|done|].
      * split.
        -- intros [Hkr Hnot]. split; [done|].
           intros [Hc' [Heq|Hrest]]; [|by apply Hnot].
           destruct kr as [k0 r0]. simpl in Heq. subst k0.
           unfold of_chat in *. simpl in *. congruence.
        -- intros [Hkr Hnot]. split; [done|].
           intros [Hc' Hrest]. apply Hnot. auto.
      * destruct Hit as [Hnd Hit]. apply NoDup_cons in Hnd as [_ Hnd].
        split; [done|]. intros k0 r0 Hin0.
        by apply Hit, list_elem_of_further.
Qed.

(** The loop keeps the invariant, the base directory and the heap. *)
Lemma chat_cleared_frame c items : ∀ s,
  wf s → listed_items s items →
  wf (chat_cleared c items s) ∧
  heap (chat_cleared c items s) = heap s ∧
  base_dir (chat_cleared c items s) = base_dir s ∧
  (∀ p, p ≠ index_file s →
        (∀ k r, (k, r) ∈ items → of_chat c (k, r) = true →
                p ≠ entry_path s r) →
        files (chat_cleared c items s) !! p = files s !! p).
Proof.
  induction items as [|[k r] items IH]; intros s Hwf Hit; [done|].
  cbn [chat_cleared].
  destruct (of_chat c (k, r)) eqn:Hchat.
  - destruct (deleted_frame s k r) as (Hh & Hb & Hl & Hi).
    assert (wf (deleted s k r)) as Hwf'.
    { destruct Hwf as [Hkeys Hrefs Hent]. split; rewrite ?Hh, ?Hb, ?Hi.
      - rewrite DictFacts.del_filter by done.
        by apply ListMediaRun.NoDup_filter_keys.
      - rewrite DictFacts.del_filter by done.
        by apply ListMediaRun.NoDup_filter_values.
      - intros k0 r0. rewrite DictFacts.del_filter by done.
        intros [_ Hin0]%list_elem_of_filter. auto. }
    destruct (IH (deleted s k r) Hwf' (listed_items_deleted _ _ _ _ Hwf Hit))
      as (Hwf'' & Hh' & Hb' & Hf').
    split_and!; [done|by rewrite Hh'|by rewrite Hb'|].
    intros p Hne Hp. rewrite Hf'.
    + unfold deleted, persisted. simpl.
      rewrite lookup_insert_ne.
      * apply FrameFacts.files_unlinked. apply (Hp k r); [|done].
        apply list_elem_of_here.
      * unfold index_file in *. simpl.
        destruct (Removal.unlinked_frame (entry_path s r) s)
          as (_ & _ & -> & _). by apply not_eq_sym.
    + unfold index_file in *. by rewrite Hb.
    + intros k0 r0 Hin0 Hc0.
      rewrite (JournalFacts.entry_path_ext s) by (by rewrite Hh).
      apply (Hp k0 r0); [|done]. by apply list_elem_of_further.
  - assert (listed_items s items) as Hit'.
    { destruct Hit as [Hnd Hit]. apply NoDup_cons in Hnd as [_ Hnd].
      split; [done|]. intros k0 r0 Hin0.
      by apply Hit, list_elem_of_further. }
    destruct (IH s Hwf Hit') as (Hwf'' & Hh' & Hb' & Hf').
    split_and!; [done..|].
    intros p Hne Hp. apply Hf'; [done|].
    intros k0 r0 Hin0 Hc0. apply (Hp k0 r0); [|done].
    by apply list_elem_of_further.
Qed.

End ToolFacts.

Module PathFacts.
Import MediaStorage.

(** In a well-formed store two keys never share a file. *)
Lemma wf_paths_disjoint s k1 r1 k2 r2 :
  wf s → (k1, r1) ∈ index s → (k2, r2) ∈ index s → k1 ≠ k2 →
  entry_path s r1 ≠ entry_path s r2.
Proof.
  intros Hwf Hin1 Hin2 Hne.
  destruct (wf_entries s Hwf _ _ Hin1) as (d1 & Hd1 & Hi1).
  destruct (wf_entries s Hwf _ _ Hin2) as (d2 & Hd2 & Hi2).
  destruct (Inv.wf_info_path _ _ _ Hi1) as (c1 & m1 & e1 & -> & He1 & Hp1).
  destruct (Inv.wf_info_path _ _ _ Hi2) as (c2 & m2 & e2 & -> & He2 & Hp2).
  rewrite (Removal.entry_path_eq _ _ _ _ Hd1 Hp1).
  rewrite (Removal.entry_path_eq _ _ _ _ Hd2 Hp2).
  intros (-> & -> & _)%KeyFacts.file_path_inj; done.
Qed.

Lemma wf_path_not_index s k r :
  wf s → (k, r) ∈ index s → entry_path s r ≠ index_file s.
Proof.
  intros Hwf Hin.
  destruct (wf_entries s Hwf _ _ Hin) as (d & Hd & Hi).
  destruct (Inv.wf_info_path _ _ _ Hi) as (c & m & e & -> & He & Hp).
  rewrite (Removal.entry_path_eq _ _ _ _ Hd Hp).
  apply KeyFacts.file_path_not_index.
Qed.

End PathFacts.

Section tool_properties.
Import MediaStorage MediaTools.
Variable hash : string → Z.

(** X11. The tool [telegram_clear_downloaded_media] with both identifiers
    deletes the one record and answers with [ok] true and "Cleared media
    file", or with [ok] false and "No media file found" when the index has
    no record for them.  Without a chat identifier it clears the whole
    cache, whether or not a message identifier was passed, and answers
    with the number of files that [clear_all_media] removed. *)
Theorem clear_tool_one_or_all s :
  wf s → index_writable s →
  (∀ c m,
     ∃ found s',
       delete_media c m s = (Ok found, s') ∧
       (found = true ↔ is_Some (PyDict.get (_get_key c m) (index s))) ∧
       telegram_clear_downloaded_media hash (Some c) (Some m) s =
         (Ok (JsonText.dumps
                (JObject
                   [ ("ok", JBool found);
                     ("message",
                      JString (if found then "Cleared media file"
                               else "No media file found"));
                     ("chat_id", JNumber c);
                     ("message_id", JNumber m) ])), s')) ∧
  (∀ message_id,
     ∃ n s',
       clear_all_media s = (Ok n, s') ∧
       index s' = [] ∧
       telegram_clear_downloaded_media hash None message_id s =
         (Ok (JsonText.dumps
                (JObject
                   [ ("ok", JBool true);
                     ("message", JString "Cleared all media");
                     ("count", JNumber n) ])), s')).
Proof.
  intros Hwf Hw. split.
  - intros c m.
    destruct (PyDict.get (_get_key c m) (index s)) as [r|] eqn:Hget.
    + exists true, (deleted s (_get_key c m) r).
      pose proof (Removal.delete_media_present _ _ _ _ Hwf Hw Hget) as Hrun.
      split; [done|]. split; [by split; eauto|].
      unfold telegram_clear_downloaded_media. munfold. by rewrite Hrun.
    + exists false, s.
      pose proof (Removal.delete_media_absent _ _ _ Hget) as Hrun.
      split; [done|]. split; [split; [done|by intros [? ?]]|].
      unfold telegram_clear_downloaded_media. munfold. by rewrite Hrun.
  - intros message_id.
    pose proof (Removal.clear_all_media_ok s Hwf Hw) as Hrun.
    eexists _, (cleared s). split; [exact Hrun|]. split; [done|].
    unfold telegram_clear_downloaded_media. munfold.
    destruct message_id; by rewrite Hrun.
Qed.

(** X12. The tool with a chat identifier alone first lists the cache, which
    prunes the stale records of every chat, and then deletes the records
    of that chat one by one.  Its [count] is the number of records of the
    chat whose file existed, whether or not the file could then be
    removed.  Afterwards the index holds the records of the other chats
    whose file existed, and only those; these still have their files; and
    no message of the chat has a record. *)
Theorem clear_tool_one_chat c s :
  wf s → index_writable s →
  ∃ s',
    telegram_clear_downloaded_media hash (Some c) None s =
      (Ok (JsonText.dumps
             (JObject
                [ ("ok", JBool true);
                  ("message", JString "Cleared chat media");
                  ("chat_id", JNumber c);
                  ("count",
                   JNumber
                     (Z.of_nat
                        (length (filter (λ kr, of_chat c kr)
                                   (live_entries s))))) ])), s') ∧
    (∀ k r, (k, r) ∈ index s' ↔
            (k, r) ∈ index s ∧ live s r = true ∧ of_chat c (k, r) = false) ∧
    (∀ k r, (k, r) ∈ index s' → live s' r = true) ∧
    (∀ m, get_media c m s' = (Ok None, s')) ∧
    wf s'.
Proof.
  intros Hwf Hw.
  destruct (ListSpec.list_media_spec s Hwf Hw)
    as (s1 & Hlist & Hwf1 & Hi & Hb & Hl & _ & _ & Hann & _).
  assert (index_writable s1) as Hw1 by (by eapply ListAgain.index_writable_ext).
  assert (listed_items s1 (index s1)) as Hit.
  { split; [apply Hwf1|]. intros k r Hin. split; [done|].
    destruct (Hann k r Hin) as (c' & m' & d & -> & _ & _ & Hd' & _).
    exists c', m'. split; [done|]. unfold deref. rewrite Hd'. simpl.
    apply Inv.annotated_ids. }
  set (s' := chat_cleared c (index s1) s1).
  destruct (ToolFacts.chat_cleared_frame c (index s1) s1 Hwf1 Hit)
    as (Hwf' & Hh' & Hb' & Hf').
  fold s' in Hwf', Hh', Hb', Hf'.
  assert (∀ k r, (k, r) ∈ index s' ↔
                 (k, r) ∈ index s1 ∧ of_chat c (k, r) = false) as Hidx.
  { intros k r. unfold s'.
    rewrite (ToolFacts.index_chat_cleared c _ s1 (k, r) Hwf1 Hit). simpl.
    split.
    - intros [Hin Hnot]. split; [done|].
      destruct (of_chat c (k, r)) eqn:Hc; [|done].
      exfalso. apply Hnot. split; [done|].
      apply list_elem_of_fmap. by exists (k, r).
    - intros [Hin Hc]. split; [done|]. rewrite Hc. by intros [? _]. }
  exists s'. split_and!.
  - unfold telegram_clear_downloaded_media.
    unfold try_except. unfold mbind at 1. unfold M_bind at 1.
    rewrite Hlist. unfold mbind at 1. unfold M_bind at 1.
    rewrite (ToolFacts.clear_chat_loop_ok c (index s1) s1 0 Hwf1 Hw1 Hit).
    rewrite Z.add_0_l. by rewrite <- Hi.
  - intros k r. rewrite Hidx, Hi. unfold live_entries.
    rewrite list_elem_of_filter. simpl.
    destruct (live s r); simpl; intuition; try done.
  - intros k r [Hin Hc]%Hidx.
    destruct (Hann k r Hin) as (c' & m' & d & -> & _ & _ & _ & Hlive).
    destruct (wf_entries s1 Hwf1 _ _ Hin) as (d1 & Hd1 & Hinfo).
    destruct (Inv.wf_info_path _ _ _ Hinfo) as (c0 & m0 & ext & _ & _ & Hp).
    rewrite (ListMedia.live_path _ _ _ _ Hd1 Hp) in Hlive.
    assert (heap s' !! r = Some d1) as Hd' by (by rewrite Hh').
    rewrite (ListMedia.live_path _ _ _ _ Hd' Hp).
    rewrite Hf'; [by destruct (bool_decide _)|..].
    + rewrite <- (Removal.entry_path_eq _ _ _ _ Hd1 Hp).
      by eapply PathFacts.wf_path_not_index.
    + intros k0 r0 Hin0 Hc0.
      rewrite <- (Removal.entry_path_eq _ _ _ _ Hd1 Hp).
      eapply PathFacts.wf_paths_disjoint; [done..|].
      intros Heq. unfold of_chat in Hc, Hc0. simpl in Hc, Hc0.
      rewrite Heq in Hc. congruence.
  - intros m. rewrite Reads.get_media_run. do 2 f_equal.
    apply DictFacts.get_None.
    intros ([k r] & Hk & [_ Hc]%Hidx)%list_elem_of_fmap.
    simpl in Hk. subst k. rewrite ToolFacts.of_chat_key in Hc.
    by rewrite Z.eqb_refl in Hc.
  - done.
Qed.

(** X13. When the index file cannot be written, the tool with both
    identifiers answers with the error message of the category MEDIA,
    "An error occurred (code: MEDIA-ERR-ddd). Check mcp_errors.log for
    details."; yet the record is gone from the index in memory and its
    file is removed if the OS let it go.  Only the index file is as it
    was, so the record is back after a restart, without its file. *)
Theorem clear_tool_failure_after_removal c m s r :
  wf s → index_file s ∈ locked s →
  PyDict.get (_get_key c m) (index s) = Some r →
  ∃ d1 d2 d3 s',
    telegram_clear_downloaded_media hash (Some c) (Some m) s =
      (Ok ("An error occurred (code: MEDIA-ERR-" +:+
           String d1 (String d2 (String d3 "")) +:+
           "). Check mcp_errors.log for details."), s') ∧
    Py.is_digit d1 = true ∧ Py.is_digit d2 = true ∧ Py.is_digit d3 = true ∧
    get_media c m s' = (Ok None, s') ∧
    files s' !! index_file s = files s !! index_file s ∧
    (removable s (entry_path s r) = true →
     files s' !! entry_path s r = None).
Proof.
  intros Hwf Hlock Hget.
  pose proof (DictFacts.get_Some_elem _ _ _ Hget) as Hin.
  pose proof (ErrorFacts.format_03d
                (Z.abs (hash "telegram_clear_downloaded_media") mod 1000))
    as Hd.
  destruct (PyText.format_0d 3
              (Z.abs (hash "telegram_clear_downloaded_media") mod 1000))
    as [|d1 [|d2 [|d3 [|? ?]]]] eqn:Hfmt;
    try (by discriminate Hd; [apply Z.mod_pos_bound]).
  specialize (Hd (Z.mod_pos_bound _ 1000 eq_refl)).
  unfold three_digits in Hd.
  apply andb_prop in Hd as [Hd _].
  apply andb_prop in Hd as [Hd H3]. apply andb_prop in Hd as [H1 H2].
  set (s1 := with_index (PyDict.del (_get_key c m))
               (unlinked (entry_path s r) s)).
  destruct (Removal.unlinked_frame (entry_path s r) s) as (Hh & Hi & Hb & Hl).
  assert (_save_index s1 =
          (Raise (PermissionError
                    ("[Errno 13] Permission denied: " +:+
                     OS.repr (index_file s))), s1)) as Hsave.
  { unfold _save_index, OS.write_text. munfold.
    assert (index_file s1 = index_file s) as ->
      by (unfold index_file, s1; simpl; by rewrite Hb).
    rewrite decide_True; [done|]. unfold s1. simpl. by rewrite Hl. }
  exists d1, d2, d3, s1. split_and!; try done.
  - unfold telegram_clear_downloaded_media.
    unfold try_except. unfold mbind at 1. unfold M_bind at 1.
    rewrite (Removal.delete_media_run _ _ _ _ Hwf Hget). fold s1.
    unfold mbind at 1. unfold M_bind at 1. rewrite Hsave.
    unfold mret, M_ret. f_equal. f_equal.
    rewrite (ErrorFacts.message_of_code _ _ _ _ _ (Some MEDIA))
      by (vm_compute; reflexivity).
    rewrite Hfmt. reflexivity.
  - rewrite Reads.get_media_run. do 2 f_equal. unfold s1. simpl. rewrite Hi.
    apply DictFacts.get_del_eq, Hwf.
  - unfold s1. simpl. apply FrameFacts.files_unlinked.
    by apply not_eq_sym, PathFacts.wf_path_not_index with (k := _get_key c m).
  - intros Hrm. unfold s1. simpl.
    unfold removable in Hrm. apply andb_prop in Hrm as [Hex Hnl].
    apply bool_decide_eq_true in Hex as [content Hex].
    apply negb_true_iff, bool_decide_eq_false in Hnl.
    unfold unlinked. rewrite Hex. rewrite decide_False by done.
    simpl. apply lookup_delete_eq.
Qed.

End tool_properties.

Section process_properties.
Import MediaStorage.
Variable guess_type : string → option string.

(** X14. The server has two stores over one directory: the resource
    handler of [main.py] reads the index of its own [MediaStorage()],
    the tools of [media_tools.py] write through theirs.  So a file that a
    tool saves while the server runs is in the directory, in the index
    file and in the index of the tools, and the handler still answers
    "Media not found: {chat_id}/{message_id}. Download it first." for it,
    as long as its own index, loaded when the server started, has no
    record for the key. *)
Theorem resource_misses_media_saved_by_tool c m src mt now p content path p' :
  PyDict.get (_get_key c m) (index (world p)) = None →
  files (world p) !! src = Some content →
  in_tools (save_media guess_type c m src mt now) p = (Ok path, p') →
  in_main (get_telegram_media (Py.str_of_int c) (Py.str_of_int m)) p' =
    (Raise (ValueError
              ("Failed to serve media resource: Media not found: " +:+
               Py.str_of_int c +:+ "/" +:+ Py.str_of_int m +:+
               ". Download it first.")), p') ∧
  in_main (get_media c m) p' = (Ok None, p') ∧
  (∃ r, in_tools (get_media c m) p' = (Ok (Some r), p')) ∧
  files (world p') !! path = Some content ∧
  occurs (Json.str (_get_key c m))
    (String.string_of_list_byte
       (default [] (files (world p') !! index_file (world p')))).
Proof.
  intros Hnone Hsrc Hrun. unfold in_tools in Hrun.
  set (st := with_index (λ _, tools_index p) (world p)) in *.
  destruct (save_media guess_type c m src mt now st) as [res s'] eqn:Hsave.
  injection Hrun as -> <-.
  assert (files st !! src = Some content) as Hsrc' by done.
  destruct (Run.save_media_inv _ _ _ _ _ _ _ _ _ _ Hsrc' Hsave)
    as (-> & -> & Hne & Hl & Hw).
  set (mime := resolved_mime_type guess_type src mt) in *.
  set (ext := resolved_extension src mime) in *.
  split_and!.
  - unfold in_main. simpl world.
    rewrite (Resource.resource_unknown _ _ c m);
      [done|apply PyFacts.int_of_str_of_int..|done].
  - unfold in_main. simpl world. rewrite Reads.get_media_run. simpl.
    by rewrite Hnone.
  - exists (length (heap (world p))). unfold in_tools. simpl.
    rewrite DictFacts.get_set_eq. done.
  - simpl. rewrite lookup_insert_ne
      by (apply not_eq_sym, KeyFacts.file_path_not_index).
    apply lookup_insert_eq.
  - simpl. unfold index_file at 1. simpl. rewrite lookup_insert_eq. simpl.
    unfold index_bytes. rewrite String.string_of_list_byte_of_string.
    eapply JsonFacts.occurs_trans;
      [|apply (JsonFacts.occurs_object _ _ _ (_get_key c m)
                 (deref (stored st c m src content mime now ext)
                    (length (heap st))))].
    + apply JsonFacts.occurs_app_l, JsonFacts.occurs_refl.
    + unfold index_doc. apply list_elem_of_fmap.
      exists (_get_key c m, length (heap st)). split; [done|].
      apply DictFacts.get_Some_elem. simpl. apply DictFacts.get_set_eq.
Qed.
End process_properties.

Module SceneFacts2.

Lemma wf_three : wf Scenes.three.
Proof. apply Check.wf_b_sound. vm_compute. reflexivity. Qed.

Lemma wf_one_read_only : wf Scenes.one_read_only.
Proof. apply Check.wf_b_sound. vm_compute. reflexivity. Qed.

End SceneFacts2.

Lemma clear_tool_one_or_all_witness :
  ∃ s',
    MediaTools.telegram_clear_downloaded_media Scenes.hash None (Some 5%Z)
      Examples.two =
      (Ok (JsonText.dumps
             (JObject [ ("ok", JBool true);
                        ("message", JString "Cleared all media");
                        ("count", JNumber 2) ])), s') ∧
    index s' = [].
Proof.
  destruct (clear_tool_one_or_all Scenes.hash Examples.two SceneFacts.wf_two)
    as [_ Hall]; [by_evaluation|].
  destruct (Hall (Some 5%Z)) as (n & s' & Hclear & Hnil & Hrun).
  exists s'. split; [|exact Hnil].
  assert (MediaStorage.clear_all_media Examples.two =
          (Ok 2%Z, (MediaStorage.clear_all_media Examples.two).2)) as Hclear'
    by (vm_compute; reflexivity).
  rewrite Hclear in Hclear'. injection Hclear' as ->. exact Hrun.
Defined.

Lemma clear_tool_one_chat_witness :
  ∃ s',
    MediaTools.telegram_clear_downloaded_media Scenes.hash (Some 100%Z) None
      Scenes.three =
      (Ok (JsonText.dumps
             (JObject [ ("ok", JBool true);
                        ("message", JString "Cleared chat media");
                        ("chat_id", JNumber 100);
                        ("count", JNumber 2) ])), s') ∧
    (∀ k r, (k, r) ∈ index s' ↔ (k, r) = ("200|1", 2)) ∧
    MediaStorage.get_media 100 5 s' = (Ok None, s').
Proof.
  destruct (clear_tool_one_chat Scenes.hash 100 Scenes.three
              SceneFacts2.wf_three) as (s' & Hrun & Hidx & _ & Hget & _);
    [by_evaluation|].
  exists s'. split_and!.
  - exact Hrun.
  - intros k r. rewrite Hidx. split.
    + intros (Hin & _ & Hc).
      assert (index Scenes.three = [("100|5", 0); ("100|6", 1); ("200|1", 2)])
        as Hi3 by (vm_compute; reflexivity).
      rewrite Hi3 in Hin.
      apply elem_of_cons in Hin as [Hin|Hin];
        [injection Hin as -> ->; exfalso;
         assert (of_chat 100 ("100|5", 0) = true) as Ht
           by (vm_compute; reflexivity);
         rewrite Ht in Hc; discriminate Hc|].
      apply elem_of_cons in Hin as [Hin|Hin];
        [injection Hin as -> ->; exfalso;
         assert (of_chat 100 ("100|6", 1) = true) as Ht
           by (vm_compute; reflexivity);
         rewrite Ht in Hc; discriminate Hc|].
      apply elem_of_cons in Hin as [Hin|Hin]; [exact Hin|].
      apply elem_of_nil in Hin. destruct Hin.
    + intros [= -> ->]. split_and!; [by_evaluation|vm_compute; reflexivity..].
  - apply Hget.
Defined.

Lemma clear_tool_failure_after_removal_witness :
  ∃ s',
    MediaTools.telegram_clear_downloaded_media Scenes.hash (Some 100%Z)
      (Some 5%Z) Scenes.one_read_only =
      (Ok "An error occurred (code: MEDIA-ERR-031). Check mcp_errors.log for details.",
       s') ∧
    MediaStorage.get_media 100 5 s' = (Ok None, s') ∧
    files s' !! "/home/u/.telegram-mcp/media/chat100_msg5.jpg" = None ∧
    files s' !! "/home/u/.telegram-mcp/media/index.json" =
      files Examples.one !! "/home/u/.telegram-mcp/media/index.json".
Proof.
  destruct (clear_tool_failure_after_removal Scenes.hash 100 5
              Scenes.one_read_only 0 SceneFacts2.wf_one_read_only)
    as (d1 & d2 & d3 & s' & Hrun & _ & _ & _ & Hget & Hidx & Hfile);
    [by_evaluation|reflexivity|].
  exists s'. split_and!.
  - assert (MediaTools.telegram_clear_downloaded_media Scenes.hash
              (Some 100%Z) (Some 5%Z) Scenes.one_read_only =
            (Ok "An error occurred (code: MEDIA-ERR-031). Check mcp_errors.log for details.",
             (MediaTools.telegram_clear_downloaded_media Scenes.hash
                (Some 100%Z) (Some 5%Z) Scenes.one_read_only).2)) as Hrun'
      by (vm_compute; reflexivity).
    rewrite Hrun in Hrun'. injection Hrun' as -> -> ->. exact Hrun.
  - exact Hget.
  - apply Hfile. vm_compute. reflexivity.
  - exact Hidx.
Defined.

Lemma resource_misses_media_saved_by_tool_witness :
  let p := Process Examples.fresh [] in
  ∃ p',
    in_tools (MediaStorage.save_media Examples.guess_type 100 5
                "/tmp/photo.jpg" None Examples.t1) p =
      (Ok "/home/u/.telegram-mcp/media/chat100_msg5.jpg", p') ∧
    in_main (get_telegram_media "100" "5") p' =
      (Raise (ValueError
                "Failed to serve media resource: Media not found: 100/5. Download it first."),
       p') ∧
    files (world p') !! "/home/u/.telegram-mcp/media/chat100_msg5.jpg" =
      Some Examples.photo.
Proof.
  intros p.
  assert (in_tools (MediaStorage.save_media Examples.guess_type 100 5
                      "/tmp/photo.jpg" None Examples.t1) p =
          (Ok "/home/u/.telegram-mcp/media/chat100_msg5.jpg",
           (in_tools (MediaStorage.save_media Examples.guess_type 100 5
                        "/tmp/photo.jpg" None Examples.t1) p).2)) as Hrun
    by (vm_compute; reflexivity).
  eexists. split; [exact Hrun|].
  destruct (resource_misses_media_saved_by_tool Examples.guess_type 100 5
              "/tmp/photo.jpg" None Examples.t1 p Examples.photo _ _
              eq_refl eq_refl Hrun) as (Hmain & _ & _ & Hfile & _).
  split; [exact Hmain|exact Hfile].
Defined.

(* ================================================================== *)
(** * The index file is a text *)
(* ================================================================== *)

Module TextFacts.
Import TextIO.

#[local] Arguments lead : simpl never.
#[local] Arguments cont : simpl never.
#[local] Arguments second : simpl never.

Lemma app_nil_r s : s +:+ "" = s.
Proof.
  induction s as [|a s IH]; [done|]. rewrite PyFacts.app_cons. by f_equal.
Qed.

Lemma length_app s t :
  String.length (s +:+ t) = String.length s + String.length t.
Proof.
  induction s as [|a s IH]; [done|]. rewrite PyFacts.app_cons. simpl.
  by rewrite IH.
Qed.

Lemma valid_app_len n : ∀ s t,
  String.length s ≤ n → utf8_valid s = true →
  utf8_valid (s +:+ t) = utf8_valid t.
Proof.
  induction n as [|n IH]; intros s t Hlen Hs.
  - destruct s; [done|simpl in Hlen; lia].
  - destruct s as [|a s1]; [done|].
    rewrite PyFacts.app_cons. simpl in Hlen.
    cbn [utf8_valid] in Hs |- *.
    destruct (lead a) as [|[|[|[|[|?]]]]]; try done.
    + apply IH; [lia|done].
    + destruct s1 as [|b s2]; [done|]. rewrite PyFacts.app_cons.
      apply andb_prop in Hs as [Hb Hs]. rewrite Hb. simpl in Hlen |- *.
      apply IH; [lia|done].
    + destruct s1 as [|b [|c s2]]; try done. rewrite !PyFacts.app_cons.
      apply andb_prop in Hs as [Hb Hs]. rewrite Hb. simpl in Hlen |- *.
      apply IH; [lia|done].
    + destruct s1 as [|b [|c [|d s2]]]; try done. rewrite !PyFacts.app_cons.
      apply andb_prop in Hs as [Hb Hs]. rewrite Hb. simpl in Hlen |- *.
      apply IH; [lia|done].
Qed.

Lemma piece_valid p : utf8_valid p = true → text_piece p.
Proof. intros Hp t. by apply (valid_app_len (String.length p)). Qed.

Lemma piece_app p q : text_piece p → text_piece q → text_piece (p +:+ q).
Proof. intros Hp Hq t. by rewrite JsonFacts.app_assoc, Hp, Hq. Qed.

Lemma lead_ascii a : is_ascii a = true → lead a = 1.
Proof. unfold lead, is_ascii. by intros ->. Qed.

Lemma valid_ascii s : all_chars is_ascii s = true → utf8_valid s = true.
Proof.
  induction s as [|a s IH]; [done|]. simpl all_chars.
  intros [Ha Hs]%andb_prop. cbn [utf8_valid]. rewrite (lead_ascii _ Ha). auto.
Qed.

Lemma int_char_ascii a : int_char a = true → is_ascii a = true.
Proof. destruct a as [[] [] [] [] [] [] [] []]; vm_compute; congruence. Qed.

Lemma piece_str_of_int n : text_piece (Py.str_of_int n).
Proof.
  apply piece_valid, valid_ascii.
  eapply PyFacts.all_chars_impl; [apply int_char_ascii|].
  apply PyFacts.str_of_int_chars.
Qed.

Lemma escape_char_ascii a :
  lead a = 1 → utf8_valid (Json.escape_char a) = true.
Proof. destruct a as [[] [] [] [] [] [] [] []]; vm_compute; congruence. Qed.

Lemma escape_char_high a :
  (128 <=? N_of_ascii a)%N = true → Json.escape_char a = String a "".
Proof. destruct a as [[] [] [] [] [] [] [] []]; vm_compute; congruence. Qed.

Lemma lead_high a : lead a ≠ 1 → (128 <=? N_of_ascii a)%N = true.
Proof. destruct a as [[] [] [] [] [] [] [] []]; vm_compute; congruence. Qed.

Lemma cont_high b : cont b = true → (128 <=? N_of_ascii b)%N = true.
Proof. unfold cont. by intros [? _]%andb_prop. Qed.

Lemma second_high a b : second a b = true → (128 <=? N_of_ascii b)%N = true.
Proof.
  unfold second, cont. repeat case_match; intros [Hlo Hhi]%andb_prop;
    apply N.leb_le in Hlo; apply N.leb_le; lia.
Qed.

Ltac flatten :=
  repeat (rewrite JsonFacts.app_assoc || rewrite PyFacts.app_cons ||
          rewrite PyFacts.app_nil).

Lemma valid_escape_len n : ∀ s t,
  String.length s ≤ n → utf8_valid s = true →
  utf8_valid (Json.escape s +:+ t) = utf8_valid t.
Proof.
  induction n as [|n IH]; intros s t Hlen Hs.
  - destruct s; [done|simpl in Hlen; lia].
  - destruct s as [|a s1]; [done|]. simpl in Hlen.
    cbn [utf8_valid] in Hs.
    destruct (lead a) as [|[|[|[|[|?]]]]] eqn:Hl; try done.
    + cbn [Json.escape]. rewrite JsonFacts.app_assoc.
      rewrite (piece_valid _ (escape_char_ascii _ Hl)).
      apply IH; [lia|done].
    + destruct s1 as [|b s2]; [done|]. apply andb_prop in Hs as [Hb Hs].
      cbn [Json.escape].
      rewrite (escape_char_high a) by (apply lead_high; by rewrite Hl).
      rewrite (escape_char_high b) by (by apply cont_high).
      flatten. cbn [utf8_valid]. rewrite Hl, Hb. simpl in Hlen |- *.
      apply IH; [lia|done].
    + destruct s1 as [|b [|c s2]]; try done.
      apply andb_prop in Hs as [Hb Hs].
      pose proof Hb as Hbc. apply andb_prop in Hbc as [Hb1 Hc1].
      cbn [Json.escape].
      rewrite (escape_char_high a) by (apply lead_high; by rewrite Hl).
      rewrite (escape_char_high b) by (exact (second_high _ _ Hb1)).
      rewrite (escape_char_high c) by (by apply cont_high).
      flatten. cbn [utf8_valid]. rewrite Hl, Hb. simpl in Hlen |- *.
      apply IH; [lia|done].
    + destruct s1 as [|b [|c [|d s2]]]; try done.
      apply andb_prop in Hs as [Hb Hs].
      pose proof Hb as Hbc. apply andb_prop in Hbc as [Hbc Hd1].
      apply andb_prop in Hbc as [Hb1 Hc1].
      cbn [Json.escape].
      rewrite (escape_char_high a) by (apply lead_high; by rewrite Hl).
      rewrite (escape_char_high b) by (exact (second_high _ _ Hb1)).
      rewrite (escape_char_high c) by (by apply cont_high).
      rewrite (escape_char_high d) by (by apply cont_high).
      flatten. cbn [utf8_valid]. rewrite Hl, Hb. simpl in Hlen |- *.
      apply IH; [lia|done].
Qed.

Lemma piece_str k : utf8_valid k = true → text_piece (Json.str k).
Proof.
  intros Hk t. unfold Json.str. flatten.
  change (utf8_valid (String Json.quote (Json.escape k +:+ String Json.quote t)))
    with (utf8_valid (Json.escape k +:+ String Json.quote t)).
  by rewrite (valid_escape_len (String.length k)).
Qed.

Lemma piece_value v :
  (∀ t, v = JStr t → utf8_valid t = true) → text_piece (Json.value v).
Proof.
  intros Hv. destruct v as [t|n]; simpl.
  - apply piece_str. by apply Hv.
  - apply piece_str_of_int.
Qed.

Lemma piece_concat_sep sep l :
  text_piece sep → (∀ x, x ∈ l → text_piece x) →
  text_piece (Json.concat_sep sep l).
Proof.
  intros Hsep. induction l as [|x l IH]; intros Hl.
  - by intros t.
  - destruct l as [|y l].
    + apply Hl, list_elem_of_here.
    + change (Json.concat_sep sep (x :: y :: l))
        with (x +:+ sep +:+ Json.concat_sep sep (y :: l)).
      apply piece_app; [apply Hl, list_elem_of_here|].
      apply piece_app; [done|]. apply IH.
      intros z Hz. by apply Hl, list_elem_of_further.
Qed.

Lemma piece_object {V} (enc : V → string) ind (d : list (string * V)) :
  text_piece ind →
  (∀ k v, (k, v) ∈ d → utf8_valid k = true ∧ text_piece (enc v)) →
  text_piece (Json.object enc ind d).
Proof.
  intros Hind Hd. unfold Json.object. destruct d as [|kv d].
  - by apply piece_valid.
  - repeat (apply piece_app; [first [done|by apply piece_valid]|]).
    apply piece_app; [|by repeat (apply piece_app; [first [done|by apply piece_valid]|])].
    + apply piece_concat_sep.
      * by repeat (apply piece_app; [first [done|by apply piece_valid]|]).
      * intros x ([k v] & -> & Hin)%list_elem_of_fmap. simpl.
        destruct (Hd k v Hin) as [Hk Hv].
        apply piece_app; [by apply piece_str|].
        apply piece_app; [by apply piece_valid|done].
Qed.

(** The text that [_save_index] writes is UTF-8 when the strings of the
    index are. *)
Lemma valid_dumps idx :
  (∀ k d, (k, d) ∈ idx →
     utf8_valid k = true ∧
     ∀ f v, (f, v) ∈ d →
       utf8_valid f = true ∧ ∀ t, v = JStr t → utf8_valid t = true) →
  utf8_valid (Json.dumps idx) = true.
Proof.
  intros Hidx. rewrite <- (app_nil_r (Json.dumps idx)).
  unfold Json.dumps. rewrite piece_object; [done|by intros t|].
  intros k d Hin. destruct (Hidx k d Hin) as [Hk Hd]. split; [done|].
  apply piece_object; [by apply piece_valid|].
  intros f v Hfv. destruct (Hd f v Hfv) as [Hf Hv]. split; [done|].
  by apply piece_value.
Qed.

End TextFacts.

(* ================================================================== *)
(** * [json.load] reads back what [json.dump] wrote *)
(* ================================================================== *)

Module LoadFacts.
Import TextIO JsonLoad TextFacts.

Lemma skip_ws_app w x : all_chars is_ws w = true → skip_ws (w +:+ x) = skip_ws x.
Proof.
  induction w as [|a w IH]; [done|]. simpl all_chars.
  intros [Ha Hw]%andb_prop. rewrite PyFacts.app_cons.
  cbn [skip_ws]. rewrite Ha. auto.
Qed.

Lemma skip_ws_stop a r : is_ws a = false → skip_ws (String a r) = String a r.
Proof. intros Ha. cbn [skip_ws]. by rewrite Ha. Qed.

(** The scanner of strings inverts the escapes of the encoder. *)
Lemma scan_string_escape s : ∀ rest,
  scan_string (Json.escape s +:+ String "034" rest) = Some (s, rest).
Proof.
  induction s as [|a s IH]; intros rest; [reflexivity|].
  cbn [Json.escape]. rewrite JsonFacts.app_assoc. specialize (IH rest).
  destruct a as [[] [] [] [] [] [] [] []];
    match goal with
    | |- context [Json.escape_char ?a] =>
        let e := eval vm_compute in (Json.escape_char a) in
        change (Json.escape_char a) with e
    end;
    rewrite ?PyFacts.app_cons, ?PyFacts.app_nil;
    simpl; rewrite IH; reflexivity.
Qed.

Lemma span_digits_app ds c rest :
  all_chars Py.is_digit ds = true → Py.is_digit c = false →
  span_digits (ds +:+ String c rest) = (ds, String c rest).
Proof.
  intros Hds Hc. induction ds as [|a ds IH].
  - rewrite PyFacts.app_nil. cbn [span_digits]. by rewrite Hc.
  - simpl in Hds. apply andb_prop in Hds as [Ha Hds].
    rewrite PyFacts.app_cons. cbn [span_digits]. rewrite Ha.
    by rewrite (IH Hds).
Qed.

(** The decimal text of a positive number starts with a digit that is
    not zero. *)
Lemma to_uint_head p :
  ∃ a ds,
    NilEmpty.string_of_uint (Pos.to_uint p) = String a ds ∧
    Py.is_digit a = true ∧ Ascii.eqb a "0" = false ∧
    all_chars Py.is_digit ds = true.
Proof.
  pose proof (DecimalZ.to_of (Z.to_int (Z.pos p))) as Hn.
  rewrite DecimalZ.of_to in Hn.
  change (Z.to_int (Z.pos p)) with (Decimal.Pos (Pos.to_uint p)) in Hn.
  simpl in Hn. injection Hn as Hn.
  pose proof (DecimalPos.Unsigned.of_to p) as Hof.
  pose proof (DecimalPos.Unsigned.to_uint_nonnil p) as Hnil.
  destruct (Pos.to_uint p) as [|d|d|d|d|d|d|d|d|d|d] eqn:Hu; [done| |..];
    try (eexists _, _; split; [reflexivity|];
         split; [reflexivity|]; split; [reflexivity|];
         apply PyFacts.uint_digits).
  exfalso. unfold Decimal.unorm in Hn. simpl in Hn.
  destruct (Decimal.nzhead d) as [|d'|d'|d'|d'|d'|d'|d'|d'|d'|d'] eqn:Hz;
    try discriminate Hn.
  - injection Hn as ->. discriminate Hof.
  - by apply (DecimalFacts.nzhead_nonzero d d').
Qed.

Lemma str_of_int_pos p :
  Py.str_of_int (Z.pos p) = NilEmpty.string_of_uint (Pos.to_uint p).
Proof.
  unfold Py.str_of_int. simpl. unfold NilZero.string_of_uint.
  pose proof (DecimalPos.Unsigned.to_uint_nonnil p) as Hnil.
  by destruct (Pos.to_uint p).
Qed.

Lemma str_of_int_neg p :
  Py.str_of_int (Z.neg p) =
    String "-" (NilEmpty.string_of_uint (Pos.to_uint p)).
Proof.
  unfold Py.str_of_int. simpl. unfold NilZero.string_of_uint.
  pose proof (DecimalPos.Unsigned.to_uint_nonnil p) as Hnil.
  by destruct (Pos.to_uint p).
Qed.

Lemma digit_facts a :
  Py.is_digit a = true →
  Ascii.eqb a "-" = false ∧ Ascii.eqb a "034" = false ∧
  Ascii.eqb a "{" = false ∧ Ascii.eqb a "[" = false ∧ is_ws a = false.
Proof. destruct a as [[] [] [] [] [] [] [] []]; vm_compute; intuition congruence. Qed.

Lemma scan_constant_digit a r :
  Py.is_digit a = true → scan_constant (String a r) = None.
Proof.
  destruct a as [[] [] [] [] [] [] [] []]; intros H;
    try (vm_compute in H; discriminate H); reflexivity.
Qed.

Lemma scan_constant_minus a r :
  Py.is_digit a = true → scan_constant (String "-" (String a r)) = None.
Proof.
  destruct a as [[] [] [] [] [] [] [] []]; intros H;
    try (vm_compute in H; discriminate H); reflexivity.
Qed.

Lemma delim_cases c : delim c = true → c = ","%char ∨ c = "010"%char.
Proof.
  unfold delim. intros [H|H]%orb_prop; apply Ascii.eqb_eq in H; auto.
Qed.

(** The digits [String a ds], which do not start with a zero unless they
    are the zero, are read as one integer literal in front of a
    delimiter. *)
Lemma scan_number_digits sign a ds c rest n :
  (sign = "" ∨ sign = "-") →
  Py.is_digit a = true → all_chars Py.is_digit ds = true →
  (Ascii.eqb a "0" = true → ds = "") →
  delim c = true →
  Py.int_of_str (sign +:+ String a ds) = Some n →
  scan_number (sign +:+ String a ds +:+ String c rest) =
    Some (PInt n, String c rest).
Proof.
  intros Hsign Ha Hds Hzero Hc Hn.
  destruct (digit_facts a Ha) as (Hm & _).
  assert (scan_int (sign +:+ String a ds +:+ String c rest) =
          Some (sign +:+ String a ds, String c rest)) as Hint.
  { assert (Py.is_digit c = false) as Hcd
      by (destruct (delim_cases c Hc) as [-> | ->]; reflexivity).
    unfold scan_int.
    destruct Hsign as [-> | ->]; flatten.
    - rewrite Hm. destruct (Ascii.eqb a "0") eqn:H0.
      + rewrite (Hzero eq_refl). flatten.
        apply Ascii.eqb_eq in H0. by subst a.
      + rewrite Ha. by rewrite (span_digits_app _ _ _ Hds Hcd).
    - change (Ascii.eqb "-" "-") with true. cbv iota.
      destruct (Ascii.eqb a "0") eqn:H0.
      + rewrite (Hzero eq_refl). flatten.
        apply Ascii.eqb_eq in H0. by subst a.
      + rewrite Ha. by rewrite (span_digits_app _ _ _ Hds Hcd). }
  unfold scan_number. rewrite <- JsonFacts.app_assoc in Hint.
  rewrite <- JsonFacts.app_assoc. rewrite Hint.
  destruct (delim_cases c Hc) as [-> | ->]; simpl; by rewrite Hn.
Qed.

Lemma scan_number_str_of_int n c rest :
  delim c = true →
  scan_number (Py.str_of_int n +:+ String c rest) =
    Some (PInt n, String c rest).
Proof.
  intros Hc. pose proof (PyFacts.int_of_str_of_int n) as Hn.
  destruct n as [|p|p].
  - apply (scan_number_digits "" "0" "" c rest 0); auto.
  - rewrite str_of_int_pos in *.
    destruct (to_uint_head p) as (a & ds & Heq & Ha & H0 & Hds).
    rewrite Heq in *.
    apply (scan_number_digits "" a ds c rest (Z.pos p)); auto.
    intros H. congruence.
  - rewrite str_of_int_neg in *.
    destruct (to_uint_head p) as (a & ds & Heq & Ha & H0 & Hds).
    rewrite Heq in *.
    apply (scan_number_digits "-" a ds c rest (Z.neg p)); auto.
    intros H. congruence.
Qed.

Lemma scan_once_quote f x :
  scan_once (S f) (String "034" x) =
    match scan_string x with
    | Some (t, r) => Some (PStr t, r)
    | None => None
    end.
Proof. reflexivity. Qed.

Lemma scan_once_digit f a r :
  Py.is_digit a = true →
  scan_once (S f) (String a r) = scan_number (String a r).
Proof.
  intros Ha.
  destruct (digit_facts a Ha) as (_ & Hq & Hb & Hk & _).
  cbn [scan_once]. unfold Json.quote. rewrite Hq, Hb, Hk.
  by rewrite (scan_constant_digit a r Ha).
Qed.

Lemma scan_once_minus f a r :
  Py.is_digit a = true →
  scan_once (S f) (String "-" (String a r)) =
    scan_number (String "-" (String a r)).
Proof.
  intros Ha. cbn [scan_once].
  change (Ascii.eqb "-" Json.quote) with false.
  change (Ascii.eqb "-" "{") with false.
  change (Ascii.eqb "-" "[") with false. cbv iota.
  by rewrite (scan_constant_minus a r Ha).
Qed.

(** A value of a metadata dictionary, in front of a delimiter. *)
Lemma scan_once_value v f c rest :
  delim c = true →
  scan_once (S f) (Json.value v +:+ String c rest) =
    Some (pyvalue_of v, String c rest).
Proof.
  intros Hc. destruct v as [t|n]; cbn [Json.value pyvalue_of].
  - unfold Json.str, Json.quote. flatten.
    rewrite scan_once_quote. by rewrite scan_string_escape.
  - rewrite <- (scan_number_str_of_int n c rest Hc).
    destruct n as [|p|p].
    + by apply scan_once_digit.
    + rewrite str_of_int_pos.
      destruct (to_uint_head p) as (a & ds & -> & Ha & _).
      rewrite PyFacts.app_cons. by apply scan_once_digit.
    + rewrite str_of_int_neg.
      destruct (to_uint_head p) as (a & ds & -> & Ha & _).
      rewrite !PyFacts.app_cons. by apply scan_once_minus.
Qed.

Lemma value_start v x : skip_ws (Json.value v +:+ x) = Json.value v +:+ x.
Proof.
  destruct v as [t|n]; cbn [Json.value].
  - unfold Json.str. flatten. by apply skip_ws_stop.
  - destruct n as [|p|p].
    + by apply skip_ws_stop.
    + rewrite str_of_int_pos.
      destruct (to_uint_head p) as (a & ds & -> & Ha & _).
      rewrite PyFacts.app_cons. apply skip_ws_stop.
      by destruct (digit_facts a Ha) as (_ & _ & _ & _ & ?).
    + rewrite str_of_int_neg. rewrite PyFacts.app_cons.
      by apply skip_ws_stop.
Qed.

Lemma to_dict_fresh (acc l : list (string * pyvalue)) :
  NoDup (acc ++ l).*1 →
  foldl (λ d kv, PyDict.set kv.1 kv.2 d) acc l = acc ++ l.
Proof.
  revert acc. induction l as [|[k v] l IH]; intros acc Hnd.
  - by rewrite List.app_nil_r.
  - simpl. rewrite IH.
    + assert (PyDict.set k v acc = acc ++ [(k, v)]) as ->.
      { assert (k ∉ acc.*1) as Hk.
        { rewrite fmap_app in Hnd. apply NoDup_app in Hnd as (_ & Hd & _).
          intros Hin. apply (Hd k Hin). simpl. apply list_elem_of_here. }
        clear -Hk. induction acc as [|[k' v'] acc IH]; [done|].
        simpl in Hk |- *. apply not_elem_of_cons in Hk as [Hne Hk].
        rewrite decide_False by done. by rewrite IH. }
      by rewrite <- (assoc (++)).
    + assert (PyDict.set k v acc = acc ++ [(k, v)]) as ->.
      { assert (k ∉ acc.*1) as Hk.
        { rewrite fmap_app in Hnd. apply NoDup_app in Hnd as (_ & Hd & _).
          intros Hin. apply (Hd k Hin). simpl. apply list_elem_of_here. }
        clear -Hk. induction acc as [|[k' v'] acc IH]; [done|].
        simpl in Hk |- *. apply not_elem_of_cons in Hk as [Hne Hk].
        rewrite decide_False by done. by rewrite IH. }
      by rewrite <- (assoc (++)).
Qed.

Lemma to_dict_NoDup l : NoDup l.*1 → to_dict l = l.
Proof. intros Hl. unfold to_dict. by rewrite to_dict_fresh. Qed.

Lemma skip_ws_cons a x : is_ws a = true → skip_ws (String a x) = skip_ws x.
Proof. intros Ha. cbn [skip_ws]. by rewrite Ha. Qed.

Lemma concat_sep_cons sep x l :
  l ≠ [] → Json.concat_sep sep (x :: l) = x +:+ sep +:+ Json.concat_sep sep l.
Proof. by destruct l. Qed.

Lemma str_of_int_head n : ∃ a r, Py.str_of_int n = String a r ∧ is_ws a = false.
Proof.
  destruct n as [|p|p].
  - by eexists _, _.
  - rewrite str_of_int_pos.
    destruct (to_uint_head p) as (a & ds & -> & Ha & _).
    eexists _, _. split; [done|].
    by destruct (digit_facts a Ha) as (_ & _ & _ & _ & ?).
  - rewrite str_of_int_neg. by eexists _, _.
Qed.

Lemma value_length v : 1 ≤ String.length (Json.value v).
Proof.
  destruct v as [t|n]; cbn [Json.value].
  - unfold Json.str. flatten. simpl. lia.
  - destruct (str_of_int_head n) as (a & r & -> & _). simpl. lia.
Qed.

Ltac chars := cbn [Ascii.eqb Bool.eqb andb].

(** The members of an object, as [json.dump] writes them with an
    indentation, and the scanner of objects. *)
Section members.
Context {V : Type} (enc : V → string) (conv : V → pyvalue) (need : V → nat).
Variable ind : string.
Hypothesis Hind : all_chars is_ws ind = true.
Hypothesis Hstart : ∀ v x, skip_ws (enc v +:+ x) = enc v +:+ x.
Hypothesis Hval : ∀ v f c rest, need v ≤ f → delim c = true →
  scan_once f (enc v +:+ String c rest) = Some (conv v, String c rest).
Hypothesis Hlen : ∀ v, need v ≤ String.length (enc v).

Lemma members_head (d : list (string * V)) sep x :
  d ≠ [] →
  ∃ r, Json.concat_sep sep
         ((λ kv, Json.str kv.1 +:+ ": " +:+ enc kv.2) <$> d) +:+ x =
       String "034" r.
Proof.
  destruct d as [|[k v] d]; [done|]. intros _. rewrite fmap_cons.
  destruct (decide (d = [])) as [->|Hd].
  - cbn [fmap list_fmap Json.concat_sep fst snd].
    unfold Json.str, Json.quote. flatten. by eexists.
  - rewrite concat_sep_cons by (by intros ?%fmap_nil_inv).
    cbn [fst snd]. unfold Json.str, Json.quote. flatten. by eexists.
Qed.

Lemma parse_member f k v c x :
  need v ≤ f → delim c = true →
  parse_object (S f)
    (Json.str k +:+ ": " +:+ enc v +:+ String c x) =
    match skip_ws (String c x) with
    | String d r3 =>
        if Ascii.eqb d "}" then Some ([(k, conv v)], r3)
        else if Ascii.eqb d "," then
          match parse_object f (skip_ws r3) with
          | Some (pairs, r4) => Some ((k, conv v) :: pairs, r4)
          | None => None
          end
        else None
    | EmptyString => None
    end.
Proof.
  intros Hf Hc. unfold Json.str, Json.quote. flatten.
  cbn [parse_object]. unfold Json.quote. chars. cbv iota.
  rewrite scan_string_escape.
  rewrite (skip_ws_stop ":") by reflexivity. chars. cbv iota.
  rewrite (skip_ws_cons " ") by reflexivity.
  rewrite Hstart. by rewrite (Hval v f c x Hf Hc).
Qed.

Lemma parse_members (d : list (string * V)) : ∀ f rest,
  d ≠ [] → sum_need need d ≤ f →
  parse_object f
    (Json.concat_sep ("," +:+ Json.newline +:+ ind +:+ "  ")
       ((λ kv, Json.str kv.1 +:+ ": " +:+ enc kv.2) <$> d) +:+
     Json.newline +:+ ind +:+ "}" +:+ rest) =
    Some ((λ kv, (kv.1, conv kv.2)) <$> d, rest).
Proof.
  induction d as [|[k v] d IH]; intros f rest Hne Hf; [done|].
  unfold sum_need in Hf. cbn [foldr snd] in Hf. fold (sum_need need d) in Hf.
  destruct f as [|f]; [lia|]. rewrite !fmap_cons. cbn [fst snd].
  destruct (decide (d = [])) as [->|Hd].
  - cbn [fmap list_fmap Json.concat_sep]. unfold Json.newline.
    rewrite !JsonFacts.app_assoc.
    rewrite (PyFacts.app_cons "010" "" _), PyFacts.app_nil.
    rewrite parse_member by (lia || reflexivity).
    rewrite (skip_ws_cons "010") by reflexivity.
    rewrite (skip_ws_app ind) by exact Hind.
    rewrite PyFacts.app_cons, PyFacts.app_nil.
    rewrite (skip_ws_stop "}") by reflexivity. by chars.
  - rewrite concat_sep_cons by (by intros ?%fmap_nil_inv).
    rewrite !JsonFacts.app_assoc.
    rewrite (PyFacts.app_cons "," "" _), PyFacts.app_nil.
    rewrite parse_member by (lia || reflexivity).
    rewrite (skip_ws_stop ",") by reflexivity. chars. cbv iota.
    unfold Json.newline at 1.
    rewrite (PyFacts.app_cons "010" "" _), PyFacts.app_nil.
    rewrite (skip_ws_cons "010") by reflexivity.
    rewrite (skip_ws_app ind) by exact Hind.
    rewrite !PyFacts.app_cons, PyFacts.app_nil.
    rewrite !skip_ws_cons by reflexivity.
    change (String "," ("" +:+ Json.newline +:+ ind +:+ "  "))
      with ("," +:+ Json.newline +:+ ind +:+ "  ").
    change (String "}" ("" +:+ rest)) with ("}" +:+ rest).
    destruct (members_head d ("," +:+ Json.newline +:+ ind +:+ "  ")
                (Json.newline +:+ ind +:+ "}" +:+ rest) Hd) as (r & Hr).
    rewrite Hr. rewrite (skip_ws_stop "034") by reflexivity.
    rewrite <- Hr.
    rewrite (IH f rest Hd) by lia. reflexivity.
Qed.

Lemma scan_once_object (d : list (string * V)) f rest :
  S (sum_need need d) ≤ f →
  scan_once f (Json.object enc ind d +:+ rest) =
    Some (PDict (to_dict ((λ kv, (kv.1, conv kv.2)) <$> d)), rest).
Proof.
  intros Hf. destruct f as [|f]; [lia|]. apply le_S_n in Hf.
  destruct (decide (d = [])) as [->|Hd]; [reflexivity|].
  assert (Json.object enc ind d =
          "{" +:+ Json.newline +:+ ind +:+ "  " +:+
          Json.concat_sep ("," +:+ Json.newline +:+ ind +:+ "  ")
            ((λ kv, Json.str kv.1 +:+ ": " +:+ enc kv.2) <$> d) +:+
          Json.newline +:+ ind +:+ "}") as -> by (by destruct d).
  destruct (members_head d ("," +:+ Json.newline +:+ ind +:+ "  ")
              (Json.newline +:+ ind +:+ "}" +:+ rest) Hd) as (r & Hr).
  pose proof (parse_members d f rest Hd Hf) as Hp.
  rewrite !JsonFacts.app_assoc.
  rewrite (PyFacts.app_cons "{" "" _), PyFacts.app_nil.
  cbn [scan_once]. unfold Json.quote. chars. cbv iota.
  unfold Json.newline at 1.
  rewrite (PyFacts.app_cons "010" "" _), PyFacts.app_nil.
  rewrite (skip_ws_cons "010") by reflexivity.
  rewrite (skip_ws_app ind) by exact Hind.
  rewrite (skip_ws_app "  ") by reflexivity.
  rewrite Hr. rewrite (skip_ws_stop "034") by reflexivity.
  chars. cbv iota. rewrite <- Hr. by rewrite Hp.
Qed.

Lemma object_start (d : list (string * V)) x :
  skip_ws (Json.object enc ind d +:+ x) = Json.object enc ind d +:+ x.
Proof. destruct d; by apply skip_ws_stop. Qed.

Lemma members_fuel sep (d : list (string * V)) :
  sum_need need d ≤
    String.length
      (Json.concat_sep sep ((λ kv, Json.str kv.1 +:+ ": " +:+ enc kv.2) <$> d)).
Proof.
  induction d as [|[k v] d IH]; [simpl; lia|].
  unfold sum_need. cbn [foldr snd]. fold (sum_need need d).
  rewrite fmap_cons. cbn [fst snd]. pose proof (Hlen v) as Hv.
  destruct (decide (d = [])) as [->|Hd].
  - cbn [fmap list_fmap Json.concat_sep]. rewrite !length_app.
    cbn [String.length sum_need foldr]. lia.
  - rewrite concat_sep_cons by (by intros ?%fmap_nil_inv).
    rewrite !length_app. cbn [String.length]. lia.
Qed.

Lemma object_fuel (d : list (string * V)) :
  S (sum_need need d) ≤ String.length (Json.object enc ind d).
Proof.
  destruct (decide (d = [])) as [->|Hd]; [simpl; lia|].
  assert (Json.object enc ind d =
          "{" +:+ Json.newline +:+ ind +:+ "  " +:+
          Json.concat_sep ("," +:+ Json.newline +:+ ind +:+ "  ")
            ((λ kv, Json.str kv.1 +:+ ": " +:+ enc kv.2) <$> d) +:+
          Json.newline +:+ ind +:+ "}") as -> by (by destruct d).
  pose proof (members_fuel ("," +:+ Json.newline +:+ ind +:+ "  ") d).
  rewrite !length_app. cbn [String.length]. lia.
Qed.

End members.

Lemma keys_fmap {A B} (g : A → B) (l : list (string * A)) :
  ((λ kv, (kv.1, g kv.2)) <$> l).*1 = l.*1.
Proof. induction l as [|[k v] l IH]; [done|]. simpl. by f_equal. Qed.

(** [json.loads] reads the text of an index back as the index. *)
Lemma loads_dumps idx :
  NoDup idx.*1 → (∀ k d, (k, d) ∈ idx → NoDup d.*1) →
  loads (Json.dumps idx) = Some (pyvalue_of_index idx).
Proof.
  intros Hk Hd. unfold loads, Json.dumps.
  set (inner := λ d : info, PDict (to_dict ((λ kv, (kv.1, pyvalue_of kv.2)) <$> d))).
  set (need := λ d : info, S (sum_need (λ _ : jvalue, 1) d)).
  assert (∀ (d : info) f rest, need d ≤ f →
            scan_once f (Json.object Json.value "  " d +:+ rest) =
              Some (inner d, rest)) as Hinner.
  { intros d f rest Hf.
    apply (scan_once_object Json.value pyvalue_of (λ _, 1) "  ");
      [reflexivity|apply value_start| |exact Hf].
    intros v [|f'] c r ? ?; [lia|]. by apply scan_once_value. }
  rewrite <- (app_nil_r (Json.object (Json.object Json.value "  ") "" idx)) at 2.
  rewrite (object_start (Json.object Json.value "  ") "").
  rewrite (scan_once_object (Json.object Json.value "  ") inner need "").
  - cbn [skip_ws String.eqb]. f_equal. unfold pyvalue_of_index. f_equal.
    rewrite to_dict_NoDup by (by rewrite keys_fmap).
    clear Hk. induction idx as [|[k d] idx IH]; [done|].
    rewrite !fmap_cons. f_equal.
    + cbn [fst snd]. f_equal. unfold inner, pyvalue_of_info. f_equal.
      apply to_dict_NoDup. rewrite keys_fmap.
      apply (Hd k d). apply list_elem_of_here.
    + apply IH. intros k' d' Hin. apply (Hd k' d').
      by apply list_elem_of_further.
  - reflexivity.
  - intros d x. apply (object_start Json.value "  ").
  - intros d f c rest Hf _. by apply Hinner.
  - pose proof (object_fuel (Json.object Json.value "  ") need "" ) as Hfu.
    specialize (Hfu (λ d, object_fuel Json.value (λ _, 1) "  " value_length d) idx).
    lia.
Qed.

End LoadFacts.

(* ================================================================== *)
(** * The index across a restart *)
(* ================================================================== *)

Module RestartFacts.
Import MediaStorage TextIO.

Lemma texts_valid_b_sound s : texts_valid_b s = true → texts_valid s.
Proof.
  unfold texts_valid_b, texts_valid. intros H k r f t Hkr Hft.
  rewrite forallb_forall in H. apply list_elem_of_In in Hkr.
  specialize (H _ Hkr). cbn [snd] in H. rewrite forallb_forall in H.
  apply list_elem_of_In in Hft. by specialize (H _ Hft).
Qed.

Lemma valid_get_key c m : utf8_valid (_get_key c m) = true.
Proof.
  unfold _get_key.
  rewrite (TextFacts.piece_str_of_int c ("|" +:+ Py.str_of_int m)).
  rewrite (TextFacts.piece_valid "|" eq_refl (Py.str_of_int m)).
  rewrite <- (TextFacts.app_nil_r (Py.str_of_int m)).
  by rewrite (TextFacts.piece_str_of_int m "").
Qed.

Lemma wf_info_fields base k d f v :
  wf_info base k d → (f, v) ∈ d → utf8_valid f = true.
Proof.
  intros [] Hin; unfold listed_info, fresh_info in Hin; simpl in Hin;
    repeat (apply elem_of_cons in Hin as [[= -> ->]|Hin]; [reflexivity|]);
    by apply elem_of_nil in Hin.
Qed.

Lemma wf_info_NoDup base k d : wf_info base k d → NoDup d.*1.
Proof.
  intros []; unfold listed_info, fresh_info; simpl;
    apply (bool_decide_unpack _); vm_compute; exact I.
Qed.

Lemma index_doc_elem s k d :
  wf s → (k, d) ∈ index_doc s →
  ∃ r, (k, r) ∈ index s ∧ deref s r = d ∧ wf_info (base_dir s) k d.
Proof.
  intros Hwf ([k' r] & [= -> ->] & Hin)%list_elem_of_fmap.
  exists r. split; [done|]. split; [done|].
  destruct (wf_entries s Hwf _ _ Hin) as (d & Hd & Hinfo).
  unfold deref. by rewrite Hd.
Qed.

(** The index file holds the text of the index in memory: [_load_index]
    binds the index to the same keys and records. *)
Lemma load_synced s :
  wf s → texts_valid s →
  files s !! index_file s = Some (index_bytes s) →
  _load_index s = Bound (pyvalue_of_index (index_doc s)).
Proof.
  intros Hwf Ht Hfile. unfold _load_index. rewrite Hfile. cbv zeta.
  unfold index_bytes. rewrite String.string_of_list_byte_of_string.
  rewrite TextFacts.valid_dumps.
  - rewrite LoadFacts.loads_dumps; [done| |].
    + unfold index_doc. rewrite LoadFacts.keys_fmap. apply (wf_keys s Hwf).
    + intros k d Hin.
      destruct (index_doc_elem s k d Hwf Hin) as (r & _ & _ & Hinfo).
      by apply (wf_info_NoDup _ _ _ Hinfo).
  - intros k d Hin.
    destruct (index_doc_elem s k d Hwf Hin) as (r & Hkr & Hd & Hinfo).
    split.
    + assert (∃ c m, k = _get_key c m) as (c & m & ->)
        by (destruct Hinfo; eauto).
      apply valid_get_key.
    + intros f v Hfv. split; [by apply (wf_info_fields _ _ _ _ _ Hinfo Hfv)|].
      intros t ->. apply (Ht k r f t Hkr). by rewrite Hd.
Qed.

(** [_load_index] looks at the index file only. *)
Lemma load_index_ext s s' :
  base_dir s' = base_dir s →
  files s' !! index_file s = files s !! index_file s →
  _load_index s' = _load_index s.
Proof.
  intros Hb Hf. unfold _load_index.
  assert (index_file s' = index_file s) as ->
    by (unfold index_file; by rewrite Hb).
  by rewrite Hf.
Qed.

End RestartFacts.

Section restart_properties.
Import MediaStorage.
Variable guess_type : string → option string.

(** X15. Saving and loading the index is a round trip.  In a well-formed
    store whose strings are texts and whose index file can be written,
    [_save_index] succeeds and leaves the index in memory as it is; a
    [_load_index] that reads the file afterwards, as the constructor does
    at the next start, binds the index to a dictionary with the same keys
    in the same order, each with the same fields, the strings as strings
    and the integers as integers. *)
Theorem load_after_save_round_trip s :
  wf s → index_writable s → texts_valid s →
  ∃ s',
    _save_index s = (Ok tt, s') ∧
    index_doc s' = index_doc s ∧
    _load_index s' = Bound (pyvalue_of_index (index_doc s)).
Proof.
  intros Hwf Hw Ht. exists (persisted s).
  split; [by apply Run.save_index_ok|]. split; [reflexivity|].
  change (index_doc s) with (index_doc (persisted s)).
  apply RestartFacts.load_synced.
  - by apply Inv.wf_persisted.
  - exact Ht.
  - change (index_file (persisted s)) with (index_file s).
    change (index_bytes (persisted s)) with (index_bytes s).
    apply lookup_insert_eq.
Qed.

(** X16. A save whose record cannot be written is forgotten at the next
    start.  When the index file holds the index of a well-formed store,
    the copy of the source can be made and the index file cannot be opened
    for writing, [save_media] raises the error of the open.  The copy is
    in the store and the index in memory has the new record; but a
    [_load_index] in that state, as the constructor runs at the next
    start, binds the index to the records of before the call. *)
Theorem failed_save_not_seen_after_restart c m src mt now s content :
  let mime := resolved_mime_type guess_type src mt in
  let ext := resolved_extension src mime in
  let dest := _get_file_path (base_dir s) c m ext in
  wf s → texts_valid s →
  files s !! index_file s = Some (index_bytes s) →
  files s !! src = Some content →
  src ≠ dest → dest ∉ locked s → index_file s ∈ locked s →
  ∃ s',
    save_media guess_type c m src mt now s =
      (Raise (PermissionError
                ("[Errno 13] Permission denied: '" +:+ index_file s +:+ "'")),
       s') ∧
    files s' !! dest = Some content ∧
    get_media c m s' = (Ok (Some (length (heap s))), s') ∧
    _load_index s' = Bound (pyvalue_of_index (index_doc s)).
Proof.
  intros mime ext dest Hwf Ht Hfile Hsrc Hne Hl Hi.
  rewrite (Run.save_media_run guess_type _ _ _ _ _ _ _ Hsrc).
  fold mime ext dest. rewrite !decide_False by done.
  exists (stored s c m src content mime now ext). split_and!.
  - unfold _save_index, OS.write_text. munfold.
    rewrite decide_True by done. done.
  - simpl. fold dest. apply lookup_insert_eq.
  - rewrite Reads.get_media_run. simpl. by rewrite DictFacts.get_set_eq.
  - rewrite <- (RestartFacts.load_synced s Hwf Ht Hfile).
    apply RestartFacts.load_index_ext; [reflexivity|].
    simpl. apply lookup_insert_ne. apply KeyFacts.file_path_not_index.
Qed.

End restart_properties.

Lemma load_after_save_round_trip_witness :
  ∃ s',
    MediaStorage._save_index Examples.two = (Ok tt, s') ∧
    MediaStorage.index_doc s' = MediaStorage.index_doc Examples.two ∧
    _load_index s' =
      Bound (pyvalue_of_index (MediaStorage.index_doc Examples.two)).
Proof.
  apply (load_after_save_round_trip Examples.two).
  - apply Check.wf_b_sound. vm_compute. reflexivity.
  - by_evaluation.
  - apply RestartFacts.texts_valid_b_sound. vm_compute. reflexivity.
Defined.

Lemma failed_save_not_seen_after_restart_witness :
  ∃ s',
    MediaStorage.save_media Examples.guess_type 100 6 "/tmp/note" None
      Examples.t2 Scenes.one_read_only =
      (Raise (PermissionError
                "[Errno 13] Permission denied: '/home/u/.telegram-mcp/media/index.json'"),
       s') ∧
    files s' !! "/home/u/.telegram-mcp/media/chat100_msg6.bin" =
      Some Examples.note ∧
    MediaStorage.get_media 100 6 s' = (Ok (Some 1), s') ∧
    _load_index s' =
      Bound (pyvalue_of_index (MediaStorage.index_doc Scenes.one_read_only)).
Proof.
  apply (failed_save_not_seen_after_restart Examples.guess_type 100 6
           "/tmp/note" None Examples.t2 Scenes.one_read_only Examples.note).
  - apply Check.wf_b_sound. vm_compute. reflexivity.
  - apply RestartFacts.texts_valid_b_sound. vm_compute. reflexivity.
  - vm_compute. reflexivity.
  - vm_compute. reflexivity.
  - by_evaluation.
  - by_evaluation.
  - by_evaluation.
Defined.
